(** * jax.experimental.rnn: the packed LSTM weight layout and the reference LSTM

    A shallow embedding of [src/jax/experimental/rnn.py]:
    - the shape calculator ([_W_ih_l] ... [_get_params_shapes_in_lstm],
      [get_num_params_in_lstm]);
    - [unpack_lstm_weights], the walk over the packed one-dimensional buffer;
    - [lstm_ref], the reference recurrence, with its local [lstm_cell];
    - [lstm_bwd], the backward rule around the opaque kernel primitive.

    Python integers are [Z]; a Python [dict] keyed by pseudo-layer index is a
    [gmap Z _]; a raised exception is the [Raise] branch of [result]. *)

From Stdlib Require Import ZArith List Lia Bool PrimFloat Reals Lra.
From stdpp Require Import base option list gmap.

Local Open Scope Z_scope.

(** ** Exceptions and the error monad *)

Inductive exception : Type :=
| NotImplementedError
| KeyError
| IndexError
| NameError
| ValueError
| ShapeError.   (* the array library refusing a reshape: a ValueError of
                   NumPy, a TypeError of JAX *)

Inductive result (A : Type) : Type :=
| Ok (a : A)
| Raise (e : exception).
Arguments Ok {A} a.
Arguments Raise {A} e.

#[global] Instance result_ret : MRet result := fun A a => Ok a.
#[global] Instance result_bind : MBind result := fun A B k r =>
  match r with
  | Ok a => k a
  | Raise e => Raise e
  end.

(** A Python [for x in xs: body] over a threaded state, stopping at the first
    exception. *)
Fixpoint for_each {S X : Type} (xs : list X) (body : X -> S -> result S)
  (s : S) : result S :=
  match xs with
  | [] => Ok s
  | x :: xs' => s' ← body x s; for_each xs' body s'
  end.

(** ** Python built-ins used by the module *)

(** [range(n)]: empty when [n <= 0]. *)
Definition range (n : Z) : list Z := map Z.of_nat (seq 0 (Z.to_nat n)).

(** [jax._src.util.prod]: the running product from 1. *)
Definition prod (xs : list Z) : Z := fold_left Z.mul xs 1.

(** [sum(xs)]: the running sum from 0. *)
Definition sum (xs : list Z) : Z := fold_left Z.add xs 0.

(** [xs[i]] on a Python list: a negative index counts from the end, an index
    out of range raises IndexError. *)
Definition list_index {A : Type} (xs : list A) (i : Z) : result A :=
  let n := Z.of_nat (length xs) in
  let j := if i <? 0 then i + n else i in
  if (0 <=? j) && (j <? n) then
    match xs !! Z.to_nat j with
    | Some x => Ok x
    | None => Raise IndexError
    end
  else Raise IndexError.

(** [d[k]] on a dict: KeyError when the key is absent. *)
Definition dict_get {A : Type} (d : gmap Z A) (k : Z) : result A :=
  match d !! k with
  | Some a => Ok a
  | None => Raise KeyError
  end.

(** One bound of a slice [a[lo:hi]] on a sequence of length [n]: a negative
    bound counts from the end, and every bound is clamped into [0, n]. *)
Definition slice_bound (n i : Z) : Z :=
  if i <? 0 then Z.max 0 (i + n) else Z.min i n.

(** [a[lo:hi]] on a one-dimensional array. *)
Definition slice {A : Type} (a : list A) (lo hi : Z) : list A :=
  let n := Z.of_nat (length a) in
  let lo' := slice_bound n lo in
  let hi' := slice_bound n hi in
  take (Z.to_nat (hi' - lo')) (drop (Z.to_nat lo') a).

(** ** Shape calculator *)

Abbreviation Shape := (list Z).

(** Shape of W_ii|W_if|W_ig|W_io; [layer_i] indexes pseudo-layers. *)
Definition _W_ih_l (layer_i input_size hidden_size : Z) (bidirectional : bool)
  : Shape :=
  if (layer_i =? 0) || ((layer_i =? 1) && bidirectional) then
    [4 * hidden_size; input_size]
  else
    let num_directions := if bidirectional then 2 else 1 in
    [4 * hidden_size; num_directions * hidden_size].

(** Shape of W_hi|W_hf|W_hg|W_ho. *)
Definition _W_hh_l (layer_i input_size hidden_size : Z) (bidirectional : bool)
  : Shape :=
  [4 * hidden_size; hidden_size].

(** Shape of b_ii|b_if|b_ig|b_io. *)
Definition _b_ih_l (layer_i input_size hidden_size : Z) (bidirectional : bool)
  : Shape :=
  [4 * hidden_size].

(** Shape of b_hi|b_hf|b_hg|b_ho. *)
Definition _b_hh_l (layer_i input_size hidden_size : Z) (bidirectional : bool)
  : Shape :=
  [4 * hidden_size].

(** The two nested loops of [_get_params_shapes_in_lstm], appending one shape
    per pseudo-layer and weight kind. *)
Definition append_shapes (w_kinds : list (Z -> Z -> Z -> bool -> Shape))
  (num_pseudo_layers input_size hidden_size : Z) (bidirectional : bool)
  (layer_shapes : list Shape) : list Shape :=
  fold_left
    (fun acc i =>
       fold_left
         (fun acc' w_kind =>
            acc' ++ [w_kind i input_size hidden_size bidirectional])
         w_kinds acc)
    (range num_pseudo_layers) layer_shapes.

Definition _get_params_shapes_in_lstm (input_size hidden_size num_layers : Z)
  (bidirectional : bool) : list Shape :=
  let layer_shapes := [] in
  let num_directions := if bidirectional then 2 else 1 in
  let num_pseudo_layers := num_layers * num_directions in
  let linear_weights := [_W_ih_l; _W_hh_l] in
  let layer_shapes :=
    append_shapes linear_weights num_pseudo_layers input_size hidden_size
      bidirectional layer_shapes in
  let bias_weights := [_b_ih_l; _b_hh_l] in
  append_shapes bias_weights num_pseudo_layers input_size hidden_size
    bidirectional layer_shapes.

Definition get_num_params_in_lstm (input_size hidden_size num_layers : Z)
  (bidirectional : bool) : Z :=
  let layer_shapes :=
    _get_params_shapes_in_lstm input_size hidden_size num_layers
      bidirectional in
  sum (map prod layer_shapes).

(** ** Arrays and the packed buffer *)

Local Set Warnings "-register-all".

Section Packing.
Context {E : Type}.

(** The contents of an n-dimensional array, as nested rows ([tolist()]):
    axis 0 is the outermost list. *)
Inductive nd : Type :=
| Elem (x : E)
| Rows (rows : list nd).

(** Row-major flattening ([ravel()]): the last axis varies fastest. *)
Fixpoint flatten (t : nd) : list E :=
  match t with
  | Elem x => [x]
  | Rows rows => concat (map flatten rows)
  end.

(** An array: its [shape] attribute and its contents. *)
Record Array : Type := mkArray { shape : Shape; items : nd }.

(** [n] consecutive blocks of [size] elements each. *)
Fixpoint chunks (n size : nat) (data : list E) : list (list E) :=
  match n with
  | O => []
  | S n' => take size data :: chunks n' size (drop size data)
  end.

Definition size_of (dims : list nat) : nat := foldr Nat.mul 1%nat dims.

(** Lays a flat row-major buffer out along the dimensions [dims]. *)
Fixpoint build (dims : list nat) (data : list E) : nd :=
  match dims with
  | [] => match data with
          | x :: _ => Elem x
          | [] => Rows []
          end
  | d :: dims' => Rows (map (build dims') (chunks d (size_of dims') data))
  end.

(** The dimensions a reshape request denotes for [n] elements, when it is
    accepted: every dimension non-negative and their product [n]; or
    exactly one dimension written -1, inferred from the others. *)
Definition resolve_shape (n : Z) (new_shape : Shape) : option (list nat) :=
  if forallb (fun d => -1 <=? d) new_shape then
    match length (filter (fun d => d = -1) new_shape) with
    | O => if prod new_shape =? n then Some (map Z.to_nat new_shape) else None
    | S O =>
        let known := prod (filter (fun d => d ≠ -1) new_shape) in
        if (0 <? known) && (n mod known =? 0) then
          Some (map (fun d => Z.to_nat (if d =? -1 then n / known else d))
                  new_shape)
        else None
    | _ => None
    end
  else None.

(** [a.reshape(new_shape)] on a one-dimensional array [a]. *)
Definition reshape (a : list E) (new_shape : Shape) : result Array :=
  match resolve_shape (Z.of_nat (length a)) new_shape with
  | Some dims => Ok (mkArray (map Z.of_nat dims) (build dims a))
  | None => Raise ShapeError
  end.

(** *** unpack_lstm_weights *)

(** The local variables of [unpack_lstm_weights]. [slice_log] is a ghost
    variable: the bounds [(lo, hi)] of every slice expression
    [weights[lo:hi]] evaluated so far, oldest first. *)
Record unpack_state : Type := mkState {
  flat_shapes_offset : Z;
  w_offsets : Z;
  W_ih : gmap Z Array;
  W_hh : gmap Z Array;
  b_ih : gmap Z Array;
  b_hh : gmap Z Array;
  slice_log : list (Z * Z)
}.

(** The dict a loop variable [w_kind] is bound to. *)
Inductive weight_kind : Type := K_W_ih | K_W_hh | K_b_ih | K_b_hh.

#[global] Instance weight_kind_eq_dec : EqDecision weight_kind.
Proof. solve_decision. Defined.

Definition dict_of (w_kind : weight_kind) (s : unpack_state) : gmap Z Array :=
  match w_kind with
  | K_W_ih => W_ih s
  | K_W_hh => W_hh s
  | K_b_ih => b_ih s
  | K_b_hh => b_hh s
  end.

(** [w_kind[l] = a]. *)
Definition assign (w_kind : weight_kind) (l : Z) (a : Array)
  (s : unpack_state) : unpack_state :=
  match w_kind with
  | K_W_ih => mkState (flat_shapes_offset s) (w_offsets s)
                (<[l := a]> (W_ih s)) (W_hh s) (b_ih s) (b_hh s) (slice_log s)
  | K_W_hh => mkState (flat_shapes_offset s) (w_offsets s)
                (W_ih s) (<[l := a]> (W_hh s)) (b_ih s) (b_hh s) (slice_log s)
  | K_b_ih => mkState (flat_shapes_offset s) (w_offsets s)
                (W_ih s) (W_hh s) (<[l := a]> (b_ih s)) (b_hh s) (slice_log s)
  | K_b_hh => mkState (flat_shapes_offset s) (w_offsets s)
                (W_ih s) (W_hh s) (b_ih s) (<[l := a]> (b_hh s)) (slice_log s)
  end.

(** The body of the inner loops. *)
Definition unpack_assign (weights : list E) (flat_shapes : list Shape)
  (l : Z) (w_kind : weight_kind) (s : unpack_state) : result unpack_state :=
  shape ← list_index flat_shapes (flat_shapes_offset s);
  let s1 := mkState (flat_shapes_offset s + 1) (w_offsets s)
              (W_ih s) (W_hh s) (b_ih s) (b_hh s) (slice_log s) in
  let num_elems := prod shape in
  let lo := w_offsets s1 in
  let hi := w_offsets s1 + num_elems in
  a ← reshape (slice weights lo hi) shape;
  let s2 := assign w_kind l a s1 in
  Ok (mkState (flat_shapes_offset s2) (w_offsets s2 + num_elems)
        (W_ih s2) (W_hh s2) (b_ih s2) (b_hh s2) (slice_log s2 ++ [(lo, hi)])).

(** The whole body of [unpack_lstm_weights], up to its [return]. *)
Definition unpack_walk (weights : list E)
  (input_size hidden_size num_layers : Z) (bidirectional : bool)
  : result unpack_state :=
  let flat_shapes :=
    _get_params_shapes_in_lstm input_size hidden_size num_layers
      bidirectional in
  let num_directions := if bidirectional then 2 else 1 in
  let num_pseudo_layers := num_layers * num_directions in
  let s0 := mkState 0 0 ∅ ∅ ∅ ∅ [] in
  s1 ← for_each (range num_pseudo_layers)
         (fun l =>
            for_each [K_W_ih; K_W_hh] (unpack_assign weights flat_shapes l))
         s0;
  for_each (range num_pseudo_layers)
    (fun l =>
       for_each [K_b_ih; K_b_hh] (unpack_assign weights flat_shapes l))
    s1.

Definition unpack_lstm_weights (weights : list E)
  (input_size hidden_size num_layers : Z) (bidirectional : bool)
  : result (gmap Z Array * gmap Z Array * gmap Z Array * gmap Z Array) :=
  s ← unpack_walk weights input_size hidden_size num_layers bidirectional;
  Ok (W_ih s, W_hh s, b_ih s, b_hh s).

(** *** Re-flattening

    Follows the spec (round-trip packing): every array flattened row-major,
    concatenated in the unpack order: [W_ih] then [W_hh] per pseudo-layer in
    index order, then [b_ih] then [b_hh] per pseudo-layer in index order.
    [None] when a map lacks a pseudo-layer. *)
Definition pack_pair (first second : gmap Z Array) (l : Z) : option (list E) :=
  a ← first !! l;
  b ← second !! l;
  Some (flatten (items a) ++ flatten (items b)).

Definition pack (num_pseudo_layers : Z)
  (maps : gmap Z Array * gmap Z Array * gmap Z Array * gmap Z Array)
  : option (list E) :=
  let '(W_ih, W_hh, b_ih, b_hh) := maps in
  linear ← mapM (pack_pair W_ih W_hh) (range num_pseudo_layers);
  bias ← mapM (pack_pair b_ih b_hh) (range num_pseudo_layers);
  Some (concat linear ++ concat bias).

End Packing.
Arguments nd E : clear implicits.
Arguments Array E : clear implicits.
Arguments unpack_state E : clear implicits.

(** ** Reference LSTM *)

(** In this part an array is the nested list of its rows, and the array
    operations are modelled on operands of the shapes the docstring of [lstm]
    gives ([x] of shape (batch, time, input_size), [h_0] and [c_0] of shape
    (pseudo-layers, batch, hidden_size), the weights as the shape calculator
    lists them): there the array library raises no shape error, and an
    elementwise operation pairs rows and entries by position.

    The scalar operations of the array library the reference LSTM uses.
    [float32] arithmetic is kept abstract: no law is assumed of it. *)
Class Scalar (F : Type) : Type := {
  zero : F;
  add : F -> F -> F;
  mul : F -> F -> F;
  sigmoid : F -> F;
  tanh : F -> F
}.

(** An integer array such as [seq_lengths]. *)
Inductive int_dtype : Type := int8 | int16 | int32 | int64.
Record IntArray : Type := mkIntArray {
  ia_dtype : int_dtype;
  ia_shape : Shape;
  ia_data : list Z
}.

(** Swapping the two leading axes of nested rows: [m.T] on a matrix,
    [a.transpose(1, 0, 2)] on a rank-3 array. An array is a list of rows of
    equal length; an array with an empty axis keeps no record of the lengths
    of its inner axes, so the theorems about contents take non-empty axes. *)
Fixpoint transpose {A : Type} (m : list (list A)) : list (list A) :=
  match m with
  | [] => []
  | [r] => map (fun a => [a]) r
  | r :: m' => zip_with cons r (transpose m')
  end.

(** [jnp.split(a, 4, axis=0)] for a leading axis divisible by 4; on any
    other axis the library raises, which this function does not model. *)
Definition split4 {A : Type} (a : list A)
  : list A * list A * list A * list A :=
  let n := (length a / 4)%nat in
  (take n a, take n (drop n a), take n (drop (2 * n) a),
   take n (drop (3 * n) a)).

(** [jax.lax.scan(f, init, xs)]: the loop of its documentation,
    [carry, y = f(carry, x); ys.append(y)]. *)
Definition scan {C X Y : Type} (f : C -> X -> C * Y) (init : C) (xs : list X)
  : C * list Y :=
  fold_left
    (fun (acc : C * list Y) x =>
       let '(carry, ys) := acc in
       let '(carry', y) := f carry x in
       (carry', ys ++ [y]))
    xs (init, []).

(** [jax.lax.scan(f, init, xs, reverse=True)]: the leading axes of [xs] and
    of [ys] are both reversed. *)
Definition scan_reverse {C X Y : Type} (f : C -> X -> C * Y) (init : C)
  (xs : list X) : C * list Y :=
  let '(carry, ys) := scan f init (reverse xs) in
  (carry, reverse ys).

(** [a[l]] on a jax array with a static non-negative [l]: an index past the
    end is clamped to the last position; an axis of size 0 raises. *)
Definition jax_index {A : Type} (a : list A) (l : Z) : result A :=
  match a !! Nat.min (Z.to_nat l) (length a - 1) with
  | Some x => Ok x
  | None => Raise IndexError
  end.

(** [jnp.stack(arrays)]: needs at least one array. *)
Definition stack {A : Type} (arrays : list A) : result (list A) :=
  match arrays with
  | [] => Raise ValueError
  | _ => Ok arrays
  end.

Section Reference.
Context {F : Type} `{Scalar F}.

(** The inner product of two rows, summed from the left. The source does
    not fix the order in which the library's matrix product adds up; the
    theorems below use no law of [add] and hold for any order. *)
Definition dot (u v : list F) : F := fold_left add (zip_with mul u v) zero.

(** [A @ B] on matrices whose inner dimensions agree; the library raises on
    any other pair, which this function does not model. *)
Definition matmul (A B : list (list F)) : list (list F) :=
  map (fun a => map (dot a) (transpose B)) A.

(** An elementwise binary operation on matrices, with broadcasting of a
    single row along axis 0, on operands whose shapes the library accepts:
    equal row lengths, and equal row counts or one of them 1. *)
Definition broadcast2 (op : F -> F -> F) (X Y : list (list F))
  : list (list F) :=
  match X, Y with
  | [x], _ => map (fun y => zip_with op x y) Y
  | _, [y] => map (fun x => zip_with op x y) X
  | _, _ => zip_with (zip_with op) X Y
  end.

Local Infix "@" := matmul (at level 40, left associativity).
Local Infix "⊞" := (broadcast2 add) (at level 50, left associativity).
Local Infix "⊙" := (broadcast2 mul) (at level 40, left associativity).

(** The local function [lstm_cell] of [lstm_ref]; [b[None]] is [[b]]. *)
Definition lstm_cell (W_ih W_hh : list (list F)) (b_ih b_hh : list F)
  (carry : list (list F) * list (list F)) (x : list (list F))
  : (list (list F) * list (list F)) * list (list F) :=
  let '(h, c) := carry in
  let '(W_ii, W_if, W_ig, W_io) := split4 W_ih in
  let '(W_hi, W_hf, W_hg, W_ho) := split4 W_hh in
  let '(b_ii, b_if, b_ig, b_io) := split4 b_ih in
  let '(b_hi, b_hf, b_hg, b_ho) := split4 b_hh in
  let i := map (map sigmoid)
             (x @ transpose W_ii ⊞ [b_ii] ⊞ h @ transpose W_hi ⊞ [b_hi]) in
  let f := map (map sigmoid)
             (x @ transpose W_if ⊞ [b_if] ⊞ h @ transpose W_hf ⊞ [b_hf]) in
  let g := map (map tanh)
             (x @ transpose W_ig ⊞ [b_ig] ⊞ h @ transpose W_hg ⊞ [b_hg]) in
  let o := map (map sigmoid)
             (x @ transpose W_io ⊞ [b_io] ⊞ h @ transpose W_ho ⊞ [b_ho]) in
  let c := f ⊙ c ⊞ i ⊙ g in
  let h := o ⊙ map (map tanh) c in
  ((h, c), h).

(** [partial(lstm_cell, W_ih=W_ih[l], W_hh=W_hh[l], b_ih=b_ih[l],
    b_hh=b_hh[l])]. *)
Definition cell_of (W_ih W_hh : gmap Z (list (list F)))
  (b_ih b_hh : gmap Z (list F)) (l : Z) :=
  wih ← dict_get W_ih l;
  whh ← dict_get W_hh l;
  bih ← dict_get b_ih l;
  bhh ← dict_get b_hh l;
  Ok (lstm_cell wih whh bih bhh).

(** The variables the layer loops of [lstm_ref] update. [seq_first_y_fwd]
    is unbound until a forward pseudo-layer has run. *)
Record ref_state : Type := mkRef {
  seq_first_y : list (list (list F));
  seq_first_y_fwd : option (list (list (list F)));
  final_h : list (list (list F));
  final_c : list (list (list F))
}.

(** The body of the loop over layers, [bidirectional] false. *)
Definition ref_layer (h_0 c_0 : list (list (list F)))
  (W_ih W_hh : gmap Z (list (list F))) (b_ih b_hh : gmap Z (list F))
  (l : Z) (s : ref_state) : result ref_state :=
  cell ← cell_of W_ih W_hh b_ih b_hh l;
  h0 ← jax_index h_0 l;
  c0 ← jax_index c_0 l;
  let '((h_t, c_t), ys) := scan cell (h0, c0) (seq_first_y s) in
  Ok (mkRef ys (seq_first_y_fwd s) (final_h s ++ [h_t]) (final_c s ++ [c_t])).

(** The body of the loop over pseudo-layers, [bidirectional] true. *)
Definition ref_pseudo_layer (h_0 c_0 : list (list (list F)))
  (W_ih W_hh : gmap Z (list (list F))) (b_ih b_hh : gmap Z (list F))
  (l : Z) (s : ref_state) : result ref_state :=
  cell ← cell_of W_ih W_hh b_ih b_hh l;
  if l mod 2 =? 0 then
    h0 ← jax_index h_0 l;
    c0 ← jax_index c_0 l;
    let '((h_t, c_t), ys) := scan cell (h0, c0) (seq_first_y s) in
    Ok (mkRef (seq_first_y s) (Some ys)
          (final_h s ++ [h_t]) (final_c s ++ [c_t]))
  else
    h0 ← jax_index h_0 l;
    c0 ← jax_index c_0 l;
    let '((h_t, c_t), seq_first_y_bwd) :=
      scan_reverse cell (h0, c0) (seq_first_y s) in
    (* Inputs to next layer are concat'ed from fwd and bwd. *)
    match seq_first_y_fwd s with
    | None => Raise NameError
    | Some fwd =>
        Ok (mkRef (zip_with (zip_with app) fwd seq_first_y_bwd) (Some fwd)
              (final_h s ++ [h_t]) (final_c s ++ [c_t]))
    end.

Definition lstm_ref (x h_0 c_0 : list (list (list F)))
  (W_ih W_hh : gmap Z (list (list F))) (b_ih b_hh : gmap Z (list F))
  (seq_lengths : IntArray) (input_size hidden_size num_layers : Z)
  (dropout : float) (bidirectional : bool)
  : result (list (list (list F)) * list (list (list F))
            * list (list (list F))) :=
  if negb (PrimFloat.eqb dropout 0%float) then Raise NotImplementedError
  else
    let s0 := mkRef (transpose x) None [] [] in
    if negb bidirectional then
      s ← for_each (range num_layers)
            (ref_layer h_0 c_0 W_ih W_hh b_ih b_hh) s0;
      h_n ← stack (final_h s);
      c_n ← stack (final_c s);
      Ok (transpose (seq_first_y s), h_n, c_n)
    else
      s ← for_each (range (num_layers * 2))
            (ref_pseudo_layer h_0 c_0 W_ih W_hh b_ih b_hh) s0;
      h_n ← stack (final_h s);
      c_n ← stack (final_c s);
      Ok (transpose (seq_first_y s), h_n, c_n).

End Reference.
Arguments ref_state F : clear implicits.

(** ** The backward rule *)



Section Backward.
(** Float arrays as the kernel sees them, and the backward kernel primitive
    [rnn_bwd_p.bind], which is opaque here and may fail. *)
Variable T : Type.
(** The configuration flag [jax.config.jax_enable_x64], which the array
    library reads. *)
Variable jax_enable_x64 : bool.
Variable rnn_bwd_p_bind :
  T -> T -> T -> T -> T -> T -> T -> T -> T -> T -> IntArray ->
  Z -> Z -> Z -> float -> bool -> result (T * T * T * T).


End Backward.

(** ** Notions used in the statements *)

(** [num_pseudo_layers = num_layers * num_directions]. *)
Definition num_pseudo_layers_of (num_layers : Z) (bidirectional : bool) : Z :=
  num_layers * (if bidirectional then 2 else 1).

(** The sizes a caller may pass: none of them negative. *)
Definition valid_config (input_size hidden_size num_layers : Z) : Prop :=
  0 <= input_size /\ 0 <= hidden_size /\ 0 <= num_layers.

(** The assignments [w_kind[l] = ...] of [unpack_lstm_weights], in the order
    it makes them. *)
Definition unpack_tasks (num_pseudo_layers : Z) : list (Z * weight_kind) :=
  flat_map (fun l => map (pair l) [K_W_ih; K_W_hh]) (range num_pseudo_layers)
  ++ flat_map (fun l => map (pair l) [K_b_ih; K_b_hh])
       (range num_pseudo_layers).

(** The shape the calculator gives the array of one assignment. *)
Definition shape_of (input_size hidden_size : Z) (bidirectional : bool)
  (t : Z * weight_kind) : Shape :=
  match snd t with
  | K_W_ih => _W_ih_l (fst t) input_size hidden_size bidirectional
  | K_W_hh => _W_hh_l (fst t) input_size hidden_size bidirectional
  | K_b_ih => _b_ih_l (fst t) input_size hidden_size bidirectional
  | K_b_hh => _b_hh_l (fst t) input_size hidden_size bidirectional
  end.

(** Consecutive slices of the given sizes, starting at offset [o]. *)
Fixpoint offsets_from (o : Z) (sizes : list Z) : list (Z * Z) :=
  match sizes with
  | [] => []
  | p :: sizes' => (o, o + p) :: offsets_from (o + p) sizes'
  end.

(** No two slices [lo:hi] of a log share an index. *)
Definition disjoint_slices (log : list (Z * Z)) : Prop :=
  forall (i j : nat) (a b : Z * Z),
    i ≠ j -> log !! i = Some a -> log !! j = Some b ->
    snd a <= fst b \/ snd b <= fst a.

(** What one assignment has stored under its key, flattened row-major. *)
Definition flat_at {E : Type} (s : unpack_state E) (t : Z * weight_kind)
  : option (list E) :=
  arr ← dict_of (snd t) s !! fst t; Some (flatten (items arr)).

(** The shape list [flat_shapes] holds the shapes [sh] of [tasks] from the
    position [flat_shapes_offset s] on. *)
Definition shapes_ahead {E : Type} (flat_shapes : list Shape)
  (sh : Z * weight_kind -> Shape) (s : unpack_state E)
  (tasks : list (Z * weight_kind)) : Prop :=
  0 <= flat_shapes_offset s /\
  forall (i : nat) t, tasks !! i = Some t ->
    flat_shapes !! (Z.to_nat (flat_shapes_offset s) + i)%nat = Some (sh t).

(** A matrix of [r] rows and [c] columns, as a list of rows. *)
Definition is_matrix {A : Type} (r c : nat) (m : list (list A)) : Prop :=
  length m = r /\ Forall (fun row => length row = c) m.

(** Block [g] of the consecutive blocks of [n] rows each: rows
    [g * n .. (g + 1) * n - 1]. *)
Definition gate_block {A : Type} (n g : nat) (W : list A) : list A :=
  take n (drop (g * n) W).

(** *** The cell update as the spec writes it

    Follows the spec (reference LSTM engine, per-time-step cell update), for
    one batch element: [x_t], [h] and [c] are vectors, the per-gate matrices
    and biases are the blocks 0 (input), 1 (forget), 2 (candidate) and 3
    (output) of [hidden_size] rows of [W_ih], [W_hh], [b_ih], [b_hh]. *)
Section CellSpec.
Context {F : Type} `{Scalar F}.

(** [v·W^T]: entry [k] is the inner product of [v] and row [k] of [W]. *)
Definition vec_mat_T (v : list F) (W : list (list F)) : list F :=
  map (dot v) W.

Definition vadd (u v : list F) : list F := zip_with add u v.
Definition vmul (u v : list F) : list F := zip_with mul u v.

(** [x_t·W_i*^T + b_i* + h·W_h*^T + b_h*] for gate [g]. *)
Definition gate_input (hidden_size g : nat) (W_ih W_hh : list (list F))
  (b_ih b_hh : list F) (x_t h : list F) : list F :=
  vadd
    (vadd
       (vadd (vec_mat_T x_t (gate_block hidden_size g W_ih))
          (gate_block hidden_size g b_ih))
       (vec_mat_T h (gate_block hidden_size g W_hh)))
    (gate_block hidden_size g b_hh).

Definition cell_update (hidden_size : nat) (W_ih W_hh : list (list F))
  (b_ih b_hh : list F) (h c x_t : list F) : list F * list F :=
  let i := map sigmoid (gate_input hidden_size 0 W_ih W_hh b_ih b_hh x_t h) in
  let f := map sigmoid (gate_input hidden_size 1 W_ih W_hh b_ih b_hh x_t h) in
  let g := map tanh (gate_input hidden_size 2 W_ih W_hh b_ih b_hh x_t h) in
  let o := map sigmoid (gate_input hidden_size 3 W_ih W_hh b_ih b_hh x_t h) in
  let c' := vadd (vmul f c) (vmul i g) in
  let h' := vmul o (map tanh c') in
  (h', c').

(** The cell update of every element of a batch. *)
Definition batch_update (hidden_size : nat) (W_ih W_hh : list (list F))
  (b_ih b_hh : list F) (h c x : list (list F)) : list (list F * list F) :=
  zip_with
    (fun (hc : list F * list F) x_t =>
       cell_update hidden_size W_ih W_hh b_ih b_hh (fst hc) (snd hc) x_t)
    (zip h c) x.

End CellSpec.

(** *** One layer of the recurrence as the spec writes it

    Follows the spec (layer composition): the cell is run forward over the
    time steps [xs] starting from [(h, c)]; the hidden state after every step
    is the output for that step, and the last [(h, c)] is the final state. *)
Fixpoint layer_recurrence {F : Type} `{Scalar F}
  (W_ih W_hh : list (list F)) (b_ih b_hh : list F)
  (h c : list (list F)) (xs : list (list (list F)))
  : list (list (list F)) * (list (list F) * list (list F)) :=
  match xs with
  | [] => ([], (h, c))
  | x_t :: xs' =>
      let '(h', c') := fst (lstm_cell W_ih W_hh b_ih b_hh (h, c) x_t) in
      let '(hs, final) := layer_recurrence W_ih W_hh b_ih b_hh h' c' xs' in
      (h' :: hs, final)
  end.

(** A rank-3 array of shape [(a, b, c)], as nested rows. *)
Definition is_tensor3 {A : Type} (a b c : nat) (t : list (list (list A)))
  : Prop :=
  length t = a /\ Forall (is_matrix b c) t.

(** ** The real numbers as scalars

    The exact sigmoid and tanh on the real numbers: the scalars of the
    LSTM equations, used here for concrete inputs. *)
Definition real_sigmoid (x : R) : R := (/ (1 + exp (- x)))%R.

#[global] Instance real_scalar : Scalar R := {|
  zero := 0%R;
  add := Rplus;
  mul := Rmult;
  sigmoid := real_sigmoid;
  tanh := Rtrigo_def.tanh
|}.

(** A small network: one input feature, one hidden unit, weights for two
    pseudo-layers. Only the candidate gate looks at its input, with weight
    [a]; every other weight and bias is [z]. The input is one sequence of
    two time steps, [a] then [z]; the initial states are [z]. *)
Section SmallNetwork.
Context {F : Type}.
Variables (z a : F).

Definition small_wih : list (list F) := [[z]; [z]; [a]; [z]].
Definition small_whh : list (list F) := [[z]; [z]; [z]; [z]].
Definition small_b : list F := [z; z; z; z].
Definition small_W_ih : gmap Z (list (list F)) :=
  <[0 := small_wih]> (<[1 := small_wih]> ∅).
Definition small_W_hh : gmap Z (list (list F)) :=
  <[0 := small_whh]> (<[1 := small_whh]> ∅).
Definition small_bias : gmap Z (list F) :=
  <[0 := small_b]> (<[1 := small_b]> ∅).
Definition small_x : list (list (list F)) := [[[a]; [z]]].
Definition small_state : list (list (list F)) := [[[z]]; [[z]]].

End SmallNetwork.

Definition small_seq_lengths : IntArray := mkIntArray int32 [1] [2].

(** ** Further notions used in the statements *)

(** The dict [d] holds under key [l] an array of shape [sh] whose contents,
    row-major, are the slice of [weights] logged at position [i] of
    [slices]. *)
Definition stored_at {E : Type} (weights : list E) (slices : list (Z * Z))
  (d : gmap Z (Array E)) (l : Z) (sh : Shape) (i : nat) : Prop :=
  exists arr lo hi,
    d !! l = Some arr /\ shape arr = sh /\
    slices !! i = Some (lo, hi) /\
    flatten (items arr) = slice weights lo hi.

(** A matrix, as a list of rows, of a shape the shape calculator gives. *)
Definition matrix_of_shape {A : Type} (sh : Shape) (m : list (list A))
  : Prop :=
  match sh with
  | [r; c] => is_matrix (Z.to_nat r) (Z.to_nat c) m
  | _ => False
  end.

(** A vector of a shape the shape calculator gives. *)
Definition vector_of_shape {A : Type} (sh : Shape) (v : list A) : Prop :=
  match sh with
  | [n] => length v = Z.to_nat n
  | _ => False
  end.

(** The four dicts hold, under key [l], weights of the shapes [_W_ih_l],
    [_W_hh_l], [_b_ih_l] and [_b_hh_l] give pseudo-layer [l]. *)
Definition weights_shaped {A : Type} (W_ih W_hh : gmap Z (list (list A)))
  (b_ih b_hh : gmap Z (list A)) (input_size hidden_size : Z)
  (bidirectional : bool) (l : Z) : Prop :=
  exists wih whh bih bhh,
    W_ih !! l = Some wih /\ W_hh !! l = Some whh /\
    b_ih !! l = Some bih /\ b_hh !! l = Some bhh /\
    matrix_of_shape (_W_ih_l l input_size hidden_size bidirectional) wih /\
    matrix_of_shape (_W_hh_l l input_size hidden_size bidirectional) whh /\
    vector_of_shape (_b_ih_l l input_size hidden_size bidirectional) bih /\
    vector_of_shape (_b_hh_l l input_size hidden_size bidirectional) bhh.

(** ** Abstract evaluation of the forward kernel primitive *)

(** Element types of abstract values; [jnp.float32] is [float32]. *)
Inductive dtype : Type :=
| bfloat16 | float16 | float32 | float64
| integer (d : int_dtype).

Module core.
(** [core.ShapedArray(shape, dtype)]. *)
Record ShapedArray : Type := mkShapedArray {
  shape : Shape;
  dtype : dtype
}.
End core.

Section AbstractEval.
(** [gpu_rnn.compute_rnn_workspace_reserve_space_sizes], a function of the
    compiled extension: opaque here, and it may fail. *)
Variable compute_rnn_workspace_reserve_space_sizes :
  Z -> Z -> Z -> Z -> Z -> float -> bool -> result (Z * Z).

Definition rnn_abstract_eval
  (x_aval h_0_aval c_0_aval w_aval seq_lengths_aval : core.ShapedArray)
  (input_size hidden_size num_layers : Z) (dropout : float)
  (bidirectional : bool)
  : result (core.ShapedArray * core.ShapedArray * core.ShapedArray
            * core.ShapedArray * core.ShapedArray) :=
  batch_size ← list_index (core.shape x_aval) 0;
  max_seq_length ← list_index (core.shape x_aval) 1;
  let num_directions := if bidirectional then 2 else 1 in
  let output_shape :=
    [batch_size; max_seq_length; num_directions * hidden_size] in
  let output_aval := core.mkShapedArray output_shape (core.dtype x_aval) in
  '(workspace_size, reserve_space_size) ←
    compute_rnn_workspace_reserve_space_sizes input_size hidden_size
      num_layers batch_size max_seq_length dropout bidirectional;
  let workspace_aval := core.mkShapedArray [workspace_size] float32 in
  let reserve_space_aval :=
    core.mkShapedArray [reserve_space_size] float32 in
  Ok (output_aval, h_0_aval, c_0_aval, workspace_aval, reserve_space_aval).

End AbstractEval.

(** A rank-3 array, as nested rows, of the shape an abstract value
    declares. *)
Definition tensor_of_shape {A : Type} (sh : Shape)
  (t : list (list (list A))) : Prop :=
  match sh with
  | [a; b; c] => is_tensor3 (Z.to_nat a) (Z.to_nat b) (Z.to_nat c) t
  | _ => False
  end.

(** ** Unpacked weights as the reference LSTM reads them

    An unpacked weight is the same array for [unpack_lstm_weights], which
    builds it from a flat buffer, and for [lstm_ref], which reads its rows:
    the entries of a rank-1 array as a list, and the rows of a rank-2 array
    as a list of lists. *)
Definition scalar_of {E : Type} (t : nd E) : option E :=
  match t with
  | Elem x => Some x
  | Rows _ => None
  end.

Definition entries_of {E : Type} (t : nd E) : option (list E) :=
  match t with
  | Elem _ => None
  | Rows rows => mapM scalar_of rows
  end.

Definition rows_of {E : Type} (t : nd E) : option (list (list E)) :=
  match t with
  | Elem _ => None
  | Rows rows => mapM entries_of rows
  end.

Definition as_vector {E : Type} (a : Array E) : option (list E) :=
  entries_of (items a).

Definition as_matrix {E : Type} (a : Array E) : option (list (list E)) :=
  rows_of (items a).

(** ** A stack of layers as a recursive function

    The weights and initial state of one layer, and the layers run one after
    another with [layer_recurrence], each on the hidden sequence of the
    layer below; the final states are listed in layer order. The loop over
    layers of [lstm_ref] is compared with it. *)
Record layer_params (F : Type) : Type := mkLayer {
  layer_W_ih : list (list F);
  layer_W_hh : list (list F);
  layer_b_ih : list F;
  layer_b_hh : list F;
  layer_h_0 : list (list F);
  layer_c_0 : list (list F)
}.
Arguments mkLayer {F} _ _ _ _ _ _.
Arguments layer_W_ih {F} _.
Arguments layer_W_hh {F} _.
Arguments layer_b_ih {F} _.
Arguments layer_b_hh {F} _.
Arguments layer_h_0 {F} _.
Arguments layer_c_0 {F} _.

Fixpoint stacked_recurrence {F : Type} `{Scalar F}
  (layers : list (layer_params F)) (xs : list (list (list F)))
  : list (list (list F)) * (list (list (list F)) * list (list (list F))) :=
  match layers with
  | [] => (xs, ([], []))
  | p :: layers' =>
      let '(hs, (h_n, c_n)) :=
        layer_recurrence (layer_W_ih p) (layer_W_hh p) (layer_b_ih p)
          (layer_b_hh p) (layer_h_0 p) (layer_c_0 p) xs in
      let '(ys, (h_ns, c_ns)) := stacked_recurrence layers' hs in
      (ys, (h_n :: h_ns, c_n :: c_ns))
  end.

(** Pseudo-layer [l] of the dicts and of the initial states is the layer
    [p]. *)
Definition layer_at {F : Type} (h_0 c_0 : list (list (list F)))
  (W_ih W_hh : gmap Z (list (list F))) (b_ih b_hh : gmap Z (list F))
  (l : nat) (p : layer_params F) : Prop :=
  W_ih !! Z.of_nat l = Some (layer_W_ih p) /\
  W_hh !! Z.of_nat l = Some (layer_W_hh p) /\
  b_ih !! Z.of_nat l = Some (layer_b_ih p) /\
  b_hh !! Z.of_nat l = Some (layer_b_hh p) /\
  h_0 !! l = Some (layer_h_0 p) /\ c_0 !! l = Some (layer_c_0 p).

(** ** Rows of a batch *)

(** Two lists of matrices hold the same row [b] at every position: for
    time-major sequences, the same data for batch element [b] at every time
    step; for [h_0], [c_0], [h_n] and [c_n], in every pseudo-layer. *)
Definition same_row {A : Type} (b : nat) (t t' : list (list (list A)))
  : Prop :=
  Forall2 (fun m m' => m !! b = m' !! b) t t'.

(** Two [B × n] matrices with the same row [b]. *)
Definition agree_at {A : Type} (b B n : nat) (m m' : list (list A)) : Prop :=
  is_matrix B n m /\ is_matrix B n m' /\ m !! b = m' !! b.

(** * Properties *)

(** ** Arithmetic of [prod], [sum] and [range] *)

Lemma fold_mul_acc (xs : list Z) (a : Z) : fold_left Z.mul xs a = a * prod xs.
Proof.
  unfold prod. revert a. induction xs as [|x xs IH]; intros a; simpl.
  - lia.
  - rewrite (IH (a * x)), (IH (1 * x)). lia.
Qed.

Lemma prod_cons (x : Z) (xs : list Z) : prod (x :: xs) = x * prod xs.
Proof. unfold prod at 1. simpl. rewrite fold_mul_acc. lia. Qed.

Lemma prod_nonneg (xs : list Z) : Forall (fun d => 0 <= d) xs -> 0 <= prod xs.
Proof.
  induction 1 as [|x xs Hx _ IH].
  - unfold prod. simpl. lia.
  - rewrite prod_cons. lia.
Qed.

Lemma fold_add_acc (xs : list Z) (a : Z) : fold_left Z.add xs a = a + sum xs.
Proof.
  unfold sum. revert a. induction xs as [|x xs IH]; intros a; simpl.
  - lia.
  - rewrite (IH (a + x)), (IH (0 + x)). lia.
Qed.

Lemma sum_cons (x : Z) (xs : list Z) : sum (x :: xs) = x + sum xs.
Proof. unfold sum at 1. simpl. rewrite fold_add_acc. lia. Qed.

Lemma sum_app (xs ys : list Z) : sum (xs ++ ys) = sum xs + sum ys.
Proof.
  induction xs as [|x xs IH]; simpl.
  - unfold sum at 2. simpl. lia.
  - rewrite !sum_cons, IH. lia.
Qed.

Lemma sum_nonneg (xs : list Z) : Forall (fun d => 0 <= d) xs -> 0 <= sum xs.
Proof.
  induction 1 as [|x xs Hx _ IH].
  - unfold sum. simpl. lia.
  - rewrite sum_cons. lia.
Qed.

Lemma range_nonneg (n l : Z) : l ∈ range n -> 0 <= l < n.
Proof.
  unfold range. intros Hl.
  apply list_elem_of_fmap in Hl as (k & -> & Hk).
  apply list_elem_of_In, in_seq in Hk. lia.
Qed.

Lemma range_NoDup (n : Z) : NoDup (range n).
Proof.
  unfold range. apply NoDup_fmap_2.
  - intros a b Hab. lia.
  - apply NoDup_ListNoDup, List.seq_NoDup.
Qed.

(** ** The error monad and the loops *)

Lemma for_each_app {S X : Type} (xs ys : list X) (body : X -> S -> result S)
  (s : S) :
  for_each (xs ++ ys) body s = s' ← for_each xs body s; for_each ys body s'.
Proof.
  revert s. induction xs as [|x xs IH]; intros s; simpl.
  - reflexivity.
  - destruct (body x s) as [s1|e]; simpl; [apply IH | reflexivity].
Qed.

(** Two nested loops visit the pairs of their indices in lexicographic
    order. *)
Lemma for_each_nested {S X Y : Type} (xs : list X) (ys : list Y)
  (body : X -> Y -> S -> result S) (s : S) :
  for_each xs (fun x => for_each ys (body x)) s =
  for_each (flat_map (fun x => map (pair x) ys) xs)
    (fun t => body (fst t) (snd t)) s.
Proof.
  revert s. induction xs as [|x xs IH]; intros s; simpl.
  - reflexivity.
  - rewrite for_each_app.
    assert (Hin : forall s0,
               for_each ys (body x) s0 =
               for_each (map (pair x) ys) (fun t => body (fst t) (snd t)) s0).
    { clear. induction ys as [|y ys IHy]; intros s0; simpl; [reflexivity|].
      destruct (body x y s0); simpl; [apply IHy | reflexivity]. }
    rewrite Hin.
    destruct (for_each (map (pair x) ys) _ s) as [s1|e]; simpl;
      [apply IH | reflexivity].
Qed.

(** ** The layout of the shape list *)

Lemma append_shapes_spec (w_kinds : list (Z -> Z -> Z -> bool -> Shape))
  (n input_size hidden_size : Z) (bidirectional : bool) (acc : list Shape) :
  append_shapes w_kinds n input_size hidden_size bidirectional acc =
  acc ++ flat_map
           (fun i => map (fun w_kind =>
                            w_kind i input_size hidden_size bidirectional)
                       w_kinds)
           (range n).
Proof.
  unfold append_shapes. generalize (range n) as ls. intros ls. revert acc.
  induction ls as [|i ls IH]; intros acc; simpl.
  - by rewrite app_nil_r.
  - rewrite IH, app_assoc. f_equal.
    clear. revert acc. induction w_kinds as [|k ks IHk]; intros acc; simpl.
    + by rewrite app_nil_r.
    + rewrite IHk, <- app_assoc. reflexivity.
Qed.

Lemma shapes_layout (input_size hidden_size num_layers : Z)
  (bidirectional : bool) :
  _get_params_shapes_in_lstm input_size hidden_size num_layers bidirectional =
  map (shape_of input_size hidden_size bidirectional)
    (unpack_tasks (num_pseudo_layers_of num_layers bidirectional)).
Proof.
  unfold _get_params_shapes_in_lstm, unpack_tasks, num_pseudo_layers_of.
  rewrite !append_shapes_spec, map_app. simpl. f_equal.
  - induction (range _) as [|i ls IH]; simpl; [reflexivity | by rewrite IH].
  - induction (range _) as [|i ls IH]; simpl; [reflexivity | by rewrite IH].
Qed.

Lemma shape_of_nonneg (input_size hidden_size : Z) (bidirectional : bool)
  (t : Z * weight_kind) :
  0 <= input_size -> 0 <= hidden_size ->
  Forall (fun d => 0 <= d) (shape_of input_size hidden_size bidirectional t).
Proof.
  intros Hi Hh. destruct t as [l []]; unfold shape_of; simpl.
  - unfold _W_ih_l. destruct (_ || _), bidirectional;
      repeat constructor; lia.
  - repeat constructor; lia.
  - repeat constructor; lia.
  - repeat constructor; lia.
Qed.

Lemma kind_pairs_NoDup (k1 k2 : weight_kind) (ls : list Z) :
  k1 ≠ k2 -> NoDup ls ->
  NoDup (flat_map (fun l => map (pair l) [k1; k2]) ls).
Proof.
  intros Hk. induction 1 as [|l ls Hl _ IH]; simpl; [constructor|].
  assert (Hfresh : forall k,
             (l, k) ∉ flat_map (fun l => map (pair l) [k1; k2]) ls).
  { intros k. rewrite list_elem_of_In. intros Hin.
    apply in_flat_map in Hin as (l' & Hl' & [Heq|[Heq|[]]]);
      inversion Heq; subst; apply Hl, list_elem_of_In, Hl'. }
  constructor.
  - rewrite not_elem_of_cons. split; [congruence | apply Hfresh].
  - constructor; [apply Hfresh | exact IH].
Qed.

Lemma unpack_tasks_NoDup (n : Z) : NoDup (unpack_tasks n).
Proof.
  unfold unpack_tasks. apply NoDup_app. split; [|split].
  - apply kind_pairs_NoDup; [discriminate | apply range_NoDup].
  - intros t Ht Ht'. rewrite list_elem_of_In in Ht, Ht'.
    apply in_flat_map in Ht as (l & _ & [<-|[<-|[]]]);
      apply in_flat_map in Ht' as (l' & _ & [Heq|[Heq|[]]]); discriminate.
  - apply kind_pairs_NoDup; [discriminate | apply range_NoDup].
Qed.

Lemma lookup_pairs_seq {A : Type} (f g : Z -> A) (a m k : nat) :
  (k < m)%nat ->
  flat_map (fun l => [f l; g l]) (map Z.of_nat (seq a m)) !! (2 * k)%nat
    = Some (f (Z.of_nat (a + k))) /\
  flat_map (fun l => [f l; g l]) (map Z.of_nat (seq a m)) !! (2 * k + 1)%nat
    = Some (g (Z.of_nat (a + k))).
Proof.
  revert a k. induction m as [|m IH]; intros a k Hk; [lia|].
  destruct k as [|k]; simpl.
  - by rewrite Nat.add_0_r.
  - replace (k + S (k + 0))%nat with (S (2 * k)) by lia.
    replace (k + S (k + 0) + 1)%nat with (S (2 * k + 1)) by lia.
    simpl. replace (a + S k)%nat with (S a + k)%nat by lia.
    apply IH. lia.
Qed.

Lemma length_pairs {A B : Type} (f g : A -> B) (ls : list A) :
  length (flat_map (fun l => [f l; g l]) ls) = (2 * length ls)%nat.
Proof. induction ls as [|l ls IH]; simpl; [reflexivity | rewrite IH; lia]. Qed.

(** C3. The shape of [W_ih] for pseudo-layer [i] is
    [(4 * hidden_size, input_size)] when [i] is 0, or when [i] is 1 and
    [bidirectional] holds, and [(4 * hidden_size, num_directions *
    hidden_size)] otherwise; the shape of [W_hh] is always
    [(4 * hidden_size, hidden_size)] and both bias shapes are always
    [(4 * hidden_size,)]. Unless the two shapes of [W_ih] coincide, the first
    one is emitted in the first case only. These are the shapes
    [_get_params_shapes_in_lstm] lists for pseudo-layer [i]: the linear pair
    at positions [2i] and [2i + 1], the bias pair after all the linear
    pairs. *)
Theorem shapes_by_kind (i input_size hidden_size : Z) (bidirectional : bool) :
  (i = 0 \/ (i = 1 /\ bidirectional = true) ->
   _W_ih_l i input_size hidden_size bidirectional =
     [4 * hidden_size; input_size]) /\
  (~ (i = 0 \/ (i = 1 /\ bidirectional = true)) ->
   _W_ih_l i input_size hidden_size bidirectional =
     [4 * hidden_size; (if bidirectional then 2 else 1) * hidden_size]) /\
  (input_size ≠ (if bidirectional then 2 else 1) * hidden_size ->
   (_W_ih_l i input_size hidden_size bidirectional =
      [4 * hidden_size; input_size]
    <-> i = 0 \/ (i = 1 /\ bidirectional = true))) /\
  _W_hh_l i input_size hidden_size bidirectional =
    [4 * hidden_size; hidden_size] /\
  _b_ih_l i input_size hidden_size bidirectional = [4 * hidden_size] /\
  _b_hh_l i input_size hidden_size bidirectional = [4 * hidden_size] /\
  (forall num_layers : Z,
      0 <= i < num_pseudo_layers_of num_layers bidirectional ->
      let shapes :=
        _get_params_shapes_in_lstm input_size hidden_size num_layers
          bidirectional in
      let n := num_pseudo_layers_of num_layers bidirectional in
      shapes !! Z.to_nat (2 * i) =
        Some (_W_ih_l i input_size hidden_size bidirectional) /\
      shapes !! Z.to_nat (2 * i + 1) =
        Some (_W_hh_l i input_size hidden_size bidirectional) /\
      shapes !! Z.to_nat (2 * n + 2 * i) =
        Some (_b_ih_l i input_size hidden_size bidirectional) /\
      shapes !! Z.to_nat (2 * n + 2 * i + 1) =
        Some (_b_hh_l i input_size hidden_size bidirectional)).
Proof.
  assert (Hthen : i = 0 \/ (i = 1 /\ bidirectional = true) ->
                  _W_ih_l i input_size hidden_size bidirectional =
                    [4 * hidden_size; input_size]).
  { intros Hi. unfold _W_ih_l.
    destruct Hi as [->|[-> ->]]; reflexivity. }
  assert (Helse : ~ (i = 0 \/ (i = 1 /\ bidirectional = true)) ->
                  _W_ih_l i input_size hidden_size bidirectional =
                    [4 * hidden_size;
                     (if bidirectional then 2 else 1) * hidden_size]).
  { intros Hi. unfold _W_ih_l.
    destruct (Z.eqb_spec i 0) as [->|H0]; [tauto|].
    destruct (Z.eqb_spec i 1) as [->|H1], bidirectional; simpl;
      try reflexivity.
    tauto. }
  split; [exact Hthen|]. split; [exact Helse|].
  split; [|split; [|split; [|split]]]; try reflexivity.
  - intros Hne. split; [|exact Hthen].
    intros Hshape.
    destruct (Z.eq_dec i 0) as [->|H0]; [by left|].
    destruct (Z.eq_dec i 1) as [->|H1], bidirectional;
      try (right; split; reflexivity);
      rewrite Helse in Hshape by (intros [?|[? ?]]; congruence);
      injection Hshape as Hshape; congruence.
  - intros num_layers Hi shapes n. subst shapes n.
    unfold _get_params_shapes_in_lstm. rewrite !append_shapes_spec. simpl.
    fold (num_pseudo_layers_of num_layers bidirectional).
    remember (num_pseudo_layers_of num_layers bidirectional) as n eqn:Hn.
    clear Hn. unfold range.
    assert (Hk : (Z.to_nat i < Z.to_nat n)%nat) by lia.
    destruct (lookup_pairs_seq
                (fun l => _W_ih_l l input_size hidden_size bidirectional)
                (fun l => _W_hh_l l input_size hidden_size bidirectional)
                0 (Z.to_nat n) (Z.to_nat i) Hk) as [Ha Hb].
    destruct (lookup_pairs_seq
                (fun l => _b_ih_l l input_size hidden_size bidirectional)
                (fun l => _b_hh_l l input_size hidden_size bidirectional)
                0 (Z.to_nat n) (Z.to_nat i) Hk) as [Hc Hd].
    simpl (0 + _)%nat in *. rewrite Z2Nat.id in * by lia.
    pose proof (length_pairs
                  (fun l => _W_ih_l l input_size hidden_size bidirectional)
                  (fun l => _W_hh_l l input_size hidden_size bidirectional)
                  (map Z.of_nat (seq 0 (Z.to_nat n)))) as Hlen.
    rewrite length_map, length_seq in Hlen. cbv beta in Hlen.
    repeat split.
    + rewrite lookup_app_l by lia.
      replace (Z.to_nat (2 * i)) with (2 * Z.to_nat i)%nat by lia. exact Ha.
    + rewrite lookup_app_l by lia.
      replace (Z.to_nat (2 * i + 1)) with (2 * Z.to_nat i + 1)%nat by lia.
      exact Hb.
    + rewrite lookup_app_r by lia.
      replace (_ - _)%nat with (2 * Z.to_nat i)%nat by lia. exact Hc.
    + rewrite lookup_app_r by lia.
      replace (_ - _)%nat with (2 * Z.to_nat i + 1)%nat by lia. exact Hd.
Qed.

Lemma shapes_by_kind_witness :
  _W_ih_l 1 5 3 true = [12; 5] /\
  _W_ih_l 2 5 3 true = [12; 6] /\
  _get_params_shapes_in_lstm 5 3 2 true !! 4%nat = Some [12; 6].
Proof.
  split; [|split].
  - apply (proj1 (shapes_by_kind 1 5 3 true)). right. split; reflexivity.
  - apply (proj1 (proj2 (shapes_by_kind 2 5 3 true))).
    intros [Hi|[Hi _]]; discriminate Hi.
  - refine (proj1 (proj2 (proj2 (proj2 (proj2 (proj2 (proj2
              (shapes_by_kind 2 5 3 true)))))) 2 _)).
    unfold num_pseudo_layers_of. lia.
Defined.

(** ** Arrays: reshape and row-major flattening *)

Section ArrayFacts.
Context {E : Type}.
Implicit Types (a data : list E) (dims : list nat).

Lemma chunks_lengths (n size : nat) data :
  length data = (n * size)%nat ->
  Forall (fun c => length c = size) (chunks n size data).
Proof.
  revert data. induction n as [|n IH]; intros data Hlen; simpl.
  - constructor.
  - constructor.
    + rewrite length_take. lia.
    + apply IH. rewrite length_drop. lia.
Qed.

Lemma chunks_concat (n size : nat) data :
  length data = (n * size)%nat -> concat (chunks n size data) = data.
Proof.
  revert data. induction n as [|n IH]; intros data Hlen; simpl.
  - destruct data; [reflexivity | discriminate].
  - rewrite IH; [apply take_drop | rewrite length_drop; lia].
Qed.

(** Flattening a laid-out buffer gives the buffer back. *)
Lemma flatten_build dims data :
  length data = size_of dims -> flatten (build dims data) = data.
Proof.
  revert data. induction dims as [|d dims IH]; intros data Hlen.
  - destruct data as [|x [|y data]]; try discriminate. reflexivity.
  - change (size_of (d :: dims)) with (d * size_of dims)%nat in Hlen.
    simpl. rewrite map_map.
    rewrite <- (chunks_concat d (size_of dims) data Hlen) at 2.
    f_equal.
    pose proof (chunks_lengths d (size_of dims) data Hlen) as Hall.
    induction Hall as [|c cs Hc _ IHcs]; simpl; [reflexivity|].
    by rewrite IH, IHcs.
Qed.

Lemma size_of_nonneg_shape (new_shape : Shape) :
  Forall (fun d => 0 <= d) new_shape ->
  size_of (map Z.to_nat new_shape) = Z.to_nat (prod new_shape).
Proof.
  induction 1 as [|d ds Hd Hds IH].
  - reflexivity.
  - rewrite prod_cons. simpl. rewrite IH.
    pose proof (prod_nonneg ds Hds). lia.
Qed.

Lemma resolve_nonneg_shape (n : Z) (new_shape : Shape) :
  Forall (fun d => 0 <= d) new_shape ->
  resolve_shape n new_shape =
  if prod new_shape =? n then Some (map Z.to_nat new_shape) else None.
Proof.
  intros Hall. unfold resolve_shape.
  assert (Hfa : forallb (fun d => -1 <=? d) new_shape = true).
  { apply forallb_forall. intros d Hd.
    rewrite Forall_forall in Hall. apply list_elem_of_In, Hall in Hd. lia. }
  assert (Hno : filter (fun d => d = -1) new_shape = []).
  { clear Hfa. induction Hall as [|d ds Hd _ IH]; [reflexivity|].
    rewrite filter_cons. destruct (decide (d = -1)); [lia | exact IH]. }
  rewrite Hfa, Hno. reflexivity.
Qed.

(** A reshape to non-negative dimensions succeeds exactly when their product
    is the number of elements, and then keeps the row-major order. *)
Lemma reshape_nonneg a (new_shape : Shape) :
  Forall (fun d => 0 <= d) new_shape ->
  reshape a new_shape =
  if prod new_shape =? Z.of_nat (length a)
  then Ok (mkArray new_shape (build (map Z.to_nat new_shape) a))
  else Raise ShapeError.
Proof.
  intros Hall. unfold reshape. rewrite resolve_nonneg_shape by exact Hall.
  destruct (prod new_shape =? _); [|reflexivity].
  do 2 f_equal. rewrite map_map.
  clear a. induction Hall as [|d ds Hd _ IH]; simpl; [reflexivity|].
  rewrite IH. f_equal. lia.
Qed.

Lemma reshape_flatten a (new_shape : Shape) (arr : Array E) :
  Forall (fun d => 0 <= d) new_shape ->
  reshape a new_shape = Ok arr ->
  flatten (items arr) = a /\ shape arr = new_shape /\
  prod new_shape = Z.of_nat (length a).
Proof.
  intros Hall. rewrite reshape_nonneg by exact Hall.
  destruct (prod new_shape =? _) eqn:Hp; [|discriminate].
  intros [= <-]. apply Z.eqb_eq in Hp. simpl. split; [|done].
  apply flatten_build. rewrite size_of_nonneg_shape by exact Hall. lia.
Qed.

(** *** Slices *)

Lemma slice_inside a (lo p : Z) :
  0 <= lo -> 0 <= p -> lo + p <= Z.of_nat (length a) ->
  slice a lo (lo + p) = take (Z.to_nat p) (drop (Z.to_nat lo) a).
Proof.
  intros Hlo Hp Hhi. unfold slice, slice_bound.
  destruct (lo <? 0) eqn:H1; [lia|].
  destruct (lo + p <? 0) eqn:H2; [lia|].
  f_equal; [lia | f_equal; lia].
Qed.

Lemma slice_length a (lo p : Z) :
  0 <= lo <= Z.of_nat (length a) -> 0 <= p ->
  Z.of_nat (length (slice a lo (lo + p))) =
  Z.min p (Z.of_nat (length a) - lo).
Proof.
  intros Hlo Hp. unfold slice, slice_bound.
  destruct (lo <? 0) eqn:H1; [lia|].
  destruct (lo + p <? 0) eqn:H2; [lia|].
  rewrite length_take, length_drop. lia.
Qed.

Lemma slice_of_prefix a (n lo p : Z) :
  0 <= lo -> 0 <= p -> lo + p <= n -> n <= Z.of_nat (length a) ->
  slice (take (Z.to_nat n) a) lo (lo + p) = slice a lo (lo + p).
Proof.
  intros Hlo Hp Hn Hlen.
  rewrite !slice_inside; try lia.
  - rewrite skipn_firstn_comm, take_take. f_equal. lia.
  - rewrite length_take. lia.
Qed.

End ArrayFacts.

(** ** The walk of [unpack_lstm_weights] *)

Lemma list_index_lookup {A : Type} (xs : list A) (i : Z) (x : A) :
  0 <= i -> xs !! Z.to_nat i = Some x -> list_index xs i = Ok x.
Proof.
  intros Hi Hx. unfold list_index.
  pose proof (lookup_lt_Some _ _ _ Hx) as Hlt.
  destruct (i <? 0) eqn:H0; [lia|].
  destruct (0 <=? i) eqn:H1; [|lia].
  destruct (i <? Z.of_nat (length xs)) eqn:H2; [|lia].
  simpl. by rewrite Hx.
Qed.

Lemma offsets_from_app (o : Z) (xs ys : list Z) :
  offsets_from o (xs ++ ys) =
  offsets_from o xs ++ offsets_from (o + sum xs) ys.
Proof.
  revert o. induction xs as [|x xs IH]; intros o; simpl.
  - f_equal. unfold sum. simpl. lia.
  - rewrite IH, sum_cons. do 3 f_equal. lia.
Qed.

Lemma offsets_from_bounds (o : Z) (sizes : list Z) (a : Z * Z) :
  Forall (fun d => 0 <= d) sizes -> a ∈ offsets_from o sizes ->
  o <= fst a /\ fst a <= snd a /\ snd a <= o + sum sizes.
Proof.
  intros Hall. revert o. induction Hall as [|p ps Hp Hps IH]; intros o Ha.
  - by apply elem_of_nil in Ha.
  - simpl in Ha. rewrite sum_cons. pose proof (sum_nonneg ps Hps).
    apply elem_of_cons in Ha as [->|Ha]; simpl; [lia|].
    apply IH in Ha. lia.
Qed.

(** Consecutive slices of non-negative sizes do not overlap. *)
Lemma offsets_from_disjoint (o : Z) (sizes : list Z) :
  Forall (fun d => 0 <= d) sizes -> disjoint_slices (offsets_from o sizes).
Proof.
  intros Hall. revert o.
  induction Hall as [|p ps Hp Hps IH]; intros o i j a b Hij Ha Hb.
  - discriminate.
  - simpl in Ha, Hb. destruct i as [|i], j as [|j]; simpl in Ha, Hb.
    + congruence.
    + injection Ha as <-. left. simpl.
      apply list_elem_of_lookup_2, offsets_from_bounds in Hb; [lia | done].
    + injection Hb as <-. right. simpl.
      apply list_elem_of_lookup_2, offsets_from_bounds in Ha; [lia | done].
    + eapply (IH (o + p) i j); [congruence | done | done].
Qed.

Section Walk.
Context {E : Type}.
Variable weights : list E.
Variable flat_shapes : list Shape.
Variable sh : Z * weight_kind -> Shape.

Local Abbreviation len := (Z.of_nat (length weights)).
Local Abbreviation run tasks :=
  (for_each tasks (fun t => unpack_assign weights flat_shapes (fst t) (snd t))).
Local Abbreviation sizes tasks := (map (fun t => prod (sh t)) tasks).

Lemma unpack_assign_enough (l : Z) (k : weight_kind) (s : unpack_state E) :
  shapes_ahead flat_shapes sh s [(l, k)] ->
  Forall (fun d => 0 <= d) (sh (l, k)) ->
  0 <= w_offsets s ->
  w_offsets s + prod (sh (l, k)) <= len ->
  exists s' arr,
    unpack_assign weights flat_shapes l k s = Ok s' /\
    flat_shapes_offset s' = flat_shapes_offset s + 1 /\
    w_offsets s' = w_offsets s + prod (sh (l, k)) /\
    slice_log s' =
      slice_log s ++ [(w_offsets s, w_offsets s + prod (sh (l, k)))] /\
    dict_of k s' = <[l := arr]> (dict_of k s) /\
    (forall k', k' ≠ k -> dict_of k' s' = dict_of k' s) /\
    shape arr = sh (l, k) /\
    flatten (items arr) =
      take (Z.to_nat (prod (sh (l, k)))) (drop (Z.to_nat (w_offsets s)) weights).
Proof.
  intros [Hoff Hsh] Hnn Ho Hfit.
  pose proof (prod_nonneg _ Hnn) as Hp.
  specialize (Hsh 0%nat (l, k) eq_refl). rewrite Nat.add_0_r in Hsh.
  apply list_index_lookup in Hsh; [|exact Hoff].
  unfold unpack_assign. rewrite Hsh. simpl.
  rewrite reshape_nonneg by exact Hnn.
  rewrite slice_inside by lia.
  rewrite length_take, length_drop.
  destruct (Z.eqb_spec (prod (sh (l, k)))
              (Z.of_nat (Z.to_nat (prod (sh (l, k))) `min`
                           (length weights - Z.to_nat (w_offsets s)))))
    as [_|Hlen]; [|lia]. simpl.
  eexists _, _. split; [reflexivity|].
  destruct k; simpl; repeat split; try done.
  all: try (intros [] ?; done).
  all: apply flatten_build; rewrite size_of_nonneg_shape by exact Hnn;
    rewrite length_take, length_drop; lia.
Qed.

Lemma unpack_assign_short (l : Z) (k : weight_kind) (s : unpack_state E) :
  shapes_ahead flat_shapes sh s [(l, k)] ->
  Forall (fun d => 0 <= d) (sh (l, k)) ->
  0 <= w_offsets s <= len ->
  len < w_offsets s + prod (sh (l, k)) ->
  unpack_assign weights flat_shapes l k s = Raise ShapeError.
Proof.
  intros [Hoff Hsh] Hnn Ho Hfit.
  pose proof (prod_nonneg _ Hnn) as Hp.
  specialize (Hsh 0%nat (l, k) eq_refl). rewrite Nat.add_0_r in Hsh.
  apply list_index_lookup in Hsh; [|exact Hoff].
  unfold unpack_assign. rewrite Hsh. simpl.
  rewrite reshape_nonneg by exact Hnn.
  pose proof (slice_length weights (w_offsets s) (prod (sh (l, k))) Ho Hp).
  destruct (Z.eqb_spec (prod (sh (l, k)))
              (Z.of_nat (length (slice weights (w_offsets s)
                                   (w_offsets s + prod (sh (l, k)))))))
    as [Hlen|_]; [lia | reflexivity].
Qed.

Lemma shapes_ahead_head (s : unpack_state E) t tasks :
  shapes_ahead flat_shapes sh s (t :: tasks) ->
  shapes_ahead flat_shapes sh s [t].
Proof.
  intros [Hoff Hsh]. split; [exact Hoff|].
  intros [|i] t' Ht'; [|done]. apply (Hsh 0%nat). exact Ht'.
Qed.

Lemma shapes_ahead_tail (s s' : unpack_state E) t tasks :
  shapes_ahead flat_shapes sh s (t :: tasks) ->
  flat_shapes_offset s' = flat_shapes_offset s + 1 ->
  shapes_ahead flat_shapes sh s' tasks.
Proof.
  intros [Hoff Hsh] Hs'. split; [lia|].
  intros i t' Ht'. specialize (Hsh (S i) t' Ht').
  rewrite Hs'. rewrite <- Hsh. f_equal. lia.
Qed.

(** A buffer long enough for the remaining assignments is walked to the
    end: the offsets advance by the sizes, every slice is logged, and the
    arrays stored hold the consecutive pieces of the buffer. *)
Lemma walk_enough (tasks : list (Z * weight_kind)) (s : unpack_state E) :
  shapes_ahead flat_shapes sh s tasks ->
  Forall (fun t => Forall (fun d => 0 <= d) (sh t)) tasks ->
  0 <= w_offsets s ->
  w_offsets s + sum (sizes tasks) <= len ->
  exists s',
    run tasks s = Ok s' /\
    flat_shapes_offset s' = flat_shapes_offset s + Z.of_nat (length tasks) /\
    w_offsets s' = w_offsets s + sum (sizes tasks) /\
    slice_log s' = slice_log s ++ offsets_from (w_offsets s) (sizes tasks) /\
    (forall t, t ∉ tasks ->
       dict_of (snd t) s' !! fst t = dict_of (snd t) s !! fst t) /\
    (NoDup tasks ->
     exists pieces,
       mapM (flat_at s') tasks = Some pieces /\
       concat pieces =
         take (Z.to_nat (sum (sizes tasks)))
           (drop (Z.to_nat (w_offsets s)) weights)).
Proof.
  revert s. induction tasks as [|[l k] tasks IH]; intros s Hsh Hnn Ho Hfit.
  - exists s. simpl. unfold sum. simpl.
    repeat split; try done; try lia; [by rewrite app_nil_r|].
    intros _. exists []. by rewrite take_0.
  - apply Forall_cons in Hnn as [Hnn1 Hnn].
    simpl in Hfit. rewrite sum_cons in Hfit.
    pose proof (prod_nonneg _ Hnn1) as Hp.
    assert (Hs : 0 <= sum (sizes tasks)).
    { apply sum_nonneg, Forall_fmap. eapply Forall_impl; [exact Hnn|].
      intros t Ht. apply prod_nonneg, Ht. }
    destruct (unpack_assign_enough l k s) as
        (s1 & arr & Hrun1 & Hfso & Hwo & Hlog & Hk & Hk' & Hshape & Hflat);
      [eapply shapes_ahead_head, Hsh | done | done | lia |].
    destruct (IH s1) as (s' & Hrun & Hfso' & Hwo' & Hlog' & Hout & Hin);
      [eapply (shapes_ahead_tail s); [exact Hsh | exact Hfso]
      | done | lia | lia |].
    exists s'. simpl. rewrite Hrun1. simpl. rewrite sum_cons.
    split; [exact Hrun|]. split; [lia|]. split; [lia|].
    split; [by rewrite Hlog', Hlog, Hwo, <- app_assoc|].
    split.
    + intros [l' k'] Hnot. apply not_elem_of_cons in Hnot as [Hne Hnot].
      rewrite (Hout _ Hnot). simpl.
      destruct (decide (k' = k)) as [->|Hkk].
      * rewrite Hk, lookup_insert_ne; [done | congruence].
      * by rewrite Hk'.
    + intros Hnd. apply NoDup_cons in Hnd as [Hnot Hnd].
      destruct (Hin Hnd) as (pieces & Hpieces & Hcat).
      assert (Hhead : flat_at s' (l, k) = Some (flatten (items arr))).
      { unfold flat_at. rewrite (Hout _ Hnot). simpl.
        by rewrite Hk, lookup_insert_eq. }
      exists (flatten (items arr) :: pieces). split.
      * simpl. rewrite Hhead. simpl. rewrite Hpieces. reflexivity.
      * simpl. rewrite Hcat, Hflat, Hwo.
        rewrite !Z2Nat.inj_add by lia.
        rewrite <- drop_drop, <- take_take_drop. reflexivity.
Qed.


(** A buffer too short for the remaining assignments makes one reshape
    fail. *)
Lemma walk_short (tasks : list (Z * weight_kind)) (s : unpack_state E) :
  shapes_ahead flat_shapes sh s tasks ->
  Forall (fun t => Forall (fun d => 0 <= d) (sh t)) tasks ->
  0 <= w_offsets s <= len ->
  len < w_offsets s + sum (sizes tasks) ->
  run tasks s = Raise ShapeError.
Proof.
  revert s. induction tasks as [|[l k] tasks IH]; intros s Hsh Hnn Ho Hfit.
  - unfold sum in Hfit. simpl in Hfit. lia.
  - apply Forall_cons in Hnn as [Hnn1 Hnn].
    simpl in Hfit. rewrite sum_cons in Hfit.
    pose proof (prod_nonneg _ Hnn1) as Hp. simpl.
    destruct (Z_le_gt_dec (w_offsets s + prod (sh (l, k))) len) as [Hle|Hgt].
    + destruct (unpack_assign_enough l k s) as
          (s1 & arr & -> & Hfso & Hwo & _);
        [eapply shapes_ahead_head, Hsh | done | lia | lia |].
      simpl. apply IH; [|done|lia|lia].
      eapply (shapes_ahead_tail s); [exact Hsh | exact Hfso].
    + rewrite unpack_assign_short; [reflexivity| |done|lia|lia].
      eapply shapes_ahead_head, Hsh.
Qed.

End Walk.

(** Only the part of the buffer the assignments reach is read. *)
Lemma walk_prefix {E : Type} (weights : list E) (flat_shapes : list Shape)
  (sh : Z * weight_kind -> Shape) (n : Z) (tasks : list (Z * weight_kind))
  (s : unpack_state E) :
  shapes_ahead flat_shapes sh s tasks ->
  Forall (fun t => Forall (fun d => 0 <= d) (sh t)) tasks ->
  0 <= w_offsets s ->
  w_offsets s + sum (map (fun t => prod (sh t)) tasks) <= n ->
  n <= Z.of_nat (length weights) ->
  for_each tasks
    (fun t => unpack_assign (take (Z.to_nat n) weights) flat_shapes
                (fst t) (snd t)) s =
  for_each tasks
    (fun t => unpack_assign weights flat_shapes (fst t) (snd t)) s.
Proof.
  revert s. induction tasks as [|[l k] tasks IH]; intros s Hsh Hnn Ho Hfit Hn.
  - reflexivity.
  - apply Forall_cons in Hnn as [Hnn1 Hnn].
    simpl in Hfit. rewrite sum_cons in Hfit.
    pose proof (prod_nonneg _ Hnn1) as Hp.
    assert (Hs : 0 <= sum (map (fun t => prod (sh t)) tasks)).
    { apply sum_nonneg, Forall_fmap. eapply Forall_impl; [exact Hnn|].
      intros t Ht. apply prod_nonneg, Ht. }
    assert (Hstep :
              unpack_assign (take (Z.to_nat n) weights) flat_shapes l k s =
              unpack_assign weights flat_shapes l k s).
    { destruct Hsh as [Hoff Hsh].
      specialize (Hsh 0%nat (l, k) eq_refl). rewrite Nat.add_0_r in Hsh.
      apply list_index_lookup in Hsh; [|exact Hoff].
      unfold unpack_assign. rewrite Hsh. simpl.
      rewrite slice_of_prefix by lia. reflexivity. }
    simpl. rewrite Hstep.
    destruct (unpack_assign_enough weights flat_shapes sh l k s) as
        (s1 & arr & -> & Hfso & Hwo & _);
      [eapply shapes_ahead_head, Hsh | done | lia | lia |].
    simpl. apply IH; [|done|lia|lia|lia].
    eapply (shapes_ahead_tail _ _ s); [exact Hsh | exact Hfso].
Qed.

(** ** [unpack_lstm_weights] as one walk over its assignments *)

Section Unpack.
Context {E : Type}.
Variables (input_size hidden_size num_layers : Z) (bidirectional : bool).

Local Abbreviation npl := (num_pseudo_layers_of num_layers bidirectional).
Local Abbreviation flat_shapes :=
  (_get_params_shapes_in_lstm input_size hidden_size num_layers bidirectional).
Local Abbreviation sh := (shape_of input_size hidden_size bidirectional).
Local Abbreviation s0 := (mkState (E:=E) 0 0 ∅ ∅ ∅ ∅ []).

Lemma unpack_walk_tasks (weights : list E) :
  unpack_walk weights input_size hidden_size num_layers bidirectional =
  for_each (unpack_tasks npl)
    (fun t => unpack_assign weights flat_shapes (fst t) (snd t)) s0.
Proof.
  unfold unpack_walk, unpack_tasks. rewrite for_each_app, for_each_nested.
  destruct (for_each _ _ s0) as [s1|e]; [|reflexivity].
  change (Ok s1 ≫= ?k) with (k s1). cbv beta.
  apply (for_each_nested (range _) [K_b_ih; K_b_hh]
           (unpack_assign weights flat_shapes)).
Qed.

Lemma num_params_tasks :
  get_num_params_in_lstm input_size hidden_size num_layers bidirectional =
  sum (map (fun t => prod (sh t)) (unpack_tasks npl)).
Proof.
  unfold get_num_params_in_lstm. by rewrite shapes_layout, map_map.
Qed.

Lemma shapes_ahead_start :
  shapes_ahead flat_shapes sh s0 (unpack_tasks npl).
Proof.
  split; [simpl; lia|]. intros i t Ht. simpl.
  by rewrite shapes_layout, list_lookup_fmap, Ht.
Qed.

Lemma tasks_nonneg :
  0 <= input_size -> 0 <= hidden_size ->
  Forall (fun t => Forall (fun d => 0 <= d) (sh t)) (unpack_tasks npl).
Proof.
  intros Hi Hh. apply Forall_forall. intros t _.
  by apply shape_of_nonneg.
Qed.

End Unpack.

(** ** Round trip, coverage and wrong lengths *)

Lemma mapM_app_Some {A B : Type} (f : A -> option B) (xs ys : list A)
  (zs : list B) :
  mapM f (xs ++ ys) = Some zs ->
  exists zs1 zs2,
    mapM f xs = Some zs1 /\ mapM f ys = Some zs2 /\ zs = zs1 ++ zs2.
Proof.
  rewrite mapM_Some. intros H.
  apply Forall2_app_inv_l in H as (zs1 & zs2 & H1 & H2 & ->).
  exists zs1, zs2. by rewrite !mapM_Some.
Qed.

(** The arrays stored by the assignments of two kinds, read back pseudo-layer
    by pseudo-layer. *)
Lemma mapM_pack_pair {E : Type} (s : unpack_state E) (k1 k2 : weight_kind)
  (ls : list Z) (pieces : list (list E)) :
  mapM (flat_at s) (flat_map (fun l => map (pair l) [k1; k2]) ls)
    = Some pieces ->
  exists joined,
    mapM (pack_pair (dict_of k1 s) (dict_of k2 s)) ls = Some joined /\
    concat joined = concat pieces.
Proof.
  revert pieces. induction ls as [|l ls IH]; intros pieces Hp.
  - inversion Hp; subst. by exists [].
  - change (mapM (flat_at s)
              ((l, k1) :: (l, k2)
                 :: flat_map (fun l => map (pair l) [k1; k2]) ls)
            = Some pieces) in Hp.
    rewrite mapM_Some in Hp.
    inversion Hp as [|? y1 ? ps1 Hy1 Hrest1]; subst.
    inversion Hrest1 as [|? y2 ? ps2 Hy2 Hrest2]; subst.
    rewrite <- mapM_Some in Hrest2.
    destruct (IH _ Hrest2) as (joined & Hj & Hc).
    unfold flat_at in Hy1, Hy2. simpl in Hy1, Hy2.
    destruct (dict_of k1 s !! l) as [a|] eqn:Ha; [|discriminate].
    destruct (dict_of k2 s !! l) as [b|] eqn:Hb; [|discriminate].
    simpl in Hy1, Hy2. injection Hy1 as <-. injection Hy2 as <-.
    exists ((flatten (items a) ++ flatten (items b)) :: joined). split.
    + apply mapM_Some. constructor; [|by apply mapM_Some].
      unfold pack_pair. by rewrite Ha, Hb.
    + simpl. by rewrite Hc, <- app_assoc.
Qed.

(** C1. For every valid configuration and every buffer whose length is
    [get_num_params_in_lstm] of it, [unpack_lstm_weights] succeeds, and
    flattening the arrays of its four maps row-major and concatenating them in
    the unpack order ([W_ih] then [W_hh] per pseudo-layer, then [b_ih] then
    [b_hh] per pseudo-layer) gives the buffer back, element for element. *)
Theorem unpack_pack_roundtrip {E : Type} (weights : list E)
  (input_size hidden_size num_layers : Z) (bidirectional : bool) :
  valid_config input_size hidden_size num_layers ->
  Z.of_nat (length weights) =
    get_num_params_in_lstm input_size hidden_size num_layers bidirectional ->
  exists maps,
    unpack_lstm_weights weights input_size hidden_size num_layers
      bidirectional = Ok maps /\
    pack (num_pseudo_layers_of num_layers bidirectional) maps = Some weights.
Proof.
  intros (Hi & Hh & Hn) Hlen.
  rewrite num_params_tasks in Hlen.
  unfold unpack_lstm_weights. rewrite unpack_walk_tasks.
  destruct (walk_enough weights _ _ _ _
              (shapes_ahead_start input_size hidden_size num_layers
                 bidirectional)
              (tasks_nonneg input_size hidden_size num_layers bidirectional
                 Hi Hh))
    as (s & -> & _ & _ & _ & _ & Hpieces); [simpl; lia | simpl; lia |].
  eexists. split; [reflexivity|].
  destruct (Hpieces (unpack_tasks_NoDup _)) as (pieces & Hm & Hcat).
  simpl in Hcat. rewrite drop_0, take_ge in Hcat by lia.
  apply mapM_app_Some in Hm as (p1 & p2 & Hm1 & Hm2 & ->).
  apply mapM_pack_pair in Hm1 as (j1 & Hj1 & Hc1).
  apply mapM_pack_pair in Hm2 as (j2 & Hj2 & Hc2).
  unfold pack. simpl in Hj1, Hj2. rewrite Hj1. simpl. rewrite Hj2. simpl.
  by rewrite Hc1, Hc2, <- concat_app, Hcat.
Qed.

Lemma unpack_pack_roundtrip_witness :
  exists maps,
    unpack_lstm_weights [3; 1; 4; 1; 5; 9; 2; 6; 5; 3; 5; 8; 9; 7; 9; 3] 1 1 1
      false = Ok maps /\
    pack 1 maps = Some [3; 1; 4; 1; 5; 9; 2; 6; 5; 3; 5; 8; 9; 7; 9; 3].
Proof.
  apply (unpack_pack_roundtrip
           [3; 1; 4; 1; 5; 9; 2; 6; 5; 3; 5; 8; 9; 7; 9; 3] 1 1 1 false).
  - unfold valid_config. lia.
  - reflexivity.
Defined.

(** C2. The products of the shapes listed by [_get_params_shapes_in_lstm]
    add up to [get_num_params_in_lstm], for every configuration; and for a
    valid configuration, on a buffer of exactly that length,
    [unpack_lstm_weights] runs to its end with the element offset equal to
    the length of the buffer and the shape list used up; the slices taken are
    the consecutive ones of the sizes of the shapes, starting at 0, every one
    inside the buffer and no two overlapping. *)
Theorem shape_coverage :
  (forall (input_size hidden_size num_layers : Z) (bidirectional : bool),
      sum (map prod (_get_params_shapes_in_lstm input_size hidden_size
                       num_layers bidirectional)) =
      get_num_params_in_lstm input_size hidden_size num_layers bidirectional)
  /\
  (forall (E : Type) (weights : list E)
          (input_size hidden_size num_layers : Z) (bidirectional : bool),
      valid_config input_size hidden_size num_layers ->
      Z.of_nat (length weights) =
        get_num_params_in_lstm input_size hidden_size num_layers
          bidirectional ->
      exists s,
        unpack_walk weights input_size hidden_size num_layers bidirectional
          = Ok s /\
        w_offsets s = Z.of_nat (length weights) /\
        flat_shapes_offset s =
          Z.of_nat (length (_get_params_shapes_in_lstm input_size hidden_size
                              num_layers bidirectional)) /\
        slice_log s =
          offsets_from 0
            (map prod (_get_params_shapes_in_lstm input_size hidden_size
                         num_layers bidirectional)) /\
        (forall a, a ∈ slice_log s ->
           0 <= fst a <= snd a /\ snd a <= Z.of_nat (length weights)) /\
        disjoint_slices (slice_log s)).
Proof.
  split; [reflexivity|].
  intros E weights input_size hidden_size num_layers bidirectional
    (Hi & Hh & Hn) Hlen.
  rewrite num_params_tasks in Hlen. rewrite unpack_walk_tasks.
  pose proof (tasks_nonneg input_size hidden_size num_layers bidirectional
                Hi Hh) as Hnn.
  destruct (walk_enough weights _ _ _ _
              (shapes_ahead_start input_size hidden_size num_layers
                 bidirectional) Hnn)
    as (s & -> & Hfso & Hwo & Hlog & _); [simpl; lia | simpl; lia |].
  simpl in Hfso, Hwo, Hlog.
  assert (Hsizes : Forall (fun d => 0 <= d)
                     (map (fun t => prod (shape_of input_size hidden_size
                                            bidirectional t))
                        (unpack_tasks
                           (num_pseudo_layers_of num_layers bidirectional)))).
  { apply Forall_fmap. eapply Forall_impl; [exact Hnn|].
    intros t Ht. apply prod_nonneg, Ht. }
  exists s. split; [reflexivity|].
  rewrite Hlog, shapes_layout, !length_map, map_map.
  split; [lia|]. split; [lia|]. split; [reflexivity|].
  split.
  - intros a Ha. apply offsets_from_bounds in Ha; [lia | done].
  - by apply offsets_from_disjoint.
Qed.

Lemma shape_coverage_witness :
  sum (map prod (_get_params_shapes_in_lstm 2 3 2 true)) =
    get_num_params_in_lstm 2 3 2 true /\
  exists s,
    unpack_walk [3; 1; 4; 1; 5; 9; 2; 6; 5; 3; 5; 8; 9; 7; 9; 3] 1 1 1 false
      = Ok s /\
    w_offsets s = 16 /\
    flat_shapes_offset s = 4 /\
    slice_log s = [(0, 4); (4, 8); (8, 12); (12, 16)] /\
    (forall a, a ∈ slice_log s -> 0 <= fst a <= snd a /\ snd a <= 16) /\
    disjoint_slices (slice_log s).
Proof.
  split.
  - apply (proj1 shape_coverage 2 3 2 true).
  - apply (proj2 shape_coverage Z
             [3; 1; 4; 1; 5; 9; 2; 6; 5; 3; 5; 8; 9; 7; 9; 3] 1 1 1 false).
    + unfold valid_config. lia.
    + reflexivity.
Defined.

(** C4, as the code has it. [unpack_lstm_weights] does not compare the
    length of the buffer with [get_num_params_in_lstm]. For a valid
    configuration, a buffer that is too short makes the reshape of the first
    slice that comes up short fail, and no maps are returned; a buffer that is
    too long is accepted, and its first [get_num_params_in_lstm] elements
    alone decide the result. *)
Theorem unpack_wrong_length {E : Type} (weights : list E)
  (input_size hidden_size num_layers : Z) (bidirectional : bool) :
  valid_config input_size hidden_size num_layers ->
  (Z.of_nat (length weights) <
     get_num_params_in_lstm input_size hidden_size num_layers bidirectional ->
   unpack_lstm_weights weights input_size hidden_size num_layers
     bidirectional = Raise ShapeError) /\
  (get_num_params_in_lstm input_size hidden_size num_layers bidirectional <
     Z.of_nat (length weights) ->
   (exists maps,
      unpack_lstm_weights weights input_size hidden_size num_layers
        bidirectional = Ok maps) /\
   unpack_lstm_weights weights input_size hidden_size num_layers
     bidirectional =
   unpack_lstm_weights
     (take (Z.to_nat (get_num_params_in_lstm input_size hidden_size
                        num_layers bidirectional)) weights)
     input_size hidden_size num_layers bidirectional).
Proof.
  intros (Hi & Hh & Hn).
  pose proof (tasks_nonneg input_size hidden_size num_layers bidirectional
                Hi Hh) as Hnn.
  pose proof (shapes_ahead_start (E:=E) input_size hidden_size num_layers
                bidirectional) as Hsh.
  assert (Htot : 0 <= get_num_params_in_lstm input_size hidden_size
                        num_layers bidirectional).
  { rewrite num_params_tasks. apply sum_nonneg, Forall_fmap.
    eapply Forall_impl; [exact Hnn|]. intros t Ht. apply prod_nonneg, Ht. }
  unfold unpack_lstm_weights. rewrite !unpack_walk_tasks.
  rewrite num_params_tasks in *.
  split; intros Hlen.
  - rewrite (walk_short weights _ _ _ _ Hsh Hnn); simpl; [reflexivity|lia|lia].
  - rewrite (walk_prefix weights _ _ _ _ _ Hsh Hnn); simpl; [|lia|lia|lia].
    split; [|reflexivity].
    destruct (walk_enough weights _ _ _ _ Hsh Hnn) as (s & -> & _);
      simpl; [lia|lia|].
    eexists. reflexivity.
Qed.

Lemma unpack_wrong_length_witness :
  unpack_lstm_weights [2; 7; 1; 8] 1 1 1 false = Raise ShapeError /\
  (exists maps,
     unpack_lstm_weights
       [3; 1; 4; 1; 5; 9; 2; 6; 5; 3; 5; 8; 9; 7; 9; 3; 2; 3] 1 1 1 false
       = Ok maps) /\
  unpack_lstm_weights
    [3; 1; 4; 1; 5; 9; 2; 6; 5; 3; 5; 8; 9; 7; 9; 3; 2; 3] 1 1 1 false =
  unpack_lstm_weights
    [3; 1; 4; 1; 5; 9; 2; 6; 5; 3; 5; 8; 9; 7; 9; 3] 1 1 1 false.
Proof.
  split.
  - refine (proj1 (unpack_wrong_length [2; 7; 1; 8] 1 1 1 false _) _).
    + unfold valid_config. lia.
    + reflexivity.
  - refine (proj2 (unpack_wrong_length
                     [3; 1; 4; 1; 5; 9; 2; 6; 5; 3; 5; 8; 9; 7; 9; 3; 2; 3]
                     1 1 1 false _) _).
    + unfold valid_config. lia.
    + reflexivity.
Defined.

(** C4, as claimed, fails: a buffer one element longer than
    [get_num_params_in_lstm 1 1 1 false = 16] is unpacked without any
    error. *)
Lemma unpack_accepts_longer_buffer :
  Z.of_nat (length [3; 1; 4; 1; 5; 9; 2; 6; 5; 3; 5; 8; 9; 7; 9; 3; 2]) ≠
    get_num_params_in_lstm 1 1 1 false /\
  exists maps,
    unpack_lstm_weights [3; 1; 4; 1; 5; 9; 2; 6; 5; 3; 5; 8; 9; 7; 9; 3; 2]
      1 1 1 false = Ok maps.
Proof.
  split; [discriminate|]. eexists. vm_compute. reflexivity.
Qed.

(** ** The reference LSTM: errors and unused arguments *)

Lemma for_each_not_raised {S X : Type} (e : exception) (xs : list X)
  (body : X -> S -> result S) (s : S) :
  (forall x s', body x s' ≠ Raise e) -> for_each xs body s ≠ Raise e.
Proof.
  intros Hbody. revert s. induction xs as [|x xs IH]; intros s; simpl.
  - discriminate.
  - specialize (Hbody x s).
    destruct (body x s) as [s1|e1]; simpl; [apply IH | exact Hbody].
Qed.

Section ReferenceErrors.
Context {F : Type} `{Scalar F}.
Variables (h_0 c_0 : list (list (list F))).
Variables (W_ih W_hh : gmap Z (list (list F))) (b_ih b_hh : gmap Z (list F)).

Ltac case_results :=
  repeat match goal with
    | |- context [dict_get ?d ?k] => unfold dict_get; destruct (d !! k); simpl
    | |- context [jax_index ?a ?l] =>
        unfold jax_index; destruct (a !! _); simpl
    | |- context [let '(_, _) := ?p in _] => destruct p as [[? ?] ?]; simpl
    | |- context [match ?o with Some _ => _ | None => _ end] =>
        destruct o; simpl
    | |- context [if ?b then _ else _] => destruct b; simpl
    end; try discriminate.

Lemma ref_layer_not_unsupported (l : Z) (s : ref_state F) :
  ref_layer h_0 c_0 W_ih W_hh b_ih b_hh l s ≠ Raise NotImplementedError.
Proof. unfold ref_layer, cell_of. case_results. Qed.

Lemma ref_pseudo_layer_not_unsupported (l : Z) (s : ref_state F) :
  ref_pseudo_layer h_0 c_0 W_ih W_hh b_ih b_hh l s ≠ Raise NotImplementedError.
Proof. unfold ref_pseudo_layer, cell_of. case_results. Qed.

End ReferenceErrors.

(** C5. [lstm_ref] raises NotImplementedError, and so returns no output,
    exactly when [dropout != 0.0] holds of the float it is given; with a
    dropout equal to 0 it never raises this error. *)
Theorem lstm_ref_dropout {F : Type} `{Scalar F}
  (x h_0 c_0 : list (list (list F)))
  (W_ih W_hh : gmap Z (list (list F))) (b_ih b_hh : gmap Z (list F))
  (seq_lengths : IntArray) (input_size hidden_size num_layers : Z)
  (dropout : float) (bidirectional : bool) :
  lstm_ref x h_0 c_0 W_ih W_hh b_ih b_hh seq_lengths input_size hidden_size
    num_layers dropout bidirectional = Raise NotImplementedError
  <-> PrimFloat.eqb dropout 0%float = false.
Proof.
  unfold lstm_ref. destruct (PrimFloat.eqb dropout 0) eqn:Hd; simpl.
  - split; [|discriminate]. intros Hraise. exfalso. revert Hraise.
    destruct bidirectional; simpl.
    + pose proof (for_each_not_raised NotImplementedError
                    (range (num_layers * 2))
                    (ref_pseudo_layer h_0 c_0 W_ih W_hh b_ih b_hh)
                    (mkRef (transpose x) None [] [])
                    (ref_pseudo_layer_not_unsupported h_0 c_0 W_ih W_hh
                       b_ih b_hh)) as Hloop.
      destruct (for_each _ _ _) as [s|e]; simpl; [|congruence].
      destruct (final_h s), (final_c s); simpl; discriminate.
    + pose proof (for_each_not_raised NotImplementedError
                    (range num_layers)
                    (ref_layer h_0 c_0 W_ih W_hh b_ih b_hh)
                    (mkRef (transpose x) None [] [])
                    (ref_layer_not_unsupported h_0 c_0 W_ih W_hh
                       b_ih b_hh)) as Hloop.
      destruct (for_each _ _ _) as [s|e]; simpl; [|congruence].
      destruct (final_h s), (final_c s); simpl; discriminate.
  - split; reflexivity.
Qed.

(** The dropout rejection of the spec's tests: [dropout = 0.5]. *)
Lemma lstm_ref_dropout_witness :
  lstm_ref (small_x 0%R 1%R) (small_state 0%R) (small_state 0%R)
    (small_W_ih 0%R 1%R) (small_W_hh 0%R) (small_bias 0%R) (small_bias 0%R)
    small_seq_lengths 1 1 1 0.5%float true = Raise NotImplementedError.
Proof.
  apply (proj2 (lstm_ref_dropout (small_x 0%R 1%R) (small_state 0%R)
                  (small_state 0%R) (small_W_ih 0%R 1%R) (small_W_hh 0%R)
                  (small_bias 0%R) (small_bias 0%R) small_seq_lengths
                  1 1 1 0.5%float true)).
  reflexivity.
Defined.

(** C10. [lstm_ref] never reads [seq_lengths]: two calls that differ only
    in it return the same result. *)
Theorem lstm_ref_ignores_seq_lengths {F : Type} `{Scalar F}
  (x h_0 c_0 : list (list (list F)))
  (W_ih W_hh : gmap Z (list (list F))) (b_ih b_hh : gmap Z (list F))
  (seq_lengths seq_lengths' : IntArray)
  (input_size hidden_size num_layers : Z)
  (dropout : float) (bidirectional : bool) :
  lstm_ref x h_0 c_0 W_ih W_hh b_ih b_hh seq_lengths input_size hidden_size
    num_layers dropout bidirectional =
  lstm_ref x h_0 c_0 W_ih W_hh b_ih b_hh seq_lengths' input_size hidden_size
    num_layers dropout bidirectional.
Proof. unfold lstm_ref. reflexivity. Qed.

(** ** The backward rule *)




(** ** Transposition of rectangular arrays *)

Section Transpose.
Context {A : Type}.
Implicit Types (r : list A) (m : list (list A)).

Lemma transpose_cons r m :
  m ≠ [] -> transpose (r :: m) = zip_with cons r (transpose m).
Proof. destruct m; [done | reflexivity]. Qed.

Lemma transpose_singletons r :
  r ≠ [] -> transpose (map (fun a => [a]) r) = [r].
Proof.
  induction r as [|a r IH]; [done|]. intros _.
  destruct r as [|b r]; [reflexivity|].
  change (map (fun a => [a]) (a :: b :: r))
    with ([a] :: map (fun a => [a]) (b :: r)).
  rewrite transpose_cons by done. by rewrite IH.
Qed.

Lemma length_transpose (c : nat) m :
  m ≠ [] -> Forall (fun r => length r = c) m -> length (transpose m) = c.
Proof.
  induction m as [|r m IH]; [done|]. intros _ Hall.
  apply Forall_cons in Hall as [Hr Hall].
  destruct m as [|r' m]; [by rewrite <- Hr; simpl; rewrite length_map|].
  rewrite transpose_cons by done.
  rewrite length_zip_with, IH by done. lia.
Qed.

Lemma transpose_zip_cons r m :
  length r = length m -> m ≠ [] ->
  transpose (zip_with cons r m) = r :: transpose m.
Proof.
  revert m. induction r as [|a r IH]; intros [|t m] Hlen Hne; try done.
  destruct r as [|a' r], m as [|t' m]; try done.
  change (zip_with cons (a :: a' :: r) (t :: t' :: m))
    with ((a :: t) :: zip_with cons (a' :: r) (t' :: m)).
  rewrite transpose_cons by done.
  rewrite IH by (simpl in *; (lia || done)).
  by rewrite (transpose_cons t) by done.
Qed.

(** On a matrix with at least one column transposing twice is the
    identity. *)
Lemma transpose_involutive (c : nat) m :
  (0 < c)%nat -> Forall (fun r => length r = c) m ->
  transpose (transpose m) = m.
Proof.
  intros Hc. induction m as [|r m IH]; [reflexivity|]. intros Hall.
  apply Forall_cons in Hall as [Hr Hall].
  destruct m as [|r' m].
  - apply transpose_singletons. destruct r; [simpl in Hr; lia | done].
  - rewrite transpose_cons by done.
    rewrite transpose_zip_cons.
    + by rewrite IH.
    + by rewrite (length_transpose c).
    + intros Hnil. pose proof (length_transpose c (r' :: m)) as Hl.
      rewrite Hnil in Hl. simpl in Hl. specialize (Hl ltac:(done) Hall). lia.
Qed.

(** Column [j] of a matrix is row [j] of its transpose. *)
Lemma transpose_lookup (c j : nat) m :
  m ≠ [] -> Forall (fun r => length r = c) m -> (j < c)%nat ->
  exists col,
    transpose m !! j = Some col /\
    Forall2 (fun r a => r !! j = Some a) m col.
Proof.
  induction m as [|r m IH]; [done|]. intros _ Hall Hj.
  apply Forall_cons in Hall as [Hr Hall].
  destruct (lookup_lt_is_Some_2 r j) as [a Ha]; [lia|].
  destruct m as [|r' m].
  - exists [a]. split; [|by repeat constructor].
    simpl. by rewrite list_lookup_fmap, Ha.
  - destruct (IH ltac:(done) Hall Hj) as (col & Hcol & Hall2).
    exists (a :: col). split; [|by constructor].
    rewrite transpose_cons by done.
    by rewrite lookup_zip_with, Ha, Hcol.
Qed.

Lemma transpose_Forall (P : A -> Prop) m :
  Forall (Forall P) m -> Forall (Forall P) (transpose m).
Proof.
  induction m as [|r m IH]; [done|]. intros Hall.
  apply Forall_cons in Hall as [Hr Hall].
  destruct m as [|r' m].
  - simpl. apply Forall_fmap. eapply Forall_impl; [exact Hr|].
    intros a Ha. by constructor.
  - rewrite transpose_cons by done. specialize (IH Hall).
    revert Hr IH. generalize (transpose (r' :: m)) as t. clear.
    intros t Hr. revert t. induction Hr as [|a r Ha Hr IHr]; intros [|u t] Ht;
      simpl; try constructor.
    + apply Forall_cons in Ht as [Hu Ht]. by constructor.
    + apply Forall_cons in Ht as [Hu Ht]. by apply IHr.
Qed.

Lemma zip_cons_lengths (n : nat) r m :
  Forall (fun col => length col = n) m ->
  Forall (fun col => length col = S n) (zip_with cons r m).
Proof.
  intros Hm. revert r. induction Hm as [|u t Hu _ IH]; intros [|a r]; simpl;
    try constructor; [by rewrite <- Hu | apply IH].
Qed.

Lemma transpose_row_lengths (c : nat) m :
  m ≠ [] -> Forall (fun r => length r = c) m ->
  Forall (fun col => length col = length m) (transpose m).
Proof.
  induction m as [|r m IH]; [done|]. intros _ Hall.
  apply Forall_cons in Hall as [Hr Hall].
  destruct m as [|r' m].
  - simpl. apply Forall_fmap, Forall_forall. intros; reflexivity.
  - rewrite transpose_cons by done.
    apply (zip_cons_lengths (length (r' :: m))), IH; done.
Qed.

End Transpose.

(** ** The cell of the reference LSTM *)

Lemma split4_blocks {A : Type} (n : nat) (a : list A) :
  length a = (4 * n)%nat ->
  split4 a =
  (gate_block n 0 a, gate_block n 1 a, gate_block n 2 a, gate_block n 3 a).
Proof.
  intros Hlen. unfold split4, gate_block. rewrite Hlen.
  replace (4 * n / 4)%nat with n
    by (rewrite Nat.mul_comm, Nat.div_mul; lia).
  repeat f_equal; lia.
Qed.

Lemma gate_block_length {A : Type} (n g : nat) (a : list A) :
  length a = (4 * n)%nat -> (g < 4)%nat -> length (gate_block n g a) = n.
Proof.
  intros Hlen Hg. unfold gate_block. rewrite length_take, length_drop. nia.
Qed.

Lemma gate_block_matrix {A : Type} (n c g : nat) (W : list (list A)) :
  is_matrix (4 * n) c W -> (g < 4)%nat -> is_matrix n c (gate_block n g W).
Proof.
  intros [Hlen Hrows] Hg. split; [by apply gate_block_length|].
  unfold gate_block. by apply Forall_take, Forall_drop.
Qed.

Section CellFacts.
Context {F : Type} `{Scalar F}.
Implicit Types (u v : list F) (X Y W : list (list F)).

Lemma matmul_transpose (c : nat) X W :
  (0 < c)%nat -> Forall (fun r => length r = c) W ->
  matmul X (transpose W) = map (fun a => vec_mat_T a W) X.
Proof.
  intros Hc HW. unfold matmul. by rewrite (transpose_involutive c).
Qed.

Lemma broadcast2_row (op : F -> F -> F) X v :
  broadcast2 op X [v] = map (fun r => zip_with op r v) X.
Proof. destruct X as [|x [|x' X]]; reflexivity. Qed.

Lemma broadcast2_same (op : F -> F -> F) X Y :
  length X = length Y -> broadcast2 op X Y = zip_with (zip_with op) X Y.
Proof.
  destruct X as [|x [|x' X]], Y as [|y [|y' Y]]; try done.
Qed.

Lemma broadcast2_length (op : F -> F -> F) X Y :
  length X = length Y -> length (broadcast2 op X Y) = length X.
Proof.
  intros Hlen. rewrite broadcast2_same, length_zip_with by done. lia.
Qed.

(** The batched affine part of a gate, batch element by batch element. *)
Lemma gate_batched (c_i c_h : nat) (Wi Wh : list (list F)) (bi bh : list F)
  (x h : list (list F)) :
  (0 < c_i)%nat -> (0 < c_h)%nat ->
  Forall (fun r => length r = c_i) Wi ->
  Forall (fun r => length r = c_h) Wh ->
  length x = length h ->
  broadcast2 add
    (broadcast2 add
       (broadcast2 add (matmul x (transpose Wi)) [bi])
       (matmul h (transpose Wh)))
    [bh] =
  zip_with
    (fun x_t h_t =>
       vadd (vadd (vadd (vec_mat_T x_t Wi) bi) (vec_mat_T h_t Wh)) bh)
    x h.
Proof.
  intros Hci Hch HWi HWh Hlen.
  rewrite (matmul_transpose c_i), (matmul_transpose c_h) by done.
  rewrite !broadcast2_row, broadcast2_same by (by rewrite !length_map).
  clear. revert h. induction x as [|x_t x IH]; intros [|h_t h]; simpl;
    try reflexivity.
  by rewrite IH.
Qed.

End CellFacts.

Ltac batch_length :=
  repeat (rewrite length_map || rewrite length_zip_with
          || rewrite broadcast2_length by batch_length);
  lia.

Section CellBatch.
Context {F : Type} `{Scalar F}.
Variables (n_in n_hid : nat).
Variables (W_ih W_hh : list (list F)) (b_ih b_hh : list F).
Hypothesis Hin : (0 < n_in)%nat.
Hypothesis Hhid : (0 < n_hid)%nat.
Hypothesis HWih : is_matrix (4 * n_hid) n_in W_ih.
Hypothesis HWhh : is_matrix (4 * n_hid) n_hid W_hh.
Hypothesis Hbih : length b_ih = (4 * n_hid)%nat.
Hypothesis Hbhh : length b_hh = (4 * n_hid)%nat.

(** The batched cell of the code is the cell update of the spec on every
    element of the batch. *)
Lemma lstm_cell_batch (h c x : list (list F)) :
  length x = length h -> length h = length c ->
  lstm_cell W_ih W_hh b_ih b_hh (h, c) x =
  let rows := batch_update n_hid W_ih W_hh b_ih b_hh h c x in
  ((map fst rows, map snd rows), map fst rows).
Proof.
  intros Hxh Hhc. unfold lstm_cell.
  rewrite (split4_blocks n_hid W_ih), (split4_blocks n_hid W_hh),
    (split4_blocks n_hid b_ih), (split4_blocks n_hid b_hh)
    by (done || apply HWih || apply HWhh).
  cbv zeta.
  rewrite !(gate_batched n_in n_hid)
    by (done || (apply gate_block_matrix; (done || lia))).
  rewrite !broadcast2_same.
  { unfold batch_update, cell_update, gate_input, vmul, vadd.
    clear -Hxh Hhc. revert h c Hxh Hhc.
    induction x as [|x_t x IH]; intros [|h_t h] [|c_t c] Hxh Hhc;
      try done.
    simpl in Hxh, Hhc.
    specialize (IH h c ltac:(lia) ltac:(lia)). simpl in *.
    injection IH as IH1 IH2 IH3. by rewrite IH1, IH2. }
  all: batch_length.
Qed.

End CellBatch.

(** ** Scans *)

Section Scan.
Context {C X Y : Type}.
Variable f : C -> X -> C * Y.

Local Abbreviation step :=
  (fun (acc : C * list Y) x =>
     let '(carry, ys) := acc in
     let '(carry', y) := f carry x in
     (carry', ys ++ [y])).

Lemma scan_acc (xs : list X) (init : C) (acc : list Y) :
  fold_left step xs (init, acc) =
  (fst (scan f init xs), acc ++ snd (scan f init xs)).
Proof.
  unfold scan. revert init acc.
  induction xs as [|x xs IH]; intros init acc; simpl.
  - by rewrite app_nil_r.
  - destruct (f init x) as [carry' y].
    rewrite (IH carry' (acc ++ [y])), (IH carry' [y]). simpl.
    by rewrite <- app_assoc.
Qed.

Lemma scan_cons (x : X) (xs : list X) (init : C) :
  scan f init (x :: xs) =
  (fst (scan f (fst (f init x)) xs),
   snd (f init x) :: snd (scan f (fst (f init x)) xs)).
Proof.
  unfold scan at 1. simpl. destruct (f init x) as [carry' y].
  by rewrite scan_acc.
Qed.

Lemma scan_snoc (x : X) (xs : list X) (init : C) :
  scan f init (xs ++ [x]) =
  (fst (f (fst (scan f init xs)) x),
   snd (scan f init xs) ++ [snd (f (fst (scan f init xs)) x)]).
Proof.
  unfold scan. rewrite fold_left_app. simpl.
  destruct (fold_left _ xs (init, [])) as [carry ys]. simpl.
  by destruct (f carry x).
Qed.

Lemma scan_length (xs : list X) (init : C) :
  length (snd (scan f init xs)) = length xs.
Proof.
  revert init. induction xs as [|x xs IH]; intros init; [reflexivity|].
  rewrite scan_cons. simpl. by rewrite IH.
Qed.

(** An invariant of the carry, kept by every step on the inputs met, holds
    of the final carry; what it gives of every output holds of all
    outputs. *)
Lemma scan_invariant (P : C -> Prop) (R : X -> Prop) (Q : Y -> Prop)
  (xs : list X) (init : C) :
  (forall c x, P c -> R x -> P (fst (f c x)) /\ Q (snd (f c x))) ->
  P init -> Forall R xs ->
  P (fst (scan f init xs)) /\ Forall Q (snd (scan f init xs)).
Proof.
  intros Hstep. revert init.
  induction xs as [|x xs IH]; intros init Hinit Hxs.
  - by split.
  - apply Forall_cons in Hxs as [Hx Hxs]. rewrite scan_cons. simpl.
    destruct (Hstep init x Hinit Hx) as [Hc Hy].
    destruct (IH _ Hc Hxs) as [Hfin Hall]. split; [done|]. by constructor.
Qed.

(** When every step emits a view [g] of its new carry, the last output is
    that view of the final carry. *)
Lemma scan_last (g : C -> Y) (xs : list X) (init : C) :
  (forall c x, snd (f c x) = g (fst (f c x))) ->
  xs ≠ [] ->
  last (snd (scan f init xs)) = Some (g (fst (scan f init xs))).
Proof.
  intros Hg Hne.
  destruct xs as [|x xs' _] using rev_ind; [done|]. clear Hne.
  rewrite scan_snoc. simpl. by rewrite last_snoc, Hg.
Qed.

End Scan.

Section Recurrence.
Context {F : Type} `{Scalar F}.

Lemma lstm_cell_emits (W_ih W_hh : list (list F)) (b_ih b_hh : list F)
  (carry : list (list F) * list (list F)) (x : list (list F)) :
  snd (lstm_cell W_ih W_hh b_ih b_hh carry x) =
  fst (fst (lstm_cell W_ih W_hh b_ih b_hh carry x)).
Proof.
  unfold lstm_cell. destruct carry as [h c].
  destruct (split4 W_ih) as [[[? ?] ?] ?], (split4 W_hh) as [[[? ?] ?] ?],
    (split4 b_ih) as [[[? ?] ?] ?], (split4 b_hh) as [[[? ?] ?] ?].
  reflexivity.
Qed.

(** The scan of the code over the cell is the recurrence of the spec. *)
Lemma scan_recurrence (W_ih W_hh : list (list F)) (b_ih b_hh : list F)
  (h c : list (list F)) (xs : list (list (list F))) :
  scan (lstm_cell W_ih W_hh b_ih b_hh) (h, c) xs =
  (snd (layer_recurrence W_ih W_hh b_ih b_hh h c xs),
   fst (layer_recurrence W_ih W_hh b_ih b_hh h c xs)).
Proof.
  revert h c. induction xs as [|x_t xs IH]; intros h c; [reflexivity|].
  rewrite scan_cons. cbn [layer_recurrence]. rewrite lstm_cell_emits.
  destruct (lstm_cell W_ih W_hh b_ih b_hh (h, c) x_t) as [[h' c'] y].
  cbn [fst snd]. rewrite IH.
  by destruct (layer_recurrence _ _ _ _ h' c' xs).
Qed.

End Recurrence.

(** ** Layers of the reference LSTM *)

Lemma jax_index_in_range {A : Type} (a : list A) (l : Z) (v : A) :
  a !! Z.to_nat l = Some v -> jax_index a l = Ok v.
Proof.
  intros Hv. unfold jax_index.
  pose proof (lookup_lt_Some _ _ _ Hv) as Hlt.
  replace (Z.to_nat l `min` (length a - 1))%nat with (Z.to_nat l) by lia.
  by rewrite Hv.
Qed.

Section Layers.
Context {F : Type} `{Scalar F}.
Variables (h_0 c_0 : list (list (list F))).
Variables (W_ih W_hh : gmap Z (list (list F))) (b_ih b_hh : gmap Z (list F)).

(** One iteration of either layer loop, on a pseudo-layer whose weights and
    initial state are present. *)
Lemma cell_of_present (l : Z) wih whh bih bhh :
  W_ih !! l = Some wih -> W_hh !! l = Some whh ->
  b_ih !! l = Some bih -> b_hh !! l = Some bhh ->
  cell_of W_ih W_hh b_ih b_hh l = Ok (lstm_cell wih whh bih bhh).
Proof.
  intros Hwih Hwhh Hbih Hbhh. unfold cell_of, dict_get.
  by rewrite Hwih, Hwhh, Hbih, Hbhh.
Qed.

Lemma ref_layer_present (l : Z) wih whh bih bhh h0 c0 (s : ref_state F) :
  W_ih !! l = Some wih -> W_hh !! l = Some whh ->
  b_ih !! l = Some bih -> b_hh !! l = Some bhh ->
  h_0 !! Z.to_nat l = Some h0 -> c_0 !! Z.to_nat l = Some c0 ->
  ref_layer h_0 c_0 W_ih W_hh b_ih b_hh l s =
  let run := layer_recurrence wih whh bih bhh h0 c0 (seq_first_y s) in
  Ok (mkRef (fst run) (seq_first_y_fwd s)
        (final_h s ++ [fst (snd run)]) (final_c s ++ [snd (snd run)])).
Proof.
  intros Hwih Hwhh Hbih Hbhh Hh0 Hc0. unfold ref_layer.
  rewrite (cell_of_present l wih whh bih bhh) by done.
  rewrite (jax_index_in_range h_0 l h0), (jax_index_in_range c_0 l c0)
    by done.
  cbn [mbind result_bind]. rewrite scan_recurrence.
  by destruct (layer_recurrence _ _ _ _ h0 c0 _) as [hs [h_t c_t]].
Qed.

End Layers.

(** C8. With two layers and one direction, on well-shaped arrays with at
    least one time step, [lstm_ref] is the recurrence of layer 0 over [x]
    from [(h_0[0], c_0[0])] followed by the recurrence of layer 1 over the
    hidden sequence of layer 0 from [(h_0[1], c_0[1])]: [y] is the hidden
    sequence of layer 1, and the final states of the two runs are
    [h_n[0], c_n[0]] and [h_n[1], c_n[1]]. *)
Theorem two_layer_chaining {F : Type} `{Scalar F} (B T n_in n_hid : nat)
  (x h_0 c_0 : list (list (list F)))
  (W_ih W_hh : gmap Z (list (list F))) (b_ih b_hh : gmap Z (list F))
  (seq_lengths : IntArray) (input_size hidden_size : Z) (dropout : float)
  (wih0 whh0 wih1 whh1 : list (list F)) (bih0 bhh0 bih1 bhh1 : list F)
  (h00 c00 h01 c01 : list (list F)) :
  PrimFloat.eqb dropout 0%float = true ->
  (0 < B)%nat -> (0 < T)%nat -> (0 < n_in)%nat -> (0 < n_hid)%nat ->
  is_tensor3 B T n_in x ->
  W_ih !! 0 = Some wih0 -> W_hh !! 0 = Some whh0 ->
  b_ih !! 0 = Some bih0 -> b_hh !! 0 = Some bhh0 ->
  W_ih !! 1 = Some wih1 -> W_hh !! 1 = Some whh1 ->
  b_ih !! 1 = Some bih1 -> b_hh !! 1 = Some bhh1 ->
  h_0 !! 0%nat = Some h00 -> c_0 !! 0%nat = Some c00 ->
  h_0 !! 1%nat = Some h01 -> c_0 !! 1%nat = Some c01 ->
  is_matrix (4 * n_hid) n_in wih0 -> is_matrix (4 * n_hid) n_hid whh0 ->
  length bih0 = (4 * n_hid)%nat -> length bhh0 = (4 * n_hid)%nat ->
  is_matrix (4 * n_hid) n_hid wih1 -> is_matrix (4 * n_hid) n_hid whh1 ->
  length bih1 = (4 * n_hid)%nat -> length bhh1 = (4 * n_hid)%nat ->
  is_matrix B n_hid h00 -> is_matrix B n_hid c00 ->
  is_matrix B n_hid h01 -> is_matrix B n_hid c01 ->
  lstm_ref x h_0 c_0 W_ih W_hh b_ih b_hh seq_lengths input_size hidden_size
    2 dropout false =
  let '(seq0, (h_n0, c_n0)) :=
    layer_recurrence wih0 whh0 bih0 bhh0 h00 c00 (transpose x) in
  let '(seq1, (h_n1, c_n1)) :=
    layer_recurrence wih1 whh1 bih1 bhh1 h01 c01 seq0 in
  Ok (transpose seq1, [h_n0; h_n1], [c_n0; c_n1]).
Proof.
  intros Hd HB HT Hin Hhid Hx Hwih0 Hwhh0 Hbih0 Hbhh0 Hwih1 Hwhh1 Hbih1 Hbhh1
    Hh0 Hc0 Hh1 Hc1 _ _ _ _ _ _ _ _ _ _ _ _.
  unfold lstm_ref. rewrite Hd. cbn [negb].
  change (range 2) with [0; 1]. cbn [for_each].
  rewrite (ref_layer_present h_0 c_0 W_ih W_hh b_ih b_hh 0
             wih0 whh0 bih0 bhh0 h00 c00) by done.
  cbn [mbind result_bind seq_first_y seq_first_y_fwd final_h final_c].
  destruct (layer_recurrence wih0 whh0 bih0 bhh0 h00 c00 (transpose x))
    as [seq0 [h_n0 c_n0]]. cbn [fst snd].
  rewrite (ref_layer_present h_0 c_0 W_ih W_hh b_ih b_hh 1
             wih1 whh1 bih1 bhh1 h01 c01) by done.
  cbn [mbind result_bind seq_first_y seq_first_y_fwd final_h final_c].
  by destruct (layer_recurrence wih1 whh1 bih1 bhh1 h01 c01 seq0)
    as [seq1 [h_n1 c_n1]].
Qed.

Section CellShapes.
Context {F : Type} `{Scalar F}.
Variables (n_in n_hid : nat).
Variables (W_ih W_hh : list (list F)) (b_ih b_hh : list F).
Hypothesis Hin : (0 < n_in)%nat.
Hypothesis Hhid : (0 < n_hid)%nat.
Hypothesis HWih : is_matrix (4 * n_hid) n_in W_ih.
Hypothesis HWhh : is_matrix (4 * n_hid) n_hid W_hh.
Hypothesis Hbih : length b_ih = (4 * n_hid)%nat.
Hypothesis Hbhh : length b_hh = (4 * n_hid)%nat.

Lemma gate_input_length (g : nat) (x_t h : list F) :
  (g < 4)%nat ->
  length (gate_input n_hid g W_ih W_hh b_ih b_hh x_t h) = n_hid.
Proof.
  intros Hg. unfold gate_input, vadd, vec_mat_T.
  rewrite !length_zip_with, !length_map.
  rewrite !gate_block_length by (done || apply HWih || apply HWhh). lia.
Qed.

Lemma cell_update_lengths (h c x_t : list F) :
  length c = n_hid ->
  length (fst (cell_update n_hid W_ih W_hh b_ih b_hh h c x_t)) = n_hid /\
  length (snd (cell_update n_hid W_ih W_hh b_ih b_hh h c x_t)) = n_hid.
Proof.
  intros Hc. unfold cell_update, vadd, vmul. cbn [fst snd].
  rewrite !length_zip_with, !length_map, !length_zip_with, !length_map.
  rewrite !gate_input_length by lia. lia.
Qed.

Lemma batch_update_matrix (B : nat) (h c x : list (list F)) :
  length x = B -> length h = B -> is_matrix B n_hid c ->
  is_matrix B n_hid (map fst (batch_update n_hid W_ih W_hh b_ih b_hh h c x))
  /\
  is_matrix B n_hid (map snd (batch_update n_hid W_ih W_hh b_ih b_hh h c x)).
Proof.
  intros Hx Hh [Hc Hrows]. unfold batch_update, is_matrix.
  rewrite !length_map, length_zip_with, length_zip.
  split; (split; [lia|]).
  - apply Forall_fmap, Forall_zip_with_fst with (P := fun hc => length (snd hc) = n_hid).
    + clear -Hrows. revert h. induction Hrows as [|c_t c Hc_t _ IH];
        intros [|h_t h]; simpl; constructor; [done | apply IH].
    + apply Forall_forall. intros x_t _ hc Hhc.
      by apply cell_update_lengths.
  - apply Forall_fmap, Forall_zip_with_fst with (P := fun hc => length (snd hc) = n_hid).
    + clear -Hrows. revert h. induction Hrows as [|c_t c Hc_t _ IH];
        intros [|h_t h]; simpl; constructor; [done | apply IH].
    + apply Forall_forall. intros x_t _ hc Hhc.
      by apply cell_update_lengths.
Qed.

(** One step of the cell on well-shaped arrays keeps the shapes of the
    state and emits the new hidden state. *)
Lemma lstm_cell_shapes (B : nat) (h c x : list (list F)) :
  length x = B -> is_matrix B n_hid h -> is_matrix B n_hid c ->
  is_matrix B n_hid (fst (fst (lstm_cell W_ih W_hh b_ih b_hh (h, c) x))) /\
  is_matrix B n_hid (snd (fst (lstm_cell W_ih W_hh b_ih b_hh (h, c) x))) /\
  is_matrix B n_hid (snd (lstm_cell W_ih W_hh b_ih b_hh (h, c) x)).
Proof.
  intros Hx [Hh Hhrows] Hc.
  rewrite (lstm_cell_batch n_in n_hid) by (done || lia || (destruct Hc; lia)).
  cbn [fst snd].
  destruct (batch_update_matrix B h c x Hx Hh Hc) as [H1 H2]. done.
Qed.

End CellShapes.

(** C6. On a batch of well-shaped arrays, one step of the reference cell
    is, for every batch element, the cell update of the spec: with the
    per-gate matrices and biases the four equal contiguous row blocks of
    [W_ih], [W_hh], [b_ih], [b_hh] in the order input, forget, candidate,
    output, [i], [f] and [o] are the sigmoid and [g] the tanh of
    [x_t·W_i*^T + b_i* + h·W_h*^T + b_h*], [c' = f⊙c + i⊙g] and
    [h' = o⊙tanh(c')]; the new state has the shape of the old one and the
    output of the step is [h']. *)
Theorem lstm_cell_formula {F : Type} `{Scalar F} (B n_in n_hid : nat)
  (W_ih W_hh : list (list F)) (b_ih b_hh : list F)
  (h c x : list (list F)) :
  (0 < n_in)%nat -> (0 < n_hid)%nat ->
  is_matrix (4 * n_hid) n_in W_ih -> is_matrix (4 * n_hid) n_hid W_hh ->
  length b_ih = (4 * n_hid)%nat -> length b_hh = (4 * n_hid)%nat ->
  is_matrix B n_in x -> is_matrix B n_hid h -> is_matrix B n_hid c ->
  let rows := batch_update n_hid W_ih W_hh b_ih b_hh h c x in
  lstm_cell W_ih W_hh b_ih b_hh (h, c) x =
    ((map fst rows, map snd rows), map fst rows) /\
  is_matrix B n_hid (map fst rows) /\
  is_matrix B n_hid (map snd rows).
Proof.
  intros Hin Hhid HWih HWhh Hbih Hbhh [Hx _] [Hh Hhrows] Hc rows.
  split.
  - apply (lstm_cell_batch n_in n_hid); (done || lia || (destruct Hc; lia)).
  - apply (batch_update_matrix n_in n_hid); done.
Qed.

(** ** The bidirectional composition *)

Lemma transpose_tensor3 {A : Type} (a b c : nat) (t : list (list (list A))) :
  (0 < a)%nat -> is_tensor3 a b c t -> is_tensor3 b a c (transpose t).
Proof.
  intros Ha [Hlen Hall].
  assert (Hne : t ≠ []) by (destruct t; [simpl in Hlen; lia | done]).
  assert (Hrows : Forall (fun r => length r = b) t).
  { eapply Forall_impl; [exact Hall|]. by intros r [Hr _]. }
  assert (Helems : Forall (Forall (fun v => length v = c)) t).
  { eapply Forall_impl; [exact Hall|]. by intros r [_ Hr]. }
  split; [by apply length_transpose|].
  apply Forall_and. split.
  - rewrite <- Hlen. by apply (transpose_row_lengths b).
  - by apply transpose_Forall.
Qed.

Section Bidirectional.
Context {F : Type} `{Scalar F}.

Section PseudoLayer.
Variables (h_0 c_0 : list (list (list F))).
Variables (W_ih W_hh : gmap Z (list (list F))) (b_ih b_hh : gmap Z (list F)).
Variables (l : Z) (wih whh : list (list F)) (bih bhh : list F).
Variables (h0 c0 : list (list F)).
Hypothesis Hwih : W_ih !! l = Some wih.
Hypothesis Hwhh : W_hh !! l = Some whh.
Hypothesis Hbih : b_ih !! l = Some bih.
Hypothesis Hbhh : b_hh !! l = Some bhh.
Hypothesis Hh0 : h_0 !! Z.to_nat l = Some h0.
Hypothesis Hc0 : c_0 !! Z.to_nat l = Some c0.

Lemma ref_pseudo_layer_forward (s : ref_state F) :
  l mod 2 = 0 ->
  ref_pseudo_layer h_0 c_0 W_ih W_hh b_ih b_hh l s =
  let r := scan (lstm_cell wih whh bih bhh) (h0, c0) (seq_first_y s) in
  Ok (mkRef (seq_first_y s) (Some (snd r))
        (final_h s ++ [fst (fst r)]) (final_c s ++ [snd (fst r)])).
Proof.
  intros Hl. unfold ref_pseudo_layer.
  rewrite (cell_of_present W_ih W_hh b_ih b_hh l wih whh bih bhh) by done.
  cbn [mbind result_bind]. rewrite Hl. cbn [Z.eqb].
  rewrite (jax_index_in_range h_0 l h0), (jax_index_in_range c_0 l c0)
    by done.
  cbn [mbind result_bind].
  by destruct (scan _ _ _) as [[h_t c_t] ys].
Qed.

Lemma ref_pseudo_layer_reverse (s : ref_state F)
  (fwd : list (list (list F))) :
  l mod 2 = 1 -> seq_first_y_fwd s = Some fwd ->
  ref_pseudo_layer h_0 c_0 W_ih W_hh b_ih b_hh l s =
  let r := scan_reverse (lstm_cell wih whh bih bhh) (h0, c0) (seq_first_y s) in
  Ok (mkRef (zip_with (zip_with app) fwd (snd r)) (Some fwd)
        (final_h s ++ [fst (fst r)]) (final_c s ++ [snd (fst r)])).
Proof.
  intros Hl Hfwd. unfold ref_pseudo_layer.
  rewrite (cell_of_present W_ih W_hh b_ih b_hh l wih whh bih bhh) by done.
  cbn [mbind result_bind]. rewrite Hl. cbn [Z.eqb Pos.eqb].
  rewrite (jax_index_in_range h_0 l h0), (jax_index_in_range c_0 l c0)
    by done.
  cbn [mbind result_bind].
  destruct (scan_reverse _ _ _) as [[h_t c_t] ys]. by rewrite Hfwd.
Qed.

End PseudoLayer.

Section WellShaped.
Variables (B T n_in n_hid : nat).
Variables (W_ih W_hh : list (list F)) (b_ih b_hh : list F).
Hypothesis Hin : (0 < n_in)%nat.
Hypothesis Hhid : (0 < n_hid)%nat.
Hypothesis HT : (0 < T)%nat.
Hypothesis HWih : is_matrix (4 * n_hid) n_in W_ih.
Hypothesis HWhh : is_matrix (4 * n_hid) n_hid W_hh.
Hypothesis Hbih : length b_ih = (4 * n_hid)%nat.
Hypothesis Hbhh : length b_hh = (4 * n_hid)%nat.
Variables (h0 c0 : list (list F)) (xs : list (list (list F))).
Hypothesis Hh0 : is_matrix B n_hid h0.
Hypothesis Hc0 : is_matrix B n_hid c0.
Hypothesis Hxs : is_tensor3 T B n_in xs.

(** A forward scan of the cell: every output is a [B × n_hid] matrix, and
    the last output is the final hidden state. *)
Lemma scan_cell_forward :
  let r := scan (lstm_cell W_ih W_hh b_ih b_hh) (h0, c0) xs in
  is_tensor3 T B n_hid (snd r) /\ last (snd r) = Some (fst (fst r)).
Proof.
  intros r. subst r. destruct Hxs as [Hlen Hall].
  split; [split|].
  - by rewrite scan_length.
  - apply (scan_invariant (lstm_cell W_ih W_hh b_ih b_hh)
             (fun carry => is_matrix B n_hid (fst carry) /\
                           is_matrix B n_hid (snd carry))
             (is_matrix B n_in) (is_matrix B n_hid)); [|done|done].
    intros [h c] x [Hh Hc] [Hx _]. cbn [fst snd] in Hh, Hc.
    destruct (lstm_cell_shapes n_in n_hid W_ih W_hh b_ih b_hh
                Hin Hhid HWih HWhh Hbih Hbhh B h c x Hx Hh Hc)
      as (H1 & H2 & H3). done.
  - apply (scan_last _ fst).
    + intros carry x. apply lstm_cell_emits.
    + destruct xs; [simpl in Hlen; lia | done].
Qed.

End WellShaped.

(** A reverse scan of the cell: outputs in the order of the inputs, and
    the first output is the final hidden state. *)
Lemma scan_cell_reverse (B T n_in n_hid : nat)
  (W_ih W_hh : list (list F)) (b_ih b_hh : list F)
  (h0 c0 : list (list F)) (xs : list (list (list F))) :
  (0 < n_in)%nat -> (0 < n_hid)%nat -> (0 < T)%nat ->
  is_matrix (4 * n_hid) n_in W_ih -> is_matrix (4 * n_hid) n_hid W_hh ->
  length b_ih = (4 * n_hid)%nat -> length b_hh = (4 * n_hid)%nat ->
  is_matrix B n_hid h0 -> is_matrix B n_hid c0 -> is_tensor3 T B n_in xs ->
  let r := scan_reverse (lstm_cell W_ih W_hh b_ih b_hh) (h0, c0) xs in
  is_tensor3 T B n_hid (snd r) /\ head (snd r) = Some (fst (fst r)).
Proof.
  intros Hin Hhid HT HWih HWhh Hbih Hbhh Hh0 Hc0 [Hlen Hall] r. subst r.
  unfold scan_reverse.
  destruct (scan_cell_forward B T n_in n_hid W_ih W_hh b_ih b_hh
              Hin Hhid HT HWih HWhh Hbih Hbhh h0 c0 (reverse xs) Hh0 Hc0)
    as [[Hl Hys] Hlast].
  { split; [by rewrite length_reverse | by apply Forall_reverse]. }
  destruct (scan _ _ (reverse xs)) as [carry ys]. cbn [fst snd] in *.
  split; [split|].
  - by rewrite length_reverse.
  - by apply Forall_reverse.
  - by rewrite head_reverse.
Qed.

(** The entry of [y] for batch element [b] at time [t]: the forward hidden
    state followed by the reverse hidden state. *)
Lemma output_entry (B T n : nat) (fwd bwd : list (list (list F)))
  (b t : nat) (yb : list (list F)) (v : list F) :
  (0 < T)%nat -> is_tensor3 T B n fwd -> is_tensor3 T B n bwd ->
  transpose (zip_with (zip_with app) fwd bwd) !! b = Some yb ->
  yb !! t = Some v ->
  exists ft bt u w,
    fwd !! t = Some ft /\ bwd !! t = Some bt /\
    ft !! b = Some u /\ bt !! b = Some w /\
    v = u ++ w /\ length u = n /\ length w = n.
Proof.
  intros HT [Hlf Hfwd] [Hlb Hbwd] Hyb Hv.
  set (seq := zip_with (zip_with app) fwd bwd) in *.
  assert (Hrows : Forall (fun r => length r = B) seq).
  { apply Forall_lookup. intros i r Hr.
    apply lookup_zip_with_Some in Hr as (ft & bt & -> & Hft & Hbt).
    rewrite Forall_lookup in Hfwd, Hbwd.
    destruct (Hfwd _ _ Hft) as [? _], (Hbwd _ _ Hbt) as [? _].
    rewrite length_zip_with. lia. }
  assert (Hne : seq ≠ []).
  { intros Hnil. assert (length seq = T) as Hl
      by (unfold seq; rewrite length_zip_with; lia).
    rewrite Hnil in Hl. simpl in Hl. lia. }
  assert (Hb : (b < B)%nat).
  { apply lookup_lt_Some in Hyb. by rewrite (length_transpose B) in Hyb. }
  destruct (transpose_lookup B b seq Hne Hrows Hb) as (col & Hcol & Hall2).
  rewrite Hyb in Hcol. injection Hcol as <-.
  destruct (Forall2_lookup_r _ _ _ _ _ Hall2 Hv) as (r & Hr & Hrb).
  apply lookup_zip_with_Some in Hr as (ft & bt & -> & Hft & Hbt).
  apply lookup_zip_with_Some in Hrb as (u & w & -> & Hu & Hw).
  rewrite Forall_lookup in Hfwd, Hbwd.
  destruct (Hfwd _ _ Hft) as [_ Hfrows], (Hbwd _ _ Hbt) as [_ Hbrows].
  rewrite Forall_lookup in Hfrows, Hbrows.
  exists ft, bt, u, w. repeat split; try done.
  - by apply (Hfrows b).
  - by apply (Hbrows b).
Qed.

Lemma concat_features_tensor3 (B T n : nat)
  (fwd bwd : list (list (list F))) :
  is_tensor3 T B n fwd -> is_tensor3 T B n bwd ->
  is_tensor3 T B (n + n) (zip_with (zip_with app) fwd bwd).
Proof.
  intros [Hlf Hfwd] [Hlb Hbwd]. split; [rewrite length_zip_with; lia|].
  apply Forall_lookup. intros i r Hr.
  apply lookup_zip_with_Some in Hr as (ft & bt & -> & Hft & Hbt).
  rewrite Forall_lookup in Hfwd, Hbwd.
  destruct (Hfwd _ _ Hft) as [Hf1 Hf2], (Hbwd _ _ Hbt) as [Hb1 Hb2].
  split; [rewrite length_zip_with; lia|].
  apply Forall_lookup. intros j v Hv.
  apply lookup_zip_with_Some in Hv as (u & w & -> & Hu & Hw).
  rewrite Forall_lookup in Hf2, Hb2.
  rewrite length_app, (Hf2 _ _ Hu), (Hb2 _ _ Hw). reflexivity.
Qed.

End Bidirectional.

(** C7, as the code has it. With one layer and two directions, on
    well-shaped arrays with at least one time step, [lstm_ref] returns [y] of
    shape [(batch, time, 2 * hidden_size)] and [h_n] of two entries: at the
    last time step the first [hidden_size] features of [y] are [h_n[0]], the
    final hidden state of the forward pseudo-layer; the final hidden state of
    the reverse pseudo-layer, [h_n[1]], is the last [hidden_size] features of
    [y] at the first time step, where the reverse scan ends. *)
Theorem bidirectional_output {F : Type} `{Scalar F} (B T n_in n_hid : nat)
  (x h_0 c_0 : list (list (list F)))
  (W_ih W_hh : gmap Z (list (list F))) (b_ih b_hh : gmap Z (list F))
  (seq_lengths : IntArray) (dropout : float)
  (wih0 whh0 wih1 whh1 : list (list F)) (bih0 bhh0 bih1 bhh1 : list F)
  (h00 c00 h01 c01 : list (list F)) :
  PrimFloat.eqb dropout 0%float = true ->
  (0 < B)%nat -> (0 < T)%nat -> (0 < n_in)%nat -> (0 < n_hid)%nat ->
  is_tensor3 B T n_in x ->
  W_ih !! 0 = Some wih0 -> W_hh !! 0 = Some whh0 ->
  b_ih !! 0 = Some bih0 -> b_hh !! 0 = Some bhh0 ->
  W_ih !! 1 = Some wih1 -> W_hh !! 1 = Some whh1 ->
  b_ih !! 1 = Some bih1 -> b_hh !! 1 = Some bhh1 ->
  h_0 !! 0%nat = Some h00 -> c_0 !! 0%nat = Some c00 ->
  h_0 !! 1%nat = Some h01 -> c_0 !! 1%nat = Some c01 ->
  is_matrix (4 * n_hid) n_in wih0 -> is_matrix (4 * n_hid) n_hid whh0 ->
  length bih0 = (4 * n_hid)%nat -> length bhh0 = (4 * n_hid)%nat ->
  is_matrix (4 * n_hid) n_in wih1 -> is_matrix (4 * n_hid) n_hid whh1 ->
  length bih1 = (4 * n_hid)%nat -> length bhh1 = (4 * n_hid)%nat ->
  is_matrix B n_hid h00 -> is_matrix B n_hid c00 ->
  is_matrix B n_hid h01 -> is_matrix B n_hid c01 ->
  exists y h_fwd h_bwd c_fwd c_bwd,
    lstm_ref x h_0 c_0 W_ih W_hh b_ih b_hh seq_lengths
      (Z.of_nat n_in) (Z.of_nat n_hid) 1 dropout true =
      Ok (y, [h_fwd; h_bwd], [c_fwd; c_bwd]) /\
    is_tensor3 B T (2 * n_hid) y /\
    Forall2
      (fun yb h_b => exists v, last yb = Some v /\ take n_hid v = h_b)
      y h_fwd /\
    Forall2
      (fun yb h_b => exists v, head yb = Some v /\ drop n_hid v = h_b)
      y h_bwd.
Proof.
  intros Hd HB HT Hin Hhid Hx Hwih0 Hwhh0 Hbih0 Hbhh0 Hwih1 Hwhh1 Hbih1 Hbhh1
    Hh00 Hc00 Hh01 Hc01 Swih0 Swhh0 Sbih0 Sbhh0 Swih1 Swhh1 Sbih1 Sbhh1
    Sh00 Sc00 Sh01 Sc01.
  pose proof (transpose_tensor3 B T n_in x HB Hx) as Hxs.
  destruct (scan_cell_forward B T n_in n_hid wih0 whh0 bih0 bhh0
              Hin Hhid HT Swih0 Swhh0 Sbih0 Sbhh0 h00 c00 (transpose x)
              Sh00 Sc00 Hxs) as [Sfwd Hlast].
  destruct (scan_cell_reverse B T n_in n_hid wih1 whh1 bih1 bhh1
              h01 c01 (transpose x)
              Hin Hhid HT Swih1 Swhh1 Sbih1 Sbhh1 Sh01 Sc01 Hxs)
    as [Sbwd Hhead].
  unfold lstm_ref. rewrite Hd. cbn [negb].
  change (range (1 * 2)) with [0; 1]. cbn [for_each].
  rewrite (ref_pseudo_layer_forward h_0 c_0 W_ih W_hh b_ih b_hh 0
             wih0 whh0 bih0 bhh0 h00 c00) by done.
  cbn [mbind result_bind seq_first_y seq_first_y_fwd final_h final_c].
  rewrite (ref_pseudo_layer_reverse h_0 c_0 W_ih W_hh b_ih b_hh 1
             wih1 whh1 bih1 bhh1 h01 c01
             Hwih1 Hwhh1 Hbih1 Hbhh1 Hh01 Hc01 _
             (snd (scan (lstm_cell wih0 whh0 bih0 bhh0) (h00, c00)
                     (transpose x)))) by done.
  cbn [mbind result_bind seq_first_y seq_first_y_fwd final_h final_c app
       stack].
  set (rf := scan (lstm_cell wih0 whh0 bih0 bhh0) (h00, c00) (transpose x))
    in *.
  set (rb := scan_reverse (lstm_cell wih1 whh1 bih1 bhh1) (h01, c01)
               (transpose x)) in *.
  pose proof (concat_features_tensor3 B T n_hid _ _ Sfwd Sbwd) as Sseq.
  replace (n_hid + n_hid)%nat with (2 * n_hid)%nat in Sseq by lia.
  pose proof (transpose_tensor3 T B (2 * n_hid) _ HT Sseq) as Sy.
  eexists _, _, _, _, _. split; [reflexivity|]. split; [exact Sy|].
  destruct Sy as [Hly Hy]. rewrite Forall_lookup in Hy.
  assert (Shf : is_matrix B n_hid (fst (fst rf))).
  { destruct Sfwd as [_ Hall]. rewrite Forall_forall in Hall.
    by apply Hall, last_Some_elem_of. }
  assert (Shb : is_matrix B n_hid (fst (fst rb))).
  { destruct Sbwd as [_ Hall]. rewrite Forall_forall in Hall.
    by apply Hall, head_Some_elem_of. }
  split.
  - apply Forall2_same_length_lookup_2; [destruct Shf; lia|].
    intros b yb h_b Hyb Hhb.
    destruct (Hy _ _ Hyb) as [Hlyb _].
    destruct (lookup_lt_is_Some_2 yb (pred T)) as [v Hv]; [lia|].
    exists v. split; [by rewrite last_lookup, Hlyb|].
    destruct (output_entry B T n_hid _ _ b (pred T) yb v HT Sfwd Sbwd Hyb Hv)
      as (ft & bt & u & w & Hft & Hbt & Hu & Hw & -> & Hlu & Hlw).
    rewrite last_lookup in Hlast. destruct Sfwd as [Hlf _].
    rewrite Hlf, Hft in Hlast. injection Hlast as ->.
    rewrite Hhb in Hu. injection Hu as ->.
    by apply take_app_length'.
  - apply Forall2_same_length_lookup_2; [destruct Shb; lia|].
    intros b yb h_b Hyb Hhb.
    destruct (Hy _ _ Hyb) as [Hlyb _].
    destruct (lookup_lt_is_Some_2 yb 0) as [v Hv]; [lia|].
    exists v. split; [by rewrite head_lookup|].
    destruct (output_entry B T n_hid _ _ b 0%nat yb v HT Sfwd Sbwd Hyb Hv)
      as (ft & bt & u & w & Hft & Hbt & Hu & Hw & -> & Hlu & Hlw).
    rewrite head_lookup, Hbt in Hhead. injection Hhead as ->.
    rewrite Hhb in Hw. injection Hw as ->.
    by apply drop_app_length'.
Qed.


(** ** A small network, run *)

(** The bidirectional run of the small network, step by step: [f1], [f2]
    are the forward steps at times 0 and 1; [r1], [r2] the reverse steps, at
    times 1 and 0. *)
Lemma small_bidirectional_run {F : Type} `{Scalar F} (z a : F) :
  lstm_ref (small_x z a) (small_state z) (small_state z)
    (small_W_ih z a) (small_W_hh z) (small_bias z) (small_bias z)
    small_seq_lengths 1 1 1 0%float true =
  let step := cell_update 1 (small_wih z a) (small_whh z)
                (small_b z) (small_b z) in
  let f1 := step [z] [z] [a] in
  let f2 := step (fst f1) (snd f1) [z] in
  let r1 := step [z] [z] [z] in
  let r2 := step (fst r1) (snd r1) [a] in
  Ok ([[fst f1 ++ fst r2; fst f2 ++ fst r1]],
      [[fst f2]; [fst r2]], [[snd f2]; [snd r2]]).
Proof. vm_compute. reflexivity. Qed.

(** *** Facts of real analysis for the small network *)

Lemma real_sigmoid_pos (x : R) : (0 < real_sigmoid x)%R.
Proof.
  unfold real_sigmoid. apply Rinv_0_lt_compat.
  pose proof (exp_pos (- x)). lra.
Qed.

Lemma real_tanh_0 : Rtrigo_def.tanh 0 = 0%R.
Proof. unfold Rtrigo_def.tanh. rewrite sinh_0. unfold Rdiv. ring. Qed.

Lemma real_tanh_pos (x : R) : (0 < x)%R -> (0 < Rtrigo_def.tanh x)%R.
Proof.
  intros Hx. unfold Rtrigo_def.tanh, sinh, cosh.
  pose proof (exp_pos x) as H1. pose proof (exp_pos (- x)) as H2.
  assert (H3 : (exp (- x) < exp x)%R) by (apply exp_increasing; lra).
  apply Rdiv_lt_0_compat; lra.
Qed.

Lemma small_reverse_first :
  cell_update 1 (small_wih 0%R 1%R) (small_whh 0%R) (small_b 0%R)
    (small_b 0%R) [0%R] [0%R] [0%R] = ([0%R], [0%R]).
Proof.
  unfold cell_update, gate_input, vadd, vmul, vec_mat_T, dot, gate_block.
  cbn.
  repeat (rewrite Rmult_0_r || rewrite Rmult_0_l || rewrite Rplus_0_r
          || rewrite Rplus_0_l || rewrite real_tanh_0).
  reflexivity.
Qed.

Lemma small_reverse_second :
  exists v : R,
    fst (cell_update 1 (small_wih 0%R 1%R) (small_whh 0%R) (small_b 0%R)
           (small_b 0%R) [0%R] [0%R] [1%R]) = [v] /\ (0 < v)%R.
Proof.
  unfold cell_update, gate_input, vadd, vmul, vec_mat_T, dot, gate_block.
  cbn. eexists. split; [reflexivity|].
  apply Rmult_lt_0_compat; [apply real_sigmoid_pos|].
  apply real_tanh_pos. rewrite Rmult_0_r, Rplus_0_l.
  apply Rmult_lt_0_compat; [apply real_sigmoid_pos|].
  apply real_tanh_pos. lra.
Qed.

(** C7, as claimed, fails: in the small network over the real numbers, with
    two time steps, the last feature of [y] at the last time step is 0, the
    hidden state after the first step of the reverse scan, while [h_n[1]],
    its hidden state after the second step, is positive. *)
Lemma bidirectional_last_step_counterexample :
  exists y h_fwd h_bwd c_n,
    lstm_ref (small_x 0%R 1%R) (small_state 0%R) (small_state 0%R)
      (small_W_ih 0%R 1%R) (small_W_hh 0%R) (small_bias 0%R)
      (small_bias 0%R) small_seq_lengths 1 1 1 0%float true =
      Ok (y, [h_fwd; h_bwd], c_n) /\
    ~ Forall2
        (fun yb h_b => exists v, last yb = Some v /\ drop 1 v = h_b)
        y h_bwd.
Proof.
  eexists _, _, _, _. split; [apply small_bidirectional_run|].
  cbv zeta. rewrite small_reverse_first. cbn [fst snd].
  destruct small_reverse_second as (v & -> & Hv).
  intros Hall. inversion Hall as [|yb h_b ? ? (w & Hlast & Hdrop) _]; subst.
  cbn in Hlast. injection Hlast as <-.
  cbn in Hdrop. injection Hdrop as Hz. lra.
Qed.

(** ** The theorems on the small network over the real numbers *)

Lemma lstm_cell_formula_witness :
  let rows :=
    batch_update 1 (small_wih 0%R 1%R) (small_whh 0%R) (small_b 0%R)
      (small_b 0%R) [[0%R]] [[0%R]] [[1%R]] in
  lstm_cell (small_wih 0%R 1%R) (small_whh 0%R) (small_b 0%R) (small_b 0%R)
    ([[0%R]], [[0%R]]) [[1%R]] =
    ((map fst rows, map snd rows), map fst rows) /\
  is_matrix 1 1 (map fst rows) /\
  is_matrix 1 1 (map snd rows).
Proof.
  apply (lstm_cell_formula 1 1 1 (small_wih 0%R 1%R) (small_whh 0%R)
           (small_b 0%R) (small_b 0%R) [[0%R]] [[0%R]] [[1%R]]);
    try lia; try reflexivity; split; try reflexivity; repeat constructor.
Defined.

Lemma bidirectional_output_witness :
  exists y h_fwd h_bwd c_fwd c_bwd,
    lstm_ref (small_x 0%R 1%R) (small_state 0%R) (small_state 0%R)
      (small_W_ih 0%R 1%R) (small_W_hh 0%R) (small_bias 0%R)
      (small_bias 0%R) small_seq_lengths (Z.of_nat 1) (Z.of_nat 1) 1
      0%float true = Ok (y, [h_fwd; h_bwd], [c_fwd; c_bwd]) /\
    is_tensor3 1 2 (2 * 1) y /\
    Forall2 (fun yb h_b => exists v, last yb = Some v /\ take 1 v = h_b)
      y h_fwd /\
    Forall2 (fun yb h_b => exists v, head yb = Some v /\ drop 1 v = h_b)
      y h_bwd.
Proof.
  apply (bidirectional_output 1 2 1 1 (small_x 0%R 1%R) (small_state 0%R)
           (small_state 0%R) (small_W_ih 0%R 1%R) (small_W_hh 0%R)
           (small_bias 0%R) (small_bias 0%R) small_seq_lengths 0%float
           (small_wih 0%R 1%R) (small_whh 0%R) (small_wih 0%R 1%R)
           (small_whh 0%R) (small_b 0%R) (small_b 0%R) (small_b 0%R)
           (small_b 0%R) [[0%R]] [[0%R]] [[0%R]] [[0%R]]);
    try lia; try reflexivity; split; try reflexivity; repeat constructor.
Defined.

Lemma two_layer_chaining_witness :
  lstm_ref (small_x 0%R 1%R) (small_state 0%R) (small_state 0%R)
    (small_W_ih 0%R 1%R) (small_W_hh 0%R) (small_bias 0%R) (small_bias 0%R)
    small_seq_lengths 1 1 2 0%float false =
  let '(seq0, (h_n0, c_n0)) :=
    layer_recurrence (small_wih 0%R 1%R) (small_whh 0%R) (small_b 0%R)
      (small_b 0%R) [[0%R]] [[0%R]] (transpose (small_x 0%R 1%R)) in
  let '(seq1, (h_n1, c_n1)) :=
    layer_recurrence (small_wih 0%R 1%R) (small_whh 0%R) (small_b 0%R)
      (small_b 0%R) [[0%R]] [[0%R]] seq0 in
  Ok (transpose seq1, [h_n0; h_n1], [c_n0; c_n1]).
Proof.
  apply (two_layer_chaining 1 2 1 1 (small_x 0%R 1%R) (small_state 0%R)
           (small_state 0%R) (small_W_ih 0%R 1%R) (small_W_hh 0%R)
           (small_bias 0%R) (small_bias 0%R) small_seq_lengths 1 1 0%float
           (small_wih 0%R 1%R) (small_whh 0%R) (small_wih 0%R 1%R)
           (small_whh 0%R) (small_b 0%R) (small_b 0%R) (small_b 0%R)
           (small_b 0%R) [[0%R]] [[0%R]] [[0%R]] [[0%R]]);
    try lia; try reflexivity; split; try reflexivity; repeat constructor.
Defined.

(** * More of the module *)

(** ** The parameter count in closed form *)

Lemma prod_single (a : Z) : prod [a] = a.
Proof. unfold prod. simpl. lia. Qed.

Lemma prod_pair (a b : Z) : prod [a; b] = a * b.
Proof. unfold prod. simpl. lia. Qed.

Lemma sum_pairs_const (f g : Z -> Shape) (ls : list Z) (c : Z) :
  (forall l, l ∈ ls -> prod (f l) + prod (g l) = c) ->
  sum (map prod (flat_map (fun l => [f l; g l]) ls)) =
  Z.of_nat (length ls) * c.
Proof.
  induction ls as [|l ls IH]; intros Hc.
  - reflexivity.
  - cbn [flat_map app map]. rewrite !sum_cons, IH.
    + specialize (Hc l ltac:(left)). cbn [length]. lia.
    + intros l' Hl'. apply Hc. by right.
Qed.

Lemma range_split (d n : nat) :
  (d <= n)%nat ->
  range (Z.of_nat n) =
  map Z.of_nat (seq 0 d) ++ map Z.of_nat (seq d (n - d)).
Proof.
  intros Hd. unfold range. rewrite Nat2Z.id, <- map_app, <- seq_app.
  do 2 f_equal. lia.
Qed.

Lemma elem_of_seq_from (d m : nat) (l : Z) :
  l ∈ map Z.of_nat (seq d m) -> Z.of_nat d <= l.
Proof.
  intros Hl. apply list_elem_of_fmap in Hl as (k & -> & Hk).
  apply list_elem_of_In, in_seq in Hk. lia.
Qed.

Lemma sum_pairs_app (f g : Z -> Shape) (ls1 ls2 : list Z) :
  sum (map prod (flat_map (fun l => [f l; g l]) (ls1 ++ ls2))) =
  sum (map prod (flat_map (fun l => [f l; g l]) ls1)) +
  sum (map prod (flat_map (fun l => [f l; g l]) ls2)).
Proof. by rewrite flat_map_app, map_app, sum_app. Qed.

(** X1. Every pseudo-layer of the first layer holds [4h(input_size + h + 2)]
    parameters, every later one [4h(num_directions * h + h + 2)]. *)
Theorem num_params_closed_form (input_size hidden_size num_layers : Z)
  (bidirectional : bool) :
  1 <= num_layers ->
  get_num_params_in_lstm input_size hidden_size num_layers bidirectional =
  let d := if bidirectional then 2 else 1 in
  d * (4 * hidden_size * (input_size + hidden_size + 2))
  + (num_layers - 1) * d
    * (4 * hidden_size * (d * hidden_size + hidden_size + 2)).
Proof.
  intros HL. unfold get_num_params_in_lstm, _get_params_shapes_in_lstm.
  rewrite !append_shapes_spec. cbn [app map]. rewrite map_app, sum_app.
  set (d := if bidirectional then 2%nat else 1%nat).
  assert (Hn : num_layers * (if bidirectional then 2 else 1) =
               Z.of_nat (Z.to_nat num_layers * d)).
  { subst d. destruct bidirectional; lia. }
  rewrite Hn.
  rewrite (range_split d) by (subst d; destruct bidirectional; lia).
  rewrite !sum_pairs_app.
  rewrite (sum_pairs_const _ _ (map Z.of_nat (seq 0 d))
             (4 * hidden_size * input_size + 4 * hidden_size * hidden_size)).
  2:{ intros l Hl. unfold _W_hh_l. subst d.
      assert (Hl' : l = 0 \/ (l = 1 /\ bidirectional = true)).
      { destruct bidirectional; cbn in Hl.
        - apply elem_of_cons in Hl as [->|Hl]; [by left|].
          apply elem_of_cons in Hl as [->|Hl]; [by right|].
          by apply elem_of_nil in Hl.
        - apply elem_of_cons in Hl as [->|Hl]; [by left|].
          by apply elem_of_nil in Hl. }
      unfold _W_ih_l. destruct Hl' as [->|[-> ->]]; cbn [Z.eqb Pos.eqb orb andb];
        rewrite !prod_pair; ring. }
  rewrite (sum_pairs_const _ _ (map Z.of_nat (seq d _))
             (4 * hidden_size * (Z.of_nat d * hidden_size)
              + 4 * hidden_size * hidden_size)).
  2:{ intros l Hl. apply elem_of_seq_from in Hl.
      unfold _W_ih_l, _W_hh_l. subst d.
      destruct (Z.eqb_spec l 0) as [->|H0];
        [destruct bidirectional; cbn in Hl; lia|].
      destruct bidirectional; cbn [orb andb].
      - destruct (Z.eqb_spec l 1) as [->|H1]; [cbn in Hl; lia|].
        cbn [andb]. rewrite !prod_pair. change (Z.of_nat 2) with 2. ring.
      - rewrite andb_false_r. rewrite !prod_pair.
        change (Z.of_nat 1) with 1. ring. }
  rewrite (sum_pairs_const _ _ (map Z.of_nat (seq 0 d)) (8 * hidden_size)).
  2:{ intros l _. unfold _b_ih_l, _b_hh_l. rewrite !prod_single. ring. }
  rewrite (sum_pairs_const _ _ (map Z.of_nat (seq d _)) (8 * hidden_size)).
  2:{ intros l _. unfold _b_ih_l, _b_hh_l. rewrite !prod_single. ring. }
  rewrite !length_map, !length_seq. subst d. cbv zeta.
  destruct bidirectional.
  - replace (Z.of_nat (Z.to_nat num_layers * 2 - 2))
      with ((num_layers - 1) * 2) by lia.
    change (Z.of_nat 2) with 2. ring.
  - replace (Z.of_nat (Z.to_nat num_layers * 1 - 1))
      with (num_layers - 1) by lia.
    change (Z.of_nat 1) with 1. ring.
Qed.

Lemma num_params_closed_form_witness :
  get_num_params_in_lstm 2 3 2 true =
  2 * (4 * 3 * (2 + 3 + 2)) + (2 - 1) * 2 * (4 * 3 * (2 * 3 + 3 + 2)).
Proof. apply (num_params_closed_form 2 3 2 true). lia. Defined.

(** ** Degenerate configurations *)

Lemma range_nonpos (n : Z) : n <= 0 -> range n = [].
Proof. intros Hn. unfold range. by replace (Z.to_nat n) with 0%nat by lia. Qed.

(** X2. The shape list holds four shapes per pseudo-layer. Without a layer
    ([num_layers <= 0]) it is empty, the parameter count is 0, and
    [unpack_lstm_weights] returns four empty dicts, whatever the buffer and
    the sizes. *)
Theorem shapes_per_pseudo_layer (input_size hidden_size num_layers : Z)
  (bidirectional : bool) :
  length (_get_params_shapes_in_lstm input_size hidden_size num_layers
            bidirectional) =
    (4 * Z.to_nat (num_pseudo_layers_of num_layers bidirectional))%nat /\
  (num_layers <= 0 ->
   _get_params_shapes_in_lstm input_size hidden_size num_layers bidirectional
     = [] /\
   get_num_params_in_lstm input_size hidden_size num_layers bidirectional
     = 0 /\
   forall (E : Type) (weights : list E),
     unpack_lstm_weights weights input_size hidden_size num_layers
       bidirectional = Ok (∅, ∅, ∅, ∅)).
Proof.
  split.
  - rewrite shapes_layout, length_map. unfold unpack_tasks.
    rewrite length_app. cbn [map].
    rewrite (length_pairs (fun l => (l, K_W_ih)) (fun l => (l, K_W_hh))),
      (length_pairs (fun l => (l, K_b_ih)) (fun l => (l, K_b_hh))).
    unfold range. rewrite length_map, length_seq. lia.
  - intros HL.
    assert (Hn : num_layers * (if bidirectional then 2 else 1) <= 0)
      by (destruct bidirectional; lia).
    assert (Hshapes : _get_params_shapes_in_lstm input_size hidden_size
                        num_layers bidirectional = []).
    { unfold _get_params_shapes_in_lstm, append_shapes.
      by rewrite (range_nonpos _ Hn). }
    split; [exact Hshapes|]. split.
    + unfold get_num_params_in_lstm. by rewrite Hshapes.
    + intros E weights. unfold unpack_lstm_weights, unpack_walk.
      by rewrite (range_nonpos _ Hn).
Qed.

Lemma shapes_per_pseudo_layer_witness :
  length (_get_params_shapes_in_lstm 5 3 2 true) = 16%nat /\
  unpack_lstm_weights [7; 7; 7] 5 3 0 true = Ok (∅, ∅, ∅, ∅).
Proof.
  split.
  - apply (proj1 (shapes_per_pseudo_layer 5 3 2 true)).
  - refine (proj2 (proj2 (proj2 (shapes_per_pseudo_layer 5 3 0 true)
                            _)) Z [7; 7; 7]).
    lia.
Defined.

(** ** What [unpack_lstm_weights] stores where *)

Section Stored.
Context {E : Type}.
Variable weights : list E.
Variable flat_shapes : list Shape.
Variable sh : Z * weight_kind -> Shape.

Local Abbreviation run tasks :=
  (for_each tasks (fun t => unpack_assign weights flat_shapes (fst t) (snd t))).
Local Abbreviation sizes tasks := (map (fun t => prod (sh t)) tasks).

(** After the walk, the array of the [i]-th assignment has the [i]-th
    shape and holds the [i]-th slice. *)
Lemma walk_stored (tasks : list (Z * weight_kind)) (s : unpack_state E) :
  shapes_ahead flat_shapes sh s tasks ->
  Forall (fun t => Forall (fun d => 0 <= d) (sh t)) tasks ->
  0 <= w_offsets s ->
  w_offsets s + sum (sizes tasks) <= Z.of_nat (length weights) ->
  NoDup tasks ->
  exists s',
    run tasks s = Ok s' /\
    forall (i : nat) t, tasks !! i = Some t ->
      exists arr lo hi,
        dict_of (snd t) s' !! fst t = Some arr /\
        shape arr = sh t /\
        offsets_from (w_offsets s) (sizes tasks) !! i = Some (lo, hi) /\
        flatten (items arr) = slice weights lo hi.
Proof.
  revert s. induction tasks as [|[l k] tasks IH];
    intros s Hsh Hnn Ho Hfit Hnd.
  - exists s. split; [reflexivity|]. intros i t Ht. discriminate.
  - apply Forall_cons in Hnn as [Hnn1 Hnn].
    apply NoDup_cons in Hnd as [Hnot Hnd].
    cbn [map] in Hfit. rewrite sum_cons in Hfit.
    pose proof (prod_nonneg _ Hnn1) as Hp.
    assert (Hs : 0 <= sum (sizes tasks)).
    { apply sum_nonneg, Forall_fmap. eapply Forall_impl; [exact Hnn|].
      intros t Ht. apply prod_nonneg, Ht. }
    destruct (unpack_assign_enough weights flat_shapes sh l k s) as
        (s1 & arr & Hrun1 & Hfso & Hwo & Hlog & Hk & Hk' & Hshape & Hflat);
      [eapply shapes_ahead_head, Hsh | done | done | lia |].
    assert (Hsh1 : shapes_ahead flat_shapes sh s1 tasks)
      by (eapply (shapes_ahead_tail _ _ s); [exact Hsh | exact Hfso]).
    destruct (IH s1 Hsh1 Hnn ltac:(lia) ltac:(lia) Hnd) as (s' & Hrun & Hin).
    destruct (walk_enough weights flat_shapes sh tasks s1 Hsh1 Hnn
                ltac:(lia) ltac:(lia)) as (s'' & Hrun' & _ & _ & _ & Hout & _).
    rewrite Hrun in Hrun'. injection Hrun' as <-.
    exists s'. split; [cbn [for_each fst snd]; rewrite Hrun1; exact Hrun|].
    intros [|i] t Ht.
    + injection Ht as <-. exists arr, (w_offsets s),
        (w_offsets s + prod (sh (l, k))).
      split; [|split; [done|split; [reflexivity|]]].
      * rewrite (Hout _ Hnot). cbn [fst snd].
        by rewrite Hk, lookup_insert_eq.
      * by rewrite slice_inside by lia.
    + destruct (Hin i t Ht) as (arr' & lo & hi & H1 & H2 & H3 & H4).
      exists arr', lo, hi. repeat split; try done.
      cbn [map offsets_from lookup list_lookup]. by rewrite <- Hwo.
Qed.

End Stored.

Lemma unpack_tasks_fst (n l : Z) (k : weight_kind) :
  (l, k) ∈ unpack_tasks n -> 0 <= l < n.
Proof.
  unfold unpack_tasks. rewrite elem_of_app, !list_elem_of_In.
  intros [Hin|Hin]; apply in_flat_map in Hin as (l' & Hl' & Hin);
    apply list_elem_of_In, range_nonneg in Hl';
    destruct Hin as [Heq|[Heq|[]]]; inversion Heq; subst; exact Hl'.
Qed.

Lemma unpack_tasks_lookup (n l : Z) :
  0 <= l < n ->
  unpack_tasks n !! Z.to_nat (2 * l) = Some (l, K_W_ih) /\
  unpack_tasks n !! Z.to_nat (2 * l + 1) = Some (l, K_W_hh) /\
  unpack_tasks n !! Z.to_nat (2 * n + 2 * l) = Some (l, K_b_ih) /\
  unpack_tasks n !! Z.to_nat (2 * n + 2 * l + 1) = Some (l, K_b_hh).
Proof.
  intros Hl. unfold unpack_tasks, range. cbn [map].
  assert (Hk : (Z.to_nat l < Z.to_nat n)%nat) by lia.
  destruct (lookup_pairs_seq (fun l => (l, K_W_ih)) (fun l => (l, K_W_hh))
              0 (Z.to_nat n) (Z.to_nat l) Hk) as [Ha Hb].
  destruct (lookup_pairs_seq (fun l => (l, K_b_ih)) (fun l => (l, K_b_hh))
              0 (Z.to_nat n) (Z.to_nat l) Hk) as [Hc Hd].
  simpl (0 + _)%nat in *. rewrite Z2Nat.id in * by lia.
  pose proof (length_pairs (fun l => (l, K_W_ih)) (fun l => (l, K_W_hh))
                (map Z.of_nat (seq 0 (Z.to_nat n)))) as Hlen.
  rewrite length_map, length_seq in Hlen. cbv beta in Hlen.
  repeat split.
  - rewrite lookup_app_l by lia.
    replace (Z.to_nat (2 * l)) with (2 * Z.to_nat l)%nat by lia. exact Ha.
  - rewrite lookup_app_l by lia.
    replace (Z.to_nat (2 * l + 1)) with (2 * Z.to_nat l + 1)%nat by lia.
    exact Hb.
  - rewrite lookup_app_r by lia.
    replace (_ - _)%nat with (2 * Z.to_nat l)%nat by lia. exact Hc.
  - rewrite lookup_app_r by lia.
    replace (_ - _)%nat with (2 * Z.to_nat l + 1)%nat by lia. exact Hd.
Qed.

(** X3. For a valid configuration and a buffer long enough, the four dicts
    returned by [unpack_lstm_weights] have exactly the keys
    [0 .. num_pseudo_layers - 1]. Under key [l], [W_ih] and [W_hh] hold the
    slices number [2l] and [2l + 1] of the buffer, and [b_ih] and [b_hh] the
    slices number [2n + 2l] and [2n + 2l + 1], each with the shape the shape
    calculator gives it. *)
Theorem unpack_layout {E : Type} (weights : list E)
  (input_size hidden_size num_layers : Z) (bidirectional : bool) :
  valid_config input_size hidden_size num_layers ->
  get_num_params_in_lstm input_size hidden_size num_layers bidirectional
    <= Z.of_nat (length weights) ->
  exists W_ih W_hh b_ih b_hh,
    unpack_lstm_weights weights input_size hidden_size num_layers
      bidirectional = Ok (W_ih, W_hh, b_ih, b_hh) /\
    let n := num_pseudo_layers_of num_layers bidirectional in
    let slices :=
      offsets_from 0
        (map prod (_get_params_shapes_in_lstm input_size hidden_size
                     num_layers bidirectional)) in
    (forall l, 0 <= l < n ->
       stored_at weights slices W_ih l
         (_W_ih_l l input_size hidden_size bidirectional)
         (Z.to_nat (2 * l)) /\
       stored_at weights slices W_hh l
         (_W_hh_l l input_size hidden_size bidirectional)
         (Z.to_nat (2 * l + 1)) /\
       stored_at weights slices b_ih l
         (_b_ih_l l input_size hidden_size bidirectional)
         (Z.to_nat (2 * n + 2 * l)) /\
       stored_at weights slices b_hh l
         (_b_hh_l l input_size hidden_size bidirectional)
         (Z.to_nat (2 * n + 2 * l + 1))) /\
    (forall l, ~ 0 <= l < n ->
       W_ih !! l = None /\ W_hh !! l = None /\
       b_ih !! l = None /\ b_hh !! l = None).
Proof.
  intros (Hi & Hh & Hn) Hlen.
  rewrite num_params_tasks in Hlen.
  pose proof (tasks_nonneg input_size hidden_size num_layers bidirectional
                Hi Hh) as Hnn.
  pose proof (shapes_ahead_start (E:=E) input_size hidden_size num_layers
                bidirectional) as Hsh.
  destruct (walk_stored weights _ _ _ _ Hsh Hnn ltac:(simpl; lia)
              ltac:(simpl; lia) (unpack_tasks_NoDup _))
    as (s & Hrun & Hstored).
  destruct (walk_enough weights _ _ _ _ Hsh Hnn ltac:(simpl; lia)
              ltac:(simpl; lia)) as (s' & Hrun' & _ & _ & _ & Hout & _).
  rewrite Hrun in Hrun'. injection Hrun' as <-.
  exists (W_ih s), (W_hh s), (b_ih s), (b_hh s).
  unfold unpack_lstm_weights. rewrite unpack_walk_tasks, Hrun.
  split; [reflexivity|]. cbv zeta. rewrite shapes_layout, map_map.
  cbn [w_offsets] in Hstored.
  split.
  - intros l Hl.
    destruct (unpack_tasks_lookup _ l Hl) as (H1 & H2 & H3 & H4).
    repeat split.
    + exact (Hstored _ _ H1).
    + exact (Hstored _ _ H2).
    + exact (Hstored _ _ H3).
    + exact (Hstored _ _ H4).
  - intros l Hl.
    assert (Hnot : forall k,
               (l, k) ∉ unpack_tasks
                          (num_pseudo_layers_of num_layers bidirectional)).
    { intros k Hin. by apply unpack_tasks_fst in Hin. }
    repeat split.
    + exact (Hout (l, K_W_ih) (Hnot _)).
    + exact (Hout (l, K_W_hh) (Hnot _)).
    + exact (Hout (l, K_b_ih) (Hnot _)).
    + exact (Hout (l, K_b_hh) (Hnot _)).
Qed.

Lemma unpack_layout_witness :
  exists W_ih W_hh b_ih b_hh,
    unpack_lstm_weights [3; 1; 4; 1; 5; 9; 2; 6; 5; 3; 5; 8; 9; 7; 9; 3; 2]
      1 1 1 false = Ok (W_ih, W_hh, b_ih, b_hh) /\
    let n := num_pseudo_layers_of 1 false in
    let slices :=
      offsets_from 0 (map prod (_get_params_shapes_in_lstm 1 1 1 false)) in
    (forall l, 0 <= l < n ->
       stored_at [3; 1; 4; 1; 5; 9; 2; 6; 5; 3; 5; 8; 9; 7; 9; 3; 2] slices
         W_ih l (_W_ih_l l 1 1 false) (Z.to_nat (2 * l)) /\
       stored_at [3; 1; 4; 1; 5; 9; 2; 6; 5; 3; 5; 8; 9; 7; 9; 3; 2] slices
         W_hh l (_W_hh_l l 1 1 false) (Z.to_nat (2 * l + 1)) /\
       stored_at [3; 1; 4; 1; 5; 9; 2; 6; 5; 3; 5; 8; 9; 7; 9; 3; 2] slices
         b_ih l (_b_ih_l l 1 1 false) (Z.to_nat (2 * n + 2 * l)) /\
       stored_at [3; 1; 4; 1; 5; 9; 2; 6; 5; 3; 5; 8; 9; 7; 9; 3; 2] slices
         b_hh l (_b_hh_l l 1 1 false) (Z.to_nat (2 * n + 2 * l + 1))) /\
    (forall l, ~ 0 <= l < n ->
       W_ih !! l = None /\ W_hh !! l = None /\
       b_ih !! l = None /\ b_hh !! l = None).
Proof.
  apply (unpack_layout
           [3; 1; 4; 1; 5; 9; 2; 6; 5; 3; 5; 8; 9; 7; 9; 3; 2] 1 1 1 false).
  - unfold valid_config. lia.
  - discriminate.
Defined.

Lemma unpack_take {E : Type} (weights : list E)
  (input_size hidden_size num_layers : Z) (bidirectional : bool) :
  valid_config input_size hidden_size num_layers ->
  unpack_lstm_weights
    (take (Z.to_nat (get_num_params_in_lstm input_size hidden_size
                       num_layers bidirectional)) weights)
    input_size hidden_size num_layers bidirectional =
  unpack_lstm_weights weights input_size hidden_size num_layers bidirectional.
Proof.
  intros (Hi & Hh & Hn).
  set (n := get_num_params_in_lstm input_size hidden_size num_layers
              bidirectional).
  destruct (Z_le_gt_dec n (Z.of_nat (length weights))) as [Hle|Hgt].
  - unfold unpack_lstm_weights. rewrite !unpack_walk_tasks.
    rewrite walk_prefix
      with (sh := shape_of input_size hidden_size bidirectional);
      [reflexivity| | | | |exact Hle].
    + apply shapes_ahead_start.
    + by apply tasks_nonneg.
    + simpl. lia.
    + simpl. subst n. rewrite num_params_tasks. lia.
  - by rewrite take_ge by lia.
Qed.

(** X4. [unpack_lstm_weights] reads only the first [get_num_params_in_lstm]
    elements of the buffer: two buffers that agree on them give the same
    result, the same four dicts or the same error. *)
Theorem unpack_reads_prefix {E : Type} (weights weights' : list E)
  (input_size hidden_size num_layers : Z) (bidirectional : bool) :
  valid_config input_size hidden_size num_layers ->
  take (Z.to_nat (get_num_params_in_lstm input_size hidden_size num_layers
                    bidirectional)) weights =
  take (Z.to_nat (get_num_params_in_lstm input_size hidden_size num_layers
                    bidirectional)) weights' ->
  unpack_lstm_weights weights input_size hidden_size num_layers bidirectional
  = unpack_lstm_weights weights' input_size hidden_size num_layers
      bidirectional.
Proof.
  intros Hv Heq.
  rewrite <- (unpack_take weights) by exact Hv.
  rewrite <- (unpack_take weights') by exact Hv.
  by rewrite Heq.
Qed.

Lemma unpack_reads_prefix_witness :
  unpack_lstm_weights
    [3; 1; 4; 1; 5; 9; 2; 6; 5; 3; 5; 8; 9; 7; 9; 3; 2] 1 1 1 false =
  unpack_lstm_weights
    [3; 1; 4; 1; 5; 9; 2; 6; 5; 3; 5; 8; 9; 7; 9; 3; 8; 4; 6] 1 1 1 false.
Proof.
  apply (unpack_reads_prefix
           [3; 1; 4; 1; 5; 9; 2; 6; 5; 3; 5; 8; 9; 7; 9; 3; 2]
           [3; 1; 4; 1; 5; 9; 2; 6; 5; 3; 5; 8; 9; 7; 9; 3; 8; 4; 6]
           1 1 1 false).
  - unfold valid_config. lia.
  - reflexivity.
Defined.

(** ** The layer loops of the reference LSTM, any number of layers *)

Lemma range_snoc (k : nat) :
  range (Z.of_nat (S k)) = range (Z.of_nat k) ++ [Z.of_nat k].
Proof.
  unfold range. rewrite !Nat2Z.id, seq_S, map_app. reflexivity.
Qed.

(** Two runs of a loop over [range n], kept in a relation by every
    iteration. *)
Lemma for_each_range_rel {St : Type} (body body' : Z -> St -> result St)
  (R : nat -> St -> St -> Prop) (n : nat) (s0 s0' : St) :
  R 0%nat s0 s0' ->
  (forall k s s', (k < n)%nat -> R k s s' ->
     exists t t',
       body (Z.of_nat k) s = Ok t /\ body' (Z.of_nat k) s' = Ok t' /\
       R (S k) t t') ->
  exists t t',
    for_each (range (Z.of_nat n)) body s0 = Ok t /\
    for_each (range (Z.of_nat n)) body' s0' = Ok t' /\
    R n t t'.
Proof.
  intros H0 Hstep. induction n as [|n IH].
  - exists s0, s0'. by repeat split.
  - destruct IH as (s & s' & Hs & Hs' & HR).
    { intros k u u' Hk. apply Hstep. lia. }
    destruct (Hstep n s s' ltac:(lia) HR) as (t & t' & Ht & Ht' & HR').
    exists t, t'. rewrite range_snoc, !for_each_app, Hs, Hs'.
    cbn [mbind result_bind for_each]. rewrite Ht, Ht'. by repeat split.
Qed.

(** A loop over [range n] whose iterations keep an invariant. *)
Lemma for_each_range_inv {St : Type} (body : Z -> St -> result St)
  (P : nat -> St -> Prop) (n : nat) (s0 : St) :
  P 0%nat s0 ->
  (forall k s, (k < n)%nat -> P k s ->
     exists t, body (Z.of_nat k) s = Ok t /\ P (S k) t) ->
  exists t, for_each (range (Z.of_nat n)) body s0 = Ok t /\ P n t.
Proof.
  intros H0 Hstep. induction n as [|n IH].
  - by exists s0.
  - destruct IH as (s & Hs & HP).
    { intros k u Hk. apply Hstep. lia. }
    destruct (Hstep n s ltac:(lia) HP) as (t & Ht & HP').
    exists t. rewrite range_snoc, for_each_app, Hs.
    cbn [mbind result_bind for_each]. by rewrite Ht.
Qed.

Section ShapedWeights.
Context {F : Type}.
Variables (W_ih W_hh : gmap Z (list (list F))) (b_ih b_hh : gmap Z (list F)).
Variables (n_in n_hid : nat) (bidirectional : bool).

(** The shapes of the calculator, read as sizes of nested rows. *)
Lemma weights_shaped_sizes (l : Z) :
  weights_shaped W_ih W_hh b_ih b_hh (Z.of_nat n_in) (Z.of_nat n_hid)
    bidirectional l ->
  exists wih whh bih bhh,
    W_ih !! l = Some wih /\ W_hh !! l = Some whh /\
    b_ih !! l = Some bih /\ b_hh !! l = Some bhh /\
    is_matrix (4 * n_hid)
      (if (l =? 0) || ((l =? 1) && bidirectional) then n_in
       else ((if bidirectional then 2 else 1) * n_hid)%nat) wih /\
    is_matrix (4 * n_hid) n_hid whh /\
    length bih = (4 * n_hid)%nat /\ length bhh = (4 * n_hid)%nat.
Proof.
  intros (wih & whh & bih & bhh & H1 & H2 & H3 & H4 & S1 & S2 & S3 & S4).
  exists wih, whh, bih, bhh. repeat split; try done.
  - unfold _W_ih_l in S1. cbn [matrix_of_shape] in S1.
    destruct ((l =? 0) || ((l =? 1) && bidirectional));
      cbn [matrix_of_shape] in S1.
    + replace (Z.to_nat (4 * Z.of_nat n_hid)) with (4 * n_hid)%nat in S1
        by lia.
      rewrite Nat2Z.id in S1. apply S1.
    + replace (Z.to_nat (4 * Z.of_nat n_hid)) with (4 * n_hid)%nat in S1
        by lia.
      destruct bidirectional.
      * replace (Z.to_nat (2 * Z.of_nat n_hid)) with (2 * n_hid)%nat in S1
          by lia. apply S1.
      * replace (Z.to_nat (1 * Z.of_nat n_hid)) with (1 * n_hid)%nat in S1
          by lia. apply S1.
  - unfold _W_ih_l in S1.
    destruct ((l =? 0) || ((l =? 1) && bidirectional));
      cbn [matrix_of_shape] in S1.
    + replace (Z.to_nat (4 * Z.of_nat n_hid)) with (4 * n_hid)%nat in S1
        by lia.
      rewrite Nat2Z.id in S1. apply S1.
    + replace (Z.to_nat (4 * Z.of_nat n_hid)) with (4 * n_hid)%nat in S1
        by lia.
      destruct bidirectional.
      * replace (Z.to_nat (2 * Z.of_nat n_hid)) with (2 * n_hid)%nat in S1
          by lia. apply S1.
      * replace (Z.to_nat (1 * Z.of_nat n_hid)) with (1 * n_hid)%nat in S1
          by lia. apply S1.
  - unfold _W_hh_l in S2. cbn [matrix_of_shape] in S2.
    replace (Z.to_nat (4 * Z.of_nat n_hid)) with (4 * n_hid)%nat in S2 by lia.
    rewrite Nat2Z.id in S2. apply S2.
  - unfold _W_hh_l in S2. cbn [matrix_of_shape] in S2.
    replace (Z.to_nat (4 * Z.of_nat n_hid)) with (4 * n_hid)%nat in S2 by lia.
    rewrite Nat2Z.id in S2. apply S2.
  - unfold _b_ih_l in S3. cbn [vector_of_shape] in S3. lia.
  - unfold _b_hh_l in S4. cbn [vector_of_shape] in S4. lia.
Qed.

End ShapedWeights.

(** Row [t] of a matrix is position [t] of every column. *)
Lemma transpose_nth {A : Type} (c t : nat) (m : list (list A))
  (r : list A) :
  Forall (fun r => length r = c) m -> m !! t = Some r ->
  Forall2 (fun col a => col !! t = Some a) (transpose m) r.
Proof.
  intros Hall Ht.
  assert (Hm : m ≠ []) by (intros ->; discriminate).
  assert (Hr : length r = c).
  { rewrite Forall_lookup in Hall. exact (Hall _ _ Ht). }
  apply Forall2_same_length_lookup_2.
  - rewrite (length_transpose c) by done. lia.
  - intros b col a Hcol Ha.
    destruct (transpose_lookup c b m Hm Hall) as (col' & Hcol' & Hrel).
    { apply lookup_lt_Some in Ha. lia. }
    rewrite Hcol in Hcol'. injection Hcol' as <-.
    destruct (Forall2_lookup_l _ _ _ _ _ Hrel Ht) as (a' & Ha' & Hra).
    rewrite Ha in Hra. by injection Hra as <-.
Qed.

Lemma transpose_last {A : Type} (c : nat) (m : list (list A)) (r : list A) :
  Forall (fun r => length r = c) m -> last m = Some r ->
  Forall2 (fun col a => last col = Some a) (transpose m) r.
Proof.
  intros Hall Hlast. rewrite last_lookup in Hlast.
  assert (Hm : m ≠ []) by (intros ->; discriminate).
  pose proof (transpose_nth c _ m r Hall Hlast) as Hrel.
  pose proof (transpose_row_lengths c m Hm Hall) as Hlen.
  apply Forall2_same_length_lookup_2; [by eapply Forall2_length|].
  intros b col a Hcol Ha.
  destruct (Forall2_lookup_l _ _ _ _ _ Hrel Hcol) as (a' & Ha' & Hc).
  rewrite Ha in Ha'. injection Ha' as <-.
  rewrite Forall_lookup in Hlen. rewrite last_lookup, (Hlen _ _ Hcol).
  exact Hc.
Qed.

Lemma transpose_head {A : Type} (c : nat) (m : list (list A)) (r : list A) :
  Forall (fun r => length r = c) m -> head m = Some r ->
  Forall2 (fun col a => head col = Some a) (transpose m) r.
Proof.
  intros Hall Hhead. rewrite head_lookup in Hhead.
  pose proof (transpose_nth c _ m r Hall Hhead) as Hrel.
  eapply Forall2_impl; [exact Hrel|].
  intros col a Hc. by rewrite head_lookup.
Qed.

Section Stack.
Context {F : Type} `{Scalar F}.
Variables (B T n_hid : nat).
Hypothesis HT : (0 < T)%nat.
Hypothesis Hhid : (0 < n_hid)%nat.

(** The final carry of a scan of the cell is a pair of [B × n_hid]
    matrices. *)
Lemma scan_cell_carry (n : nat) (W_ih W_hh : list (list F))
  (b_ih b_hh : list F) (h0 c0 : list (list F))
  (xs : list (list (list F))) :
  (0 < n)%nat ->
  is_matrix (4 * n_hid) n W_ih -> is_matrix (4 * n_hid) n_hid W_hh ->
  length b_ih = (4 * n_hid)%nat -> length b_hh = (4 * n_hid)%nat ->
  is_matrix B n_hid h0 -> is_matrix B n_hid c0 ->
  Forall (is_matrix B n) xs ->
  let r := scan (lstm_cell W_ih W_hh b_ih b_hh) (h0, c0) xs in
  is_matrix B n_hid (fst (fst r)) /\ is_matrix B n_hid (snd (fst r)).
Proof.
  intros Hn HWih HWhh Hbih Hbhh Hh0 Hc0 Hxs r. subst r.
  apply (scan_invariant (lstm_cell W_ih W_hh b_ih b_hh)
           (fun carry => is_matrix B n_hid (fst carry) /\
                         is_matrix B n_hid (snd carry))
           (is_matrix B n) (is_matrix B n_hid)); [|done|done].
  intros [h c] x [Hh Hc] [Hx _]. cbn [fst snd] in Hh, Hc.
  destruct (lstm_cell_shapes n n_hid W_ih W_hh b_ih b_hh
              Hn Hhid HWih HWhh Hbih Hbhh B h c x Hx Hh Hc)
    as (H1 & H2 & H3). done.
Qed.

Variables (h_0 c_0 : list (list (list F))).
Variables (W_ih W_hh : gmap Z (list (list F))) (b_ih b_hh : gmap Z (list F)).

(** One iteration of the unidirectional loop on well-shaped operands. *)
Lemma ref_layer_shaped (n : nat) (l : Z) (wih whh : list (list F))
  (bih bhh : list F) (h0 c0 : list (list F)) (s : ref_state F) :
  (0 < n)%nat ->
  W_ih !! l = Some wih -> W_hh !! l = Some whh ->
  b_ih !! l = Some bih -> b_hh !! l = Some bhh ->
  h_0 !! Z.to_nat l = Some h0 -> c_0 !! Z.to_nat l = Some c0 ->
  is_matrix (4 * n_hid) n wih -> is_matrix (4 * n_hid) n_hid whh ->
  length bih = (4 * n_hid)%nat -> length bhh = (4 * n_hid)%nat ->
  is_matrix B n_hid h0 -> is_matrix B n_hid c0 ->
  is_tensor3 T B n (seq_first_y s) ->
  exists ys h c,
    ref_layer h_0 c_0 W_ih W_hh b_ih b_hh l s =
      Ok (mkRef ys (seq_first_y_fwd s) (final_h s ++ [h]) (final_c s ++ [c]))
    /\ ys = snd (scan (lstm_cell wih whh bih bhh) (h0, c0) (seq_first_y s))
    /\ is_tensor3 T B n_hid ys /\ is_matrix B n_hid h /\
    is_matrix B n_hid c /\ last ys = Some h.
Proof.
  intros Hn Hwih Hwhh Hbih Hbhh Hh0 Hc0 Swih Swhh Sbih Sbhh Sh0 Sc0 Sseq.
  unfold ref_layer.
  rewrite (cell_of_present W_ih W_hh b_ih b_hh l wih whh bih bhh) by done.
  rewrite (jax_index_in_range h_0 l h0), (jax_index_in_range c_0 l c0)
    by done.
  cbn [mbind result_bind].
  destruct (scan_cell_forward B T n n_hid wih whh bih bhh Hn Hhid HT
              Swih Swhh Sbih Sbhh h0 c0 (seq_first_y s) Sh0 Sc0 Sseq)
    as [Sys Hlast].
  destruct (scan_cell_carry n wih whh bih bhh h0 c0 (seq_first_y s)
              Hn Swih Swhh Sbih Sbhh Sh0 Sc0 (proj2 Sseq)) as [Sh Sc].
  destruct (scan _ _ _) as [[h c] ys]. cbn [fst snd] in *.
  by exists ys, h, c.
Qed.

End Stack.

Lemma tensor3_lookup {A : Type} (a b c : nat) (t : list (list (list A)))
  (i : nat) :
  is_tensor3 a b c t -> (i < a)%nat ->
  exists m, t !! i = Some m /\ is_matrix b c m.
Proof.
  intros [Hlen Hall] Hi.
  destruct (lookup_lt_is_Some_2 t i) as [m Hm]; [lia|].
  exists m. split; [done|]. rewrite Forall_lookup in Hall. by eapply Hall.
Qed.

Lemma tensor3_snoc {A : Type} (a b c : nat) (t : list (list (list A)))
  (m : list (list A)) :
  is_tensor3 a b c t -> is_matrix b c m -> is_tensor3 (S a) b c (t ++ [m]).
Proof.
  intros [Hlen Hall] Hm. split.
  - rewrite length_app. simpl. lia.
  - apply Forall_app. split; [done|]. by apply Forall_singleton.
Qed.

Section Unidirectional.
Context {F : Type} `{Scalar F}.
Variables (B T n_in n_hid L : nat).
Variables (x h_0 c_0 : list (list (list F))).
Variables (W_ih W_hh : gmap Z (list (list F))) (b_ih b_hh : gmap Z (list F)).
Hypothesis HB : (0 < B)%nat.
Hypothesis HT : (0 < T)%nat.
Hypothesis Hin : (0 < n_in)%nat.
Hypothesis Hhid : (0 < n_hid)%nat.
Hypothesis Hx : is_tensor3 B T n_in x.
Hypothesis Hh0 : is_tensor3 L B n_hid h_0.
Hypothesis Hc0 : is_tensor3 L B n_hid c_0.

(** The loop over layers after [k] iterations. *)
Lemma unidirectional_loop (k : nat) :
  (k <= L)%nat ->
  (forall l, 0 <= l < Z.of_nat k ->
     weights_shaped W_ih W_hh b_ih b_hh (Z.of_nat n_in) (Z.of_nat n_hid)
       false l) ->
  exists s,
    for_each (range (Z.of_nat k)) (ref_layer h_0 c_0 W_ih W_hh b_ih b_hh)
      (mkRef (transpose x) None [] []) = Ok s /\
    is_tensor3 T B (match k with O => n_in | _ => n_hid end) (seq_first_y s)
    /\ is_tensor3 k B n_hid (final_h s) /\ is_tensor3 k B n_hid (final_c s)
    /\ ((0 < k)%nat ->
        exists h, last (seq_first_y s) = Some h /\
                  last (final_h s) = Some h).
Proof.
  intros Hk HW.
  apply (for_each_range_inv (ref_layer h_0 c_0 W_ih W_hh b_ih b_hh)
           (fun k s =>
              is_tensor3 T B (match k with O => n_in | _ => n_hid end)
                (seq_first_y s) /\
              is_tensor3 k B n_hid (final_h s) /\
              is_tensor3 k B n_hid (final_c s) /\
              ((0 < k)%nat ->
               exists h, last (seq_first_y s) = Some h /\
                         last (final_h s) = Some h))).
  - cbn [seq_first_y final_h final_c].
    refine (conj _ (conj _ (conj _ _))).
    + by apply transpose_tensor3.
    + by split.
    + by split.
    + lia.
  - intros j s Hj (Sseq & Sh & Sc & _).
    destruct (weights_shaped_sizes W_ih W_hh b_ih b_hh n_in n_hid false
                (Z.of_nat j) (HW (Z.of_nat j) ltac:(lia)))
      as (wih & whh & bih & bhh & H1 & H2 & H3 & H4 & S1 & S2 & S3 & S4).
    destruct (tensor3_lookup _ _ _ h_0 j Hh0 ltac:(lia)) as (h0 & Hh & Sh0).
    destruct (tensor3_lookup _ _ _ c_0 j Hc0 ltac:(lia)) as (c0 & Hc & Sc0).
    rewrite andb_false_r, orb_false_r, Nat.mul_1_l in S1.
    destruct (ref_layer_shaped B T n_hid HT Hhid h_0 c_0 W_ih W_hh b_ih b_hh
                (match j with O => n_in | _ => n_hid end) (Z.of_nat j)
                wih whh bih bhh h0 c0 s)
      as (ys & h & c & -> & _ & Sys & Sh' & Sc' & Hlast);
      try done; try (by rewrite Nat2Z.id).
    + by destruct j.
    + by destruct j.
    + eexists. split; [reflexivity|].
      cbn [seq_first_y final_h final_c].
      refine (conj _ (conj _ (conj _ _))).
      * exact Sys.
      * by apply tensor3_snoc.
      * by apply tensor3_snoc.
      * intros _. exists h. by rewrite last_snoc.
Qed.

(** The unidirectional branch of [lstm_ref] on well-shaped operands. *)
Lemma unidirectional_run (seq_lengths : IntArray) (dropout : float) :
  PrimFloat.eqb dropout 0%float = true -> (0 < L)%nat ->
  (forall l, 0 <= l < Z.of_nat L ->
     weights_shaped W_ih W_hh b_ih b_hh (Z.of_nat n_in) (Z.of_nat n_hid)
       false l) ->
  exists y h_n c_n h_last,
    lstm_ref x h_0 c_0 W_ih W_hh b_ih b_hh seq_lengths
      (Z.of_nat n_in) (Z.of_nat n_hid) (Z.of_nat L) dropout false =
      Ok (y, h_n, c_n) /\
    is_tensor3 B T n_hid y /\
    is_tensor3 L B n_hid h_n /\ is_tensor3 L B n_hid c_n /\
    last h_n = Some h_last /\
    Forall2 (fun yb h_b => last yb = Some h_b) y h_last.
Proof.
  intros Hd HL HW.
  destruct (unidirectional_loop L ltac:(lia) HW)
    as (s & Hs & Sseq & Sh & Sc & Hlast).
  destruct (Hlast HL) as (h & Hy & Hh).
  unfold lstm_ref. rewrite Hd. cbn [negb]. rewrite Hs.
  cbn [mbind result_bind].
  destruct (final_h s) as [|fh fhs] eqn:Efh;
    [destruct Sh as [Sh _]; simpl in Sh; lia|].
  destruct (final_c s) as [|fc fcs] eqn:Efc;
    [destruct Sc as [Sc _]; simpl in Sc; lia|].
  cbn [stack mbind result_bind].
  exists (transpose (seq_first_y s)), (fh :: fhs), (fc :: fcs), h.
  split; [reflexivity|].
  destruct L as [|L']; [lia|].
  refine (conj _ (conj _ (conj _ (conj _ _)))); try done.
  - by apply (transpose_tensor3 T B n_hid).
  - destruct Sseq as [_ Sseq].
    apply (transpose_last B); [|done].
    eapply Forall_impl; [exact Sseq|]. by intros m [Hm _].
Qed.

End Unidirectional.

Lemma small_weights_shaped (bidirectional : bool) (l : Z) :
  0 <= l < 2 ->
  weights_shaped (small_W_ih 0%R 1%R) (small_W_hh 0%R) (small_bias 0%R)
    (small_bias 0%R) 1 1 bidirectional l.
Proof.
  intros Hl. assert (Hc : l = 0 \/ l = 1) by lia.
  exists (small_wih 0%R 1%R), (small_whh 0%R), (small_b 0%R), (small_b 0%R).
  destruct Hc as [-> | ->], bidirectional;
    repeat split; try reflexivity; repeat constructor.
Qed.

(** X6. With one direction and any number [L >= 1] of layers, on arrays of the
    shapes the docstring of [lstm] lists and weights of the shapes the
    calculator gives, [lstm_ref] returns [y] of shape
    [(batch, time, hidden_size)] and [h_n], [c_n] of shape
    [(L, batch, hidden_size)]; the last time step of [y] is the last entry
    of [h_n], the final hidden state of the top layer. *)
Theorem lstm_ref_unidirectional_shapes {F : Type} `{Scalar F}
  (B T n_in n_hid L : nat) (x h_0 c_0 : list (list (list F)))
  (W_ih W_hh : gmap Z (list (list F))) (b_ih b_hh : gmap Z (list F))
  (seq_lengths : IntArray) (dropout : float) :
  PrimFloat.eqb dropout 0%float = true ->
  (0 < B)%nat -> (0 < T)%nat -> (0 < n_in)%nat -> (0 < n_hid)%nat ->
  (0 < L)%nat ->
  is_tensor3 B T n_in x ->
  is_tensor3 L B n_hid h_0 -> is_tensor3 L B n_hid c_0 ->
  (forall l, 0 <= l < Z.of_nat L ->
     weights_shaped W_ih W_hh b_ih b_hh (Z.of_nat n_in) (Z.of_nat n_hid)
       false l) ->
  exists y h_n c_n h_last,
    lstm_ref x h_0 c_0 W_ih W_hh b_ih b_hh seq_lengths
      (Z.of_nat n_in) (Z.of_nat n_hid) (Z.of_nat L) dropout false =
      Ok (y, h_n, c_n) /\
    is_tensor3 B T n_hid y /\
    is_tensor3 L B n_hid h_n /\ is_tensor3 L B n_hid c_n /\
    last h_n = Some h_last /\
    Forall2 (fun yb h_b => last yb = Some h_b) y h_last.
Proof.
  intros Hd HB HT Hin Hhid HL Hx Hh0 Hc0 HW.
  by apply (unidirectional_run B T n_in n_hid L x h_0 c_0 W_ih W_hh b_ih
              b_hh HB HT Hin Hhid Hx Hh0 Hc0 seq_lengths dropout).
Qed.

Lemma lstm_ref_unidirectional_shapes_witness :
  exists y h_n c_n h_last,
    lstm_ref (small_x 0%R 1%R) (small_state 0%R) (small_state 0%R)
      (small_W_ih 0%R 1%R) (small_W_hh 0%R) (small_bias 0%R)
      (small_bias 0%R) small_seq_lengths (Z.of_nat 1) (Z.of_nat 1)
      (Z.of_nat 2) 0%float false = Ok (y, h_n, c_n) /\
    is_tensor3 1 2 1 y /\
    is_tensor3 2 1 1 h_n /\ is_tensor3 2 1 1 c_n /\
    last h_n = Some h_last /\
    Forall2 (fun yb h_b => last yb = Some h_b) y h_last.
Proof.
  apply (lstm_ref_unidirectional_shapes 1 2 1 1 2 (small_x 0%R 1%R)
           (small_state 0%R) (small_state 0%R) (small_W_ih 0%R 1%R)
           (small_W_hh 0%R) (small_bias 0%R) (small_bias 0%R)
           small_seq_lengths 0%float);
    try lia; try reflexivity;
    try (split; try reflexivity; repeat constructor).
  intros l Hl. apply small_weights_shaped. simpl in Hl. lia.
Defined.

Lemma scan_reverse_carry {C X Y : Type} (f : C -> X -> C * Y) (init : C)
  (xs : list X) :
  fst (scan_reverse f init xs) = fst (scan f init (reverse xs)).
Proof. unfold scan_reverse. by destruct (scan f init (reverse xs)). Qed.

Section Readout.
Context {F : Type}.
Variables (B T n : nat).
Variables (fwd bwd : list (list (list F))) (hf hb : list (list F)).
Hypothesis HT : (0 < T)%nat.
Hypothesis Sfwd : is_tensor3 T B n fwd.
Hypothesis Sbwd : is_tensor3 T B n bwd.
Hypothesis Hlast : last fwd = Some hf.
Hypothesis Hhead : head bwd = Some hb.

(** What the batch-major output of a bidirectional layer holds of the two
    final hidden states. *)
Lemma bidirectional_readout :
  let y := transpose (zip_with (zip_with app) fwd bwd) in
  is_tensor3 B T (2 * n) y /\
  Forall2 (fun yb h_b => exists v, last yb = Some v /\ take n v = h_b) y hf /\
  Forall2 (fun yb h_b => exists v, head yb = Some v /\ drop n v = h_b) y hb.
Proof.
  intros y. subst y.
  pose proof (concat_features_tensor3 B T n _ _ Sfwd Sbwd) as Sseq.
  replace (n + n)%nat with (2 * n)%nat in Sseq by lia.
  pose proof (transpose_tensor3 T B (2 * n) _ HT Sseq) as Sy.
  split; [exact Sy|].
  destruct Sy as [Hly Hy]. rewrite Forall_lookup in Hy.
  assert (Shf : is_matrix B n hf).
  { destruct Sfwd as [_ Hall]. rewrite Forall_forall in Hall.
    by apply Hall, last_Some_elem_of. }
  assert (Shb : is_matrix B n hb).
  { destruct Sbwd as [_ Hall]. rewrite Forall_forall in Hall.
    by apply Hall, head_Some_elem_of. }
  split.
  - apply Forall2_same_length_lookup_2; [destruct Shf; lia|].
    intros b yb h_b Hyb Hhb.
    destruct (Hy _ _ Hyb) as [Hlyb _].
    destruct (lookup_lt_is_Some_2 yb (pred T)) as [v Hv]; [lia|].
    exists v. split; [by rewrite last_lookup, Hlyb|].
    destruct (output_entry B T n _ _ b (pred T) yb v HT Sfwd Sbwd Hyb Hv)
      as (ft & bt & u & w & Hft & Hbt & Hu & Hw & -> & Hlu & Hlw).
    pose proof Hlast as Hl. rewrite last_lookup in Hl.
    destruct Sfwd as [Hlf _].
    rewrite Hlf, Hft in Hl. injection Hl as ->.
    rewrite Hhb in Hu. injection Hu as ->.
    by apply take_app_length'.
  - apply Forall2_same_length_lookup_2; [destruct Shb; lia|].
    intros b yb h_b Hyb Hhb.
    destruct (Hy _ _ Hyb) as [Hlyb _].
    destruct (lookup_lt_is_Some_2 yb 0) as [v Hv]; [lia|].
    exists v. split; [by rewrite head_lookup|].
    destruct (output_entry B T n _ _ b 0%nat yb v HT Sfwd Sbwd Hyb Hv)
      as (ft & bt & u & w & Hft & Hbt & Hu & Hw & -> & Hlu & Hlw).
    pose proof Hhead as Hh. rewrite head_lookup, Hbt in Hh.
    injection Hh as ->.
    rewrite Hhb in Hw. injection Hw as ->.
    by apply drop_app_length'.
Qed.

End Readout.

Section BidirectionalStack.
Context {F : Type} `{Scalar F}.
Variables (B T n_in n_hid L : nat).
Variables (x h_0 c_0 : list (list (list F))).
Variables (W_ih W_hh : gmap Z (list (list F))) (b_ih b_hh : gmap Z (list F)).
Hypothesis HB : (0 < B)%nat.
Hypothesis HT : (0 < T)%nat.
Hypothesis Hin : (0 < n_in)%nat.
Hypothesis Hhid : (0 < n_hid)%nat.
Hypothesis Hx : is_tensor3 B T n_in x.
Hypothesis Hh0 : is_tensor3 (2 * L) B n_hid h_0.
Hypothesis Hc0 : is_tensor3 (2 * L) B n_hid c_0.

(** The loop over pseudo-layers after [k] iterations: after an odd number
    the forward outputs of the current layer are bound, after an even number
    the input of the next layer joins the outputs of both directions. *)
Lemma bidirectional_loop (k : nat) :
  (k <= 2 * L)%nat ->
  (forall l, 0 <= l < Z.of_nat k ->
     weights_shaped W_ih W_hh b_ih b_hh (Z.of_nat n_in) (Z.of_nat n_hid)
       true l) ->
  exists s,
    for_each (range (Z.of_nat k))
      (ref_pseudo_layer h_0 c_0 W_ih W_hh b_ih b_hh)
      (mkRef (transpose x) None [] []) = Ok s /\
    is_tensor3 T B (if (k <? 2)%nat then n_in else (2 * n_hid)%nat)
      (seq_first_y s) /\
    is_tensor3 k B n_hid (final_h s) /\ is_tensor3 k B n_hid (final_c s) /\
    (Nat.odd k = true ->
     exists fwd hf,
       seq_first_y_fwd s = Some fwd /\ is_tensor3 T B n_hid fwd /\
       last fwd = Some hf /\ last (final_h s) = Some hf) /\
    (Nat.even k = true -> (0 < k)%nat ->
     exists fwd bwd hf hb pre,
       seq_first_y s = zip_with (zip_with app) fwd bwd /\
       is_tensor3 T B n_hid fwd /\ is_tensor3 T B n_hid bwd /\
       last fwd = Some hf /\ head bwd = Some hb /\
       final_h s = pre ++ [hf; hb]).
Proof.
  intros Hk HW.
  apply (for_each_range_inv (ref_pseudo_layer h_0 c_0 W_ih W_hh b_ih b_hh)
           (fun k s =>
              is_tensor3 T B
                (if (k <? 2)%nat then n_in else (2 * n_hid)%nat)
                (seq_first_y s) /\
              is_tensor3 k B n_hid (final_h s) /\
              is_tensor3 k B n_hid (final_c s) /\
              (Nat.odd k = true ->
               exists fwd hf,
                 seq_first_y_fwd s = Some fwd /\ is_tensor3 T B n_hid fwd /\
                 last fwd = Some hf /\ last (final_h s) = Some hf) /\
              (Nat.even k = true -> (0 < k)%nat ->
               exists fwd bwd hf hb pre,
                 seq_first_y s = zip_with (zip_with app) fwd bwd /\
                 is_tensor3 T B n_hid fwd /\ is_tensor3 T B n_hid bwd /\
                 last fwd = Some hf /\ head bwd = Some hb /\
                 final_h s = pre ++ [hf; hb]))).
  - cbn [seq_first_y final_h final_c].
    refine (conj _ (conj _ (conj _ (conj _ _)))).
    + by apply transpose_tensor3.
    + by split.
    + by split.
    + discriminate.
    + lia.
  - intros j s Hj (Sseq & Sh & Sc & Hodd & Heven).
    destruct (weights_shaped_sizes W_ih W_hh b_ih b_hh n_in n_hid true
                (Z.of_nat j) (HW (Z.of_nat j) ltac:(lia)))
      as (wih & whh & bih & bhh & H1 & H2 & H3 & H4 & S1 & S2 & S3 & S4).
    destruct (tensor3_lookup _ _ _ h_0 j Hh0 ltac:(lia)) as (h0 & Hh & Sh0).
    destruct (tensor3_lookup _ _ _ c_0 j Hc0 ltac:(lia)) as (c0 & Hc & Sc0).
    rewrite andb_true_r in S1.
    assert (Hw : (if (Z.of_nat j =? 0) || (Z.of_nat j =? 1) then n_in
                  else (2 * n_hid)%nat)
                 = (if (j <? 2)%nat then n_in else (2 * n_hid)%nat)).
    { destruct (Z.eqb_spec (Z.of_nat j) 0), (Z.eqb_spec (Z.of_nat j) 1),
        (Nat.ltb_spec j 2); cbn [orb]; try reflexivity; lia. }
    rewrite Hw in S1.
    assert (Hpos : (0 < (if (j <? 2)%nat then n_in else (2 * n_hid)%nat))%nat)
      by (destruct (j <? 2)%nat; lia).
    assert (Hw' : (if (S j <? 2)%nat then n_in else (2 * n_hid)%nat)
                  = (if Nat.even j
                     then if (j <? 2)%nat then n_in else (2 * n_hid)%nat
                     else (2 * n_hid)%nat)).
    { destruct j as [|[|j]]; try reflexivity.
      cbn [Nat.ltb Nat.leb]. by destruct (Nat.even (S (S j))). }
    destruct (Nat.even j) eqn:Ej.
    + assert (Hmod : Z.of_nat j mod 2 = 0).
      { apply Nat.even_spec in Ej as [m ->]. 
        rewrite Nat2Z.inj_mul, Z.mul_comm. apply Z_mod_mult. }
      rewrite (ref_pseudo_layer_forward h_0 c_0 W_ih W_hh b_ih b_hh
                 (Z.of_nat j) wih whh bih bhh h0 c0) by
          (try done; by rewrite Nat2Z.id).
      cbv zeta.
      destruct (scan_cell_forward B T _ n_hid wih whh bih bhh Hpos Hhid HT
                  S1 S2 S3 S4 h0 c0 (seq_first_y s) Sh0 Sc0 Sseq)
        as [Sys Hlast].
      destruct (scan_cell_carry B n_hid Hhid _ wih whh bih bhh h0 c0
                  (seq_first_y s) Hpos S1 S2 S3 S4 Sh0 Sc0 (proj2 Sseq))
        as [Sh' Sc'].
      eexists. split; [reflexivity|].
      cbn [seq_first_y seq_first_y_fwd final_h final_c].
      refine (conj _ (conj _ (conj _ (conj _ _)))).
      * by rewrite Hw'.
      * by apply tensor3_snoc.
      * by apply tensor3_snoc.
      * intros _. eexists _, _. split; [reflexivity|].
        split; [exact Sys|]. split; [exact Hlast|]. by rewrite last_snoc.
      * rewrite Nat.even_succ, <- Nat.negb_even, Ej. discriminate.
    + assert (Eo : Nat.odd j = true) by (by rewrite <- Nat.negb_even, Ej).
      destruct (Hodd Eo) as (fwd & hf & Hfwd & Sfwd & Hlf & Hlh).
      assert (Hmod : Z.of_nat j mod 2 = 1).
      { apply Nat.odd_spec in Eo as [m ->].
        rewrite Nat2Z.inj_add, Nat2Z.inj_mul, Z.add_comm, Z.mul_comm.
        by rewrite Z_mod_plus_full. }
      rewrite (ref_pseudo_layer_reverse h_0 c_0 W_ih W_hh b_ih b_hh
                 (Z.of_nat j) wih whh bih bhh h0 c0 H1 H2 H3 H4
                 ltac:(by rewrite Nat2Z.id) ltac:(by rewrite Nat2Z.id)
                 s fwd Hmod Hfwd).
      cbv zeta.
      destruct (scan_cell_reverse B T _ n_hid wih whh bih bhh h0 c0
                  (seq_first_y s) Hpos Hhid HT S1 S2 S3 S4 Sh0 Sc0 Sseq)
        as [Sys Hhead].
      destruct (scan_cell_carry B n_hid Hhid _ wih whh bih bhh h0 c0
                  (reverse (seq_first_y s)) Hpos S1 S2 S3 S4 Sh0 Sc0)
        as [Sh' Sc']; [apply Forall_reverse, Sseq|].
      rewrite <- scan_reverse_carry in Sh', Sc'.
      eexists. split; [reflexivity|].
      cbn [seq_first_y seq_first_y_fwd final_h final_c].
      refine (conj _ (conj _ (conj _ (conj _ _)))).
      * rewrite Hw'.
        pose proof (concat_features_tensor3 B T n_hid _ _ Sfwd Sys) as Sz.
        by replace (n_hid + n_hid)%nat with (2 * n_hid)%nat in Sz by lia.
      * by apply tensor3_snoc.
      * by apply tensor3_snoc.
      * rewrite Nat.odd_succ, Ej. discriminate.
      * intros _ _. apply last_Some in Hlh as [pre Hpre].
        eexists fwd, _, hf, _, pre. split; [reflexivity|].
        split; [exact Sfwd|]. split; [exact Sys|].
        split; [exact Hlf|]. split; [exact Hhead|].
        by rewrite Hpre, <- app_assoc.
Qed.

(** The bidirectional branch of [lstm_ref] on well-shaped operands. *)
Lemma bidirectional_run (seq_lengths : IntArray) (dropout : float) :
  PrimFloat.eqb dropout 0%float = true -> (0 < L)%nat ->
  (forall l, 0 <= l < Z.of_nat (2 * L) ->
     weights_shaped W_ih W_hh b_ih b_hh (Z.of_nat n_in) (Z.of_nat n_hid)
       true l) ->
  exists y h_n c_n h_fwd h_bwd,
    lstm_ref x h_0 c_0 W_ih W_hh b_ih b_hh seq_lengths
      (Z.of_nat n_in) (Z.of_nat n_hid) (Z.of_nat L) dropout true =
      Ok (y, h_n, c_n) /\
    is_tensor3 B T (2 * n_hid) y /\
    is_tensor3 (2 * L) B n_hid h_n /\ is_tensor3 (2 * L) B n_hid c_n /\
    h_n !! (2 * L - 2)%nat = Some h_fwd /\
    h_n !! (2 * L - 1)%nat = Some h_bwd /\
    Forall2
      (fun yb h_b => exists v, last yb = Some v /\ take n_hid v = h_b)
      y h_fwd /\
    Forall2
      (fun yb h_b => exists v, head yb = Some v /\ drop n_hid v = h_b)
      y h_bwd.
Proof.
  intros Hd HL HW.
  destruct (bidirectional_loop (2 * L) ltac:(lia) HW)
    as (s & Hs & Sseq & Sh & Sc & _ & Heven).
  destruct Heven as (fwd & bwd & hf & hb & pre & Hseq & Sfwd & Sbwd & Hlf
                     & Hhb & Hpre); [|lia|].
  { rewrite Nat.even_spec. by exists L. }
  unfold lstm_ref. rewrite Hd. cbn [negb].
  replace (Z.of_nat L * 2) with (Z.of_nat (2 * L)) by lia.
  rewrite Hs. cbn [mbind result_bind].
  destruct (final_c s) as [|fc fcs] eqn:Efc;
    [destruct Sc as [Sc _]; simpl in Sc; lia|].
  rewrite Hpre in *.
  assert (Hlen : length pre = (2 * L - 2)%nat).
  { destruct Sh as [Sh _]. rewrite length_app in Sh. simpl in Sh. lia. }
  destruct (pre ++ [hf; hb]) as [|fh fhs] eqn:Efh;
    [by destruct pre|].
  cbn [stack mbind result_bind]. rewrite <- Efh.
  destruct (bidirectional_readout B T n_hid fwd bwd hf hb HT Sfwd Sbwd
              Hlf Hhb) as (Sy & Hyf & Hyb).
  exists (transpose (seq_first_y s)), (pre ++ [hf; hb]), (fc :: fcs), hf, hb.
  rewrite <- Efh in Sh. rewrite Hseq.
  refine (conj _ (conj _ (conj _ (conj _ (conj _ (conj _ (conj _ _)))))));
    try done.
  - rewrite lookup_app_r by lia. by rewrite Hlen, Nat.sub_diag.
  - rewrite lookup_app_r by lia.
    by replace (2 * L - 1 - length pre)%nat with 1%nat by lia.
Qed.

End BidirectionalStack.

(** X7. With two directions and any number [L >= 1] of layers, on arrays of the
    shapes the docstring of [lstm] lists and weights of the shapes the
    calculator gives, [lstm_ref] returns [y] of shape
    [(batch, time, 2 * hidden_size)] and [h_n], [c_n] of shape
    [(2 * L, batch, hidden_size)]. The last two entries of [h_n] are the
    final hidden states of the top layer: the forward one is the first
    [hidden_size] features of [y] at the last time step, the reverse one the
    last [hidden_size] features of [y] at the first time step. *)
Theorem lstm_ref_bidirectional_shapes {F : Type} `{Scalar F}
  (B T n_in n_hid L : nat) (x h_0 c_0 : list (list (list F)))
  (W_ih W_hh : gmap Z (list (list F))) (b_ih b_hh : gmap Z (list F))
  (seq_lengths : IntArray) (dropout : float) :
  PrimFloat.eqb dropout 0%float = true ->
  (0 < B)%nat -> (0 < T)%nat -> (0 < n_in)%nat -> (0 < n_hid)%nat ->
  (0 < L)%nat ->
  is_tensor3 B T n_in x ->
  is_tensor3 (2 * L) B n_hid h_0 -> is_tensor3 (2 * L) B n_hid c_0 ->
  (forall l, 0 <= l < Z.of_nat (2 * L) ->
     weights_shaped W_ih W_hh b_ih b_hh (Z.of_nat n_in) (Z.of_nat n_hid)
       true l) ->
  exists y h_n c_n h_fwd h_bwd,
    lstm_ref x h_0 c_0 W_ih W_hh b_ih b_hh seq_lengths
      (Z.of_nat n_in) (Z.of_nat n_hid) (Z.of_nat L) dropout true =
      Ok (y, h_n, c_n) /\
    is_tensor3 B T (2 * n_hid) y /\
    is_tensor3 (2 * L) B n_hid h_n /\ is_tensor3 (2 * L) B n_hid c_n /\
    h_n !! (2 * L - 2)%nat = Some h_fwd /\
    h_n !! (2 * L - 1)%nat = Some h_bwd /\
    Forall2
      (fun yb h_b => exists v, last yb = Some v /\ take n_hid v = h_b)
      y h_fwd /\
    Forall2
      (fun yb h_b => exists v, head yb = Some v /\ drop n_hid v = h_b)
      y h_bwd.
Proof.
  intros Hd HB HT Hin Hhid HL Hx Hh0 Hc0 HW.
  by apply (bidirectional_run B T n_in n_hid L x h_0 c_0 W_ih W_hh b_ih
              b_hh HB HT Hin Hhid Hx Hh0 Hc0 seq_lengths dropout).
Qed.

Lemma lstm_ref_bidirectional_shapes_witness :
  exists y h_n c_n h_fwd h_bwd,
    lstm_ref (small_x 0%R 1%R) (small_state 0%R) (small_state 0%R)
      (small_W_ih 0%R 1%R) (small_W_hh 0%R) (small_bias 0%R)
      (small_bias 0%R) small_seq_lengths (Z.of_nat 1) (Z.of_nat 1)
      (Z.of_nat 1) 0%float true = Ok (y, h_n, c_n) /\
    is_tensor3 1 2 (2 * 1) y /\
    is_tensor3 (2 * 1) 1 1 h_n /\ is_tensor3 (2 * 1) 1 1 c_n /\
    h_n !! (2 * 1 - 2)%nat = Some h_fwd /\
    h_n !! (2 * 1 - 1)%nat = Some h_bwd /\
    Forall2 (fun yb h_b => exists v, last yb = Some v /\ take 1 v = h_b)
      y h_fwd /\
    Forall2 (fun yb h_b => exists v, head yb = Some v /\ drop 1 v = h_b)
      y h_bwd.
Proof.
  apply (lstm_ref_bidirectional_shapes 1 2 1 1 1 (small_x 0%R 1%R)
           (small_state 0%R) (small_state 0%R) (small_W_ih 0%R 1%R)
           (small_W_hh 0%R) (small_bias 0%R) (small_bias 0%R)
           small_seq_lengths 0%float);
    try lia; try reflexivity;
    try (split; try reflexivity; repeat constructor).
  intros l Hl. apply small_weights_shaped. simpl in Hl. lia.
Defined.

(** ** Errors of the reference LSTM *)

(** X11. With dropout 0 and no layer to run ([num_layers <= 0]), both layer
    loops of [lstm_ref] are empty and [jnp.stack] is called on an empty list:
    the call raises ValueError, whatever the arrays and weights. *)
Theorem lstm_ref_no_layers {F : Type} `{Scalar F}
  (x h_0 c_0 : list (list (list F)))
  (W_ih W_hh : gmap Z (list (list F))) (b_ih b_hh : gmap Z (list F))
  (seq_lengths : IntArray) (input_size hidden_size num_layers : Z)
  (dropout : float) (bidirectional : bool) :
  PrimFloat.eqb dropout 0%float = true -> num_layers <= 0 ->
  lstm_ref x h_0 c_0 W_ih W_hh b_ih b_hh seq_lengths input_size hidden_size
    num_layers dropout bidirectional = Raise ValueError.
Proof.
  intros Hd Hn. unfold lstm_ref. rewrite Hd. cbn [negb].
  destruct bidirectional; cbn [negb].
  - by rewrite range_nonpos by lia.
  - by rewrite range_nonpos by lia.
Qed.

Lemma lstm_ref_no_layers_witness :
  lstm_ref (small_x 0%R 1%R) (small_state 0%R) (small_state 0%R)
    (small_W_ih 0%R 1%R) (small_W_hh 0%R) (small_bias 0%R) (small_bias 0%R)
    small_seq_lengths 1 1 0 0%float true = Raise ValueError.
Proof.
  apply (lstm_ref_no_layers (small_x 0%R 1%R) (small_state 0%R)
           (small_state 0%R) (small_W_ih 0%R 1%R) (small_W_hh 0%R)
           (small_bias 0%R) (small_bias 0%R) small_seq_lengths 1 1 0
           0%float true).
  - reflexivity.
  - lia.
Defined.

Section MissingKey.
Context {F : Type} `{Scalar F}.
Variables (h_0 c_0 : list (list (list F))).
Variables (W_ih W_hh : gmap Z (list (list F))) (b_ih b_hh : gmap Z (list F)).

(** Looking up the weights of a pseudo-layer that one of the four dicts
    lacks raises KeyError. *)
Lemma cell_of_missing (l : Z) :
  W_ih !! l = None \/ W_hh !! l = None \/
  b_ih !! l = None \/ b_hh !! l = None ->
  cell_of W_ih W_hh b_ih b_hh l = Raise KeyError.
Proof.
  intros Hmiss. unfold cell_of, dict_get.
  destruct (W_ih !! l); [|reflexivity].
  destruct (W_hh !! l); [|reflexivity].
  destruct (b_ih !! l); [|reflexivity].
  destruct (b_hh !! l); [|reflexivity].
  destruct Hmiss as [?|[?|[?|?]]]; discriminate.
Qed.

Lemma ref_layer_missing (l : Z) (s : ref_state F) :
  W_ih !! l = None \/ W_hh !! l = None \/
  b_ih !! l = None \/ b_hh !! l = None ->
  ref_layer h_0 c_0 W_ih W_hh b_ih b_hh l s = Raise KeyError.
Proof.
  intros Hmiss. unfold ref_layer. by rewrite cell_of_missing.
Qed.

Lemma ref_pseudo_layer_missing (l : Z) (s : ref_state F) :
  W_ih !! l = None \/ W_hh !! l = None \/
  b_ih !! l = None \/ b_hh !! l = None ->
  ref_pseudo_layer h_0 c_0 W_ih W_hh b_ih b_hh l s = Raise KeyError.
Proof.
  intros Hmiss. unfold ref_pseudo_layer. by rewrite cell_of_missing.
Qed.

End MissingKey.

(** A loop over [range n] whose first [k] iterations succeed and whose
    iteration [k] raises. *)
Lemma for_each_range_raise {St : Type} (body : Z -> St -> result St)
  (n k : nat) (s0 s : St) (e : exception) :
  (k < n)%nat ->
  for_each (range (Z.of_nat k)) body s0 = Ok s ->
  body (Z.of_nat k) s = Raise e ->
  for_each (range (Z.of_nat n)) body s0 = Raise e.
Proof.
  intros Hk Hs He.
  rewrite (range_split k n) by lia.
  replace (n - k)%nat with (S (n - k - 1)) by lia.
  cbn [seq map]. rewrite for_each_app.
  unfold range in Hs. rewrite Nat2Z.id in Hs. rewrite Hs.
  cbn [mbind result_bind for_each]. by rewrite He.
Qed.

(** X12. With dropout 0, if the weights of the first [K] pseudo-layers are
    present and well-shaped and one of the four dicts lacks key [K], with [K]
    below the number of pseudo-layers, [lstm_ref] raises KeyError. *)
Theorem lstm_ref_missing_key {F : Type} `{Scalar F}
  (B T n_in n_hid L K : nat) (x h_0 c_0 : list (list (list F)))
  (W_ih W_hh : gmap Z (list (list F))) (b_ih b_hh : gmap Z (list F))
  (seq_lengths : IntArray) (dropout : float) (bidirectional : bool) :
  let npl := ((if bidirectional then 2 else 1) * L)%nat in
  PrimFloat.eqb dropout 0%float = true ->
  (0 < B)%nat -> (0 < T)%nat -> (0 < n_in)%nat -> (0 < n_hid)%nat ->
  is_tensor3 B T n_in x ->
  is_tensor3 npl B n_hid h_0 -> is_tensor3 npl B n_hid c_0 ->
  (K < npl)%nat ->
  (forall l, 0 <= l < Z.of_nat K ->
     weights_shaped W_ih W_hh b_ih b_hh (Z.of_nat n_in) (Z.of_nat n_hid)
       bidirectional l) ->
  W_ih !! Z.of_nat K = None \/ W_hh !! Z.of_nat K = None \/
  b_ih !! Z.of_nat K = None \/ b_hh !! Z.of_nat K = None ->
  lstm_ref x h_0 c_0 W_ih W_hh b_ih b_hh seq_lengths
    (Z.of_nat n_in) (Z.of_nat n_hid) (Z.of_nat L) dropout bidirectional
  = Raise KeyError.
Proof.
  intros npl Hd HB HT Hin Hhid Hx Hh0 Hc0 HK HW Hmiss. subst npl.
  unfold lstm_ref. rewrite Hd. cbn [negb].
  destruct bidirectional; cbn [negb].
  - destruct (bidirectional_loop B T n_in n_hid L x h_0 c_0 W_ih W_hh b_ih
                b_hh HB HT Hin Hhid Hx Hh0 Hc0 K ltac:(lia) HW)
      as (s & Hs & _).
    replace (Z.of_nat L * 2) with (Z.of_nat (2 * L)) by lia.
    rewrite (for_each_range_raise _ (2 * L) K _ s KeyError HK Hs);
      [reflexivity|].
    by apply ref_pseudo_layer_missing.
  - rewrite Nat.mul_1_l in *.
    destruct (unidirectional_loop B T n_in n_hid L x h_0 c_0 W_ih W_hh b_ih
                b_hh HB HT Hin Hhid Hx Hh0 Hc0 K ltac:(lia) HW)
      as (s & Hs & _).
    rewrite (for_each_range_raise _ L K _ s KeyError HK Hs);
      [reflexivity|].
    by apply ref_layer_missing.
Qed.

Lemma lstm_ref_missing_key_witness :
  lstm_ref (small_x 0%R 1%R)
    [[[0%R]]; [[0%R]]; [[0%R]]] [[[0%R]]; [[0%R]]; [[0%R]]]
    (small_W_ih 0%R 1%R) (small_W_hh 0%R) (small_bias 0%R) (small_bias 0%R)
    small_seq_lengths (Z.of_nat 1) (Z.of_nat 1) (Z.of_nat 3) 0%float false
  = Raise KeyError.
Proof.
  apply (lstm_ref_missing_key 1 2 1 1 3 2 (small_x 0%R 1%R)
           [[[0%R]]; [[0%R]]; [[0%R]]] [[[0%R]]; [[0%R]]; [[0%R]]]
           (small_W_ih 0%R 1%R) (small_W_hh 0%R) (small_bias 0%R)
           (small_bias 0%R) small_seq_lengths 0%float false);
    try (simpl; lia); try reflexivity;
    try (split; try reflexivity; repeat constructor).
  - intros l Hl. apply small_weights_shaped. simpl in Hl. lia.
  - left. reflexivity.
Defined.

Section NameError.
Context {F : Type} `{Scalar F}.
Variables (h_0 c_0 : list (list (list F))).
Variables (W_ih W_hh : gmap Z (list (list F))) (b_ih b_hh : gmap Z (list F)).

Lemma jax_index_error {A : Type} (a : list A) (l : Z) (e : exception) :
  jax_index a l = Raise e -> e = IndexError.
Proof. unfold jax_index. destruct (a !! _); congruence. Qed.

Lemma cell_of_error (l : Z) (e : exception) :
  cell_of W_ih W_hh b_ih b_hh l = Raise e -> e = KeyError.
Proof.
  unfold cell_of, dict_get.
  destruct (W_ih !! l); cbn [mbind result_bind]; [|congruence].
  destruct (W_hh !! l); cbn [mbind result_bind]; [|congruence].
  destruct (b_ih !! l); cbn [mbind result_bind]; [|congruence].
  destruct (b_hh !! l); cbn [mbind result_bind]; congruence.
Qed.

Lemma ref_layer_not_NameError (l : Z) (s : ref_state F) :
  ref_layer h_0 c_0 W_ih W_hh b_ih b_hh l s ≠ Raise NameError.
Proof.
  unfold ref_layer.
  destruct (cell_of W_ih W_hh b_ih b_hh l) as [cell|e] eqn:Ec;
    cbn [mbind result_bind];
    [|apply cell_of_error in Ec; congruence].
  destruct (jax_index h_0 l) as [h0|e1] eqn:Eh; cbn [mbind result_bind];
    [|apply jax_index_error in Eh; congruence].
  destruct (jax_index c_0 l) as [c0|e2] eqn:Ecc; cbn [mbind result_bind];
    [|apply jax_index_error in Ecc; congruence].
  by destruct (scan cell (h0, c0) (seq_first_y s)) as [[h_t c_t] ys].
Qed.

(** A pseudo-layer that returns leaves [seq_first_y_fwd] bound. *)
Lemma ref_pseudo_layer_binds (l : Z) (s s' : ref_state F) :
  ref_pseudo_layer h_0 c_0 W_ih W_hh b_ih b_hh l s = Ok s' ->
  is_Some (seq_first_y_fwd s').
Proof.
  unfold ref_pseudo_layer.
  destruct (cell_of W_ih W_hh b_ih b_hh l) as [cell|e];
    cbn [mbind result_bind]; [|discriminate].
  destruct (l mod 2 =? 0);
    (destruct (jax_index h_0 l) as [h0|e1]; cbn [mbind result_bind];
     [|discriminate]);
    (destruct (jax_index c_0 l) as [c0|e2]; cbn [mbind result_bind];
     [|discriminate]).
  - destruct (scan cell (h0, c0) (seq_first_y s)) as [[h_t c_t] ys].
    intros [= <-]. by eexists.
  - destruct (scan_reverse cell (h0, c0) (seq_first_y s))
      as [[h_t c_t] ys].
    destruct (seq_first_y_fwd s) eqn:E; [|discriminate].
    intros [= <-]. by eexists.
Qed.

(** A pseudo-layer raises NameError only in the reverse direction with
    [seq_first_y_fwd] unbound. *)
Lemma ref_pseudo_layer_NameError (l : Z) (s : ref_state F) :
  ref_pseudo_layer h_0 c_0 W_ih W_hh b_ih b_hh l s = Raise NameError ->
  l mod 2 ≠ 0 /\ seq_first_y_fwd s = None.
Proof.
  unfold ref_pseudo_layer.
  destruct (cell_of W_ih W_hh b_ih b_hh l) as [cell|e] eqn:Ec;
    cbn [mbind result_bind];
    [|apply cell_of_error in Ec; congruence].
  destruct (Z.eqb_spec (l mod 2) 0);
    (destruct (jax_index h_0 l) as [h0|e1] eqn:Eh; cbn [mbind result_bind];
     [|apply jax_index_error in Eh; congruence]);
    (destruct (jax_index c_0 l) as [c0|e2] eqn:Ecc; cbn [mbind result_bind];
     [|apply jax_index_error in Ecc; congruence]).
  - by destruct (scan cell (h0, c0) (seq_first_y s)) as [[h_t c_t] ys].
  - destruct (scan_reverse cell (h0, c0) (seq_first_y s))
      as [[h_t c_t] ys].
    destruct (seq_first_y_fwd s) eqn:E; [discriminate|]. by intros _.
Qed.

Lemma pseudo_loop_not_NameError (k : nat) (s0 : ref_state F) :
  for_each (range (Z.of_nat k))
    (ref_pseudo_layer h_0 c_0 W_ih W_hh b_ih b_hh) s0 ≠ Raise NameError /\
  forall s,
    for_each (range (Z.of_nat k))
      (ref_pseudo_layer h_0 c_0 W_ih W_hh b_ih b_hh) s0 = Ok s ->
    (0 < k)%nat -> is_Some (seq_first_y_fwd s).
Proof.
  induction k as [|k [IHr IHs]].
  - split; [discriminate|]. intros; lia.
  - rewrite range_snoc, for_each_app.
    destruct (for_each (range (Z.of_nat k)) _ s0) as [s1|e] eqn:E1;
      cbn [mbind result_bind for_each].
    + destruct (ref_pseudo_layer h_0 c_0 W_ih W_hh b_ih b_hh (Z.of_nat k) s1)
        as [s2|e] eqn:E2; cbn [mbind result_bind].
      * split; [discriminate|]. intros s [= <-] _.
        by eapply ref_pseudo_layer_binds.
      * split; [|discriminate]. intros [= ->].
        apply ref_pseudo_layer_NameError in E2 as [Hodd Hnone].
        destruct k as [|k]; [by apply Hodd|].
        destruct (IHs s1 eq_refl ltac:(lia)) as [f Hf]. congruence.
    + split; [|discriminate]. exact IHr.
Qed.

End NameError.

(** X13. [lstm_ref] never raises NameError: whenever the reverse pseudo-layer
    reads [seq_first_y_fwd], the forward pseudo-layer that runs just before
    it has bound it. *)
Theorem lstm_ref_never_NameError {F : Type} `{Scalar F}
  (x h_0 c_0 : list (list (list F)))
  (W_ih W_hh : gmap Z (list (list F))) (b_ih b_hh : gmap Z (list F))
  (seq_lengths : IntArray) (input_size hidden_size num_layers : Z)
  (dropout : float) (bidirectional : bool) :
  lstm_ref x h_0 c_0 W_ih W_hh b_ih b_hh seq_lengths input_size hidden_size
    num_layers dropout bidirectional ≠ Raise NameError.
Proof.
  unfold lstm_ref. destruct (negb (PrimFloat.eqb dropout 0)); [discriminate|].
  destruct bidirectional; cbn [negb].
  - destruct (pseudo_loop_not_NameError h_0 c_0 W_ih W_hh b_ih b_hh
                (Z.to_nat (num_layers * 2)) (mkRef (transpose x) None [] []))
      as [Hloop _].
    assert (Hr : range (Z.of_nat (Z.to_nat (num_layers * 2)))
                 = range (num_layers * 2)).
    { unfold range. by rewrite Nat2Z.id. }
    rewrite Hr in Hloop.
    destruct (for_each _ _ _) as [s|e]; cbn [mbind result_bind];
      [|congruence].
    destruct (final_h s), (final_c s); simpl; discriminate.
  - pose proof (for_each_not_raised NameError (range num_layers)
                  (ref_layer h_0 c_0 W_ih W_hh b_ih b_hh)
                  (mkRef (transpose x) None [] [])
                  (ref_layer_not_NameError h_0 c_0 W_ih W_hh b_ih b_hh))
      as Hloop.
    destruct (for_each _ _ _) as [s|e]; cbn [mbind result_bind];
      [|congruence].
    destruct (final_h s), (final_c s); simpl; discriminate.
Qed.


(** ** Causality of the unidirectional reference LSTM *)

Lemma transpose_take {A : Type} (t : nat) (m : list (list A)) :
  transpose (map (take t) m) = take t (transpose m).
Proof.
  induction m as [|r m IH]; [by destruct t|].
  destruct m as [|r' m].
  - cbn [map transpose]. by rewrite <- fmap_take.
  - rewrite transpose_cons by done.
    change (map (take t) (r :: r' :: m))
      with (take t r :: map (take t) (r' :: m)).
    rewrite transpose_cons by done.
    by rewrite IH, zip_with_take.
Qed.

(** Truncating every column of a matrix with at least one column: the
    transposed matrix loses rows. *)
Lemma take_transpose {A : Type} (c t : nat) (m : list (list A)) :
  (0 < c)%nat -> (0 < t)%nat -> m ≠ [] ->
  Forall (fun r => length r = c) m ->
  map (take t) (transpose m) = transpose (take t m).
Proof.
  intros Hc Ht Hm Hall.
  pose proof (transpose_row_lengths c m Hm Hall) as Hrows.
  assert (Hlen : (0 < length m)%nat) by (destruct m; [done | simpl; lia]).
  rewrite <- (transpose_involutive (t `min` length m)
                (map (take t) (transpose m))).
  - by rewrite transpose_take, (transpose_involutive c).
  - lia.
  - apply Forall_fmap. eapply Forall_impl; [exact Hrows|].
    intros col Hcol. unfold compose. cbv beta in Hcol.
    by rewrite length_take, Hcol.
Qed.

Lemma scan_take {C X Y : Type} (f : C -> X -> C * Y) (t : nat)
  (xs : list X) (init : C) :
  take t (snd (scan f init xs)) = snd (scan f init (take t xs)).
Proof.
  revert init t. induction xs as [|x xs IH]; intros init t.
  - by destruct t.
  - destruct t as [|t]; [reflexivity|].
    cbn [take]. rewrite !scan_cons. cbn [snd take]. by rewrite IH.
Qed.

Section Causal.
Context {F : Type} `{Scalar F}.
Variables (B T n_in n_hid L t : nat).
Variables (x x' h_0 c_0 : list (list (list F))).
Variables (W_ih W_hh : gmap Z (list (list F))) (b_ih b_hh : gmap Z (list F)).
Hypothesis HB : (0 < B)%nat.
Hypothesis HT : (0 < T)%nat.
Hypothesis Hin : (0 < n_in)%nat.
Hypothesis Hhid : (0 < n_hid)%nat.
Hypothesis Hx : is_tensor3 B T n_in x.
Hypothesis Hx' : is_tensor3 B T n_in x'.
Hypothesis Hh0 : is_tensor3 L B n_hid h_0.
Hypothesis Hc0 : is_tensor3 L B n_hid c_0.
Hypothesis HW : forall l, 0 <= l < Z.of_nat L ->
  weights_shaped W_ih W_hh b_ih b_hh (Z.of_nat n_in) (Z.of_nat n_hid) false l.
Hypothesis Hagree : map (take t) x = map (take t) x'.

(** Two runs of the loop over layers on inputs that agree up to time [t]:
    the hidden sequences agree up to time [t] after every layer. *)
Lemma causal_loop (k : nat) :
  (k <= L)%nat ->
  exists s s',
    for_each (range (Z.of_nat k)) (ref_layer h_0 c_0 W_ih W_hh b_ih b_hh)
      (mkRef (transpose x) None [] []) = Ok s /\
    for_each (range (Z.of_nat k)) (ref_layer h_0 c_0 W_ih W_hh b_ih b_hh)
      (mkRef (transpose x') None [] []) = Ok s' /\
    is_tensor3 T B (match k with O => n_in | _ => n_hid end)
      (seq_first_y s) /\
    is_tensor3 T B (match k with O => n_in | _ => n_hid end)
      (seq_first_y s') /\
    length (final_h s) = k /\ length (final_c s) = k /\
    length (final_h s') = k /\ length (final_c s') = k /\
    take t (seq_first_y s) = take t (seq_first_y s').
Proof.
  intros Hk.
  apply (for_each_range_rel (ref_layer h_0 c_0 W_ih W_hh b_ih b_hh)
           (ref_layer h_0 c_0 W_ih W_hh b_ih b_hh)
           (fun k s s' =>
              is_tensor3 T B (match k with O => n_in | _ => n_hid end)
                (seq_first_y s) /\
              is_tensor3 T B (match k with O => n_in | _ => n_hid end)
                (seq_first_y s') /\
              length (final_h s) = k /\ length (final_c s) = k /\
              length (final_h s') = k /\ length (final_c s') = k /\
              take t (seq_first_y s) = take t (seq_first_y s'))).
  - cbn [seq_first_y final_h final_c length].
    repeat (split; [by apply transpose_tensor3 || reflexivity|]).
    by rewrite <- !transpose_take, Hagree.
  - intros j s s' Hj (Ss & Ss' & L1 & L2 & L3 & L4 & Heq).
    destruct (weights_shaped_sizes W_ih W_hh b_ih b_hh n_in n_hid false
                (Z.of_nat j) (HW (Z.of_nat j) ltac:(lia)))
      as (wih & whh & bih & bhh & H1 & H2 & H3 & H4 & S1 & S2 & S3 & S4).
    destruct (tensor3_lookup _ _ _ h_0 j Hh0 ltac:(lia)) as (h0 & Hh & Sh0).
    destruct (tensor3_lookup _ _ _ c_0 j Hc0 ltac:(lia)) as (c0 & Hc & Sc0).
    rewrite andb_false_r, orb_false_r, Nat.mul_1_l in S1.
    assert (Hpos : (0 < match j with O => n_in | _ => n_hid end)%nat)
      by (by destruct j).
    assert (S1' : is_matrix (4 * n_hid)
                    (match j with O => n_in | _ => n_hid end) wih)
      by (by destruct j).
    destruct (ref_layer_shaped B T n_hid HT Hhid h_0 c_0 W_ih W_hh b_ih b_hh
                _ (Z.of_nat j) wih whh bih bhh h0 c0 s Hpos H1 H2 H3 H4
                ltac:(by rewrite Nat2Z.id) ltac:(by rewrite Nat2Z.id)
                S1' S2 S3 S4 Sh0 Sc0 Ss)
      as (ys & h & c & -> & Hys & Sys & _).
    destruct (ref_layer_shaped B T n_hid HT Hhid h_0 c_0 W_ih W_hh b_ih b_hh
                _ (Z.of_nat j) wih whh bih bhh h0 c0 s' Hpos H1 H2 H3 H4
                ltac:(by rewrite Nat2Z.id) ltac:(by rewrite Nat2Z.id)
                S1' S2 S3 S4 Sh0 Sc0 Ss')
      as (ys' & h' & c' & -> & Hys' & Sys' & _).
    eexists _, _. split; [reflexivity|]. split; [reflexivity|].
    cbn [seq_first_y final_h final_c]. rewrite !length_app. cbn [length].
    repeat (split; [done || lia|]).
    by rewrite Hys, Hys', !scan_take, Heq.
Qed.

End Causal.

(** X9. With one direction, the output up to a time step depends on the input
    up to that time step only: on two inputs of the same shape that agree on
    the first [t] time steps of every sequence, with the same initial states
    and weights, [lstm_ref] returns outputs [y] that agree on the first [t]
    time steps. *)
Theorem lstm_ref_causal {F : Type} `{Scalar F}
  (B T n_in n_hid L t : nat) (x x' h_0 c_0 : list (list (list F)))
  (W_ih W_hh : gmap Z (list (list F))) (b_ih b_hh : gmap Z (list F))
  (seq_lengths : IntArray) (dropout : float) :
  PrimFloat.eqb dropout 0%float = true ->
  (0 < B)%nat -> (0 < T)%nat -> (0 < n_in)%nat -> (0 < n_hid)%nat ->
  (0 < L)%nat ->
  is_tensor3 B T n_in x -> is_tensor3 B T n_in x' ->
  is_tensor3 L B n_hid h_0 -> is_tensor3 L B n_hid c_0 ->
  (forall l, 0 <= l < Z.of_nat L ->
     weights_shaped W_ih W_hh b_ih b_hh (Z.of_nat n_in) (Z.of_nat n_hid)
       false l) ->
  map (take t) x = map (take t) x' ->
  exists y h_n c_n y' h_n' c_n',
    lstm_ref x h_0 c_0 W_ih W_hh b_ih b_hh seq_lengths
      (Z.of_nat n_in) (Z.of_nat n_hid) (Z.of_nat L) dropout false =
      Ok (y, h_n, c_n) /\
    lstm_ref x' h_0 c_0 W_ih W_hh b_ih b_hh seq_lengths
      (Z.of_nat n_in) (Z.of_nat n_hid) (Z.of_nat L) dropout false =
      Ok (y', h_n', c_n') /\
    map (take t) y = map (take t) y'.
Proof.
  intros Hd HB HT Hin Hhid HL Hx Hx' Hh0 Hc0 HW Hagree.
  destruct (causal_loop B T n_in n_hid L t x x' h_0 c_0 W_ih W_hh b_ih b_hh
              HB HT Hin Hhid Hx Hx' Hh0 Hc0 HW Hagree L ltac:(lia))
    as (s & s' & Hs & Hs' & Ss & Ss' & L1 & L2 & L3 & L4 & Heq).
  unfold lstm_ref. rewrite Hd. cbn [negb]. rewrite Hs, Hs'.
  cbn [mbind result_bind].
  destruct (final_h s) as [|fh fhs]; [simpl in L1; lia|].
  destruct (final_c s) as [|fc fcs]; [simpl in L2; lia|].
  destruct (final_h s') as [|fh' fhs']; [simpl in L3; lia|].
  destruct (final_c s') as [|fc' fcs']; [simpl in L4; lia|].
  cbn [stack mbind result_bind].
  eexists _, _, _, _, _, _. split; [reflexivity|]. split; [reflexivity|].
  destruct L as [|L']; [lia|].
  destruct Ss as [Ls Ss], Ss' as [Ls' Ss'].
  assert (Hrows : forall m : list (list (list F)),
             Forall (is_matrix B n_hid) m ->
             Forall (fun r => length r = B) m).
  { intros m Hm. eapply Forall_impl; [exact Hm|]. by intros r [Hr _]. }
  destruct t as [|t'].
  - rewrite !(const_fmap (take 0) _ []) by done.
    rewrite (length_transpose B), (length_transpose B); auto.
    + intros E. rewrite E in Ls'. simpl in Ls'. lia.
    + intros E. rewrite E in Ls. simpl in Ls. lia.
  - rewrite (take_transpose B), (take_transpose B); auto; try lia.
    + by rewrite Heq.
    + intros E. rewrite E in Ls'. simpl in Ls'. lia.
    + intros E. rewrite E in Ls. simpl in Ls. lia.
Qed.

Lemma lstm_ref_causal_witness :
  exists y h_n c_n y' h_n' c_n',
    lstm_ref [[[1%R]; [0%R]]] (small_state 0%R) (small_state 0%R)
      (small_W_ih 0%R 1%R) (small_W_hh 0%R) (small_bias 0%R)
      (small_bias 0%R) small_seq_lengths (Z.of_nat 1) (Z.of_nat 1)
      (Z.of_nat 2) 0%float false = Ok (y, h_n, c_n) /\
    lstm_ref [[[1%R]; [1%R]]] (small_state 0%R) (small_state 0%R)
      (small_W_ih 0%R 1%R) (small_W_hh 0%R) (small_bias 0%R)
      (small_bias 0%R) small_seq_lengths (Z.of_nat 1) (Z.of_nat 1)
      (Z.of_nat 2) 0%float false = Ok (y', h_n', c_n') /\
    map (take 1) y = map (take 1) y'.
Proof.
  apply (lstm_ref_causal 1 2 1 1 2 1 [[[1%R]; [0%R]]] [[[1%R]; [1%R]]]
           (small_state 0%R) (small_state 0%R) (small_W_ih 0%R 1%R)
           (small_W_hh 0%R) (small_bias 0%R) (small_bias 0%R)
           small_seq_lengths 0%float);
    try lia; try reflexivity;
    try (split; try reflexivity; repeat constructor).
  intros l Hl. apply small_weights_shaped. simpl in Hl. lia.
Defined.

(** ** Abstract evaluation of the forward kernel *)

(** X19. On an input abstract value of rank below 2, [rnn_abstract_eval] raises
    IndexError when it reads the batch size and the sequence length, before
    the sizes of the scratch buffers are asked for. *)
Theorem rnn_abstract_eval_low_rank
  (compute_rnn_workspace_reserve_space_sizes :
     Z -> Z -> Z -> Z -> Z -> float -> bool -> result (Z * Z))
  (x_aval h_0_aval c_0_aval w_aval seq_lengths_aval : core.ShapedArray)
  (input_size hidden_size num_layers : Z) (dropout : float)
  (bidirectional : bool) :
  (length (core.shape x_aval) < 2)%nat ->
  rnn_abstract_eval compute_rnn_workspace_reserve_space_sizes x_aval h_0_aval
    c_0_aval w_aval seq_lengths_aval input_size hidden_size num_layers
    dropout bidirectional = Raise IndexError.
Proof.
  intros Hrank. unfold rnn_abstract_eval.
  destruct (core.shape x_aval) as [|a [|b rest]]; [reflexivity|reflexivity|].
  simpl in Hrank. lia.
Qed.

Lemma rnn_abstract_eval_low_rank_witness :
  rnn_abstract_eval (fun _ _ _ _ _ _ _ => Ok (0, 0))
    (core.mkShapedArray [5] float32) (core.mkShapedArray [1; 5; 2] float32)
    (core.mkShapedArray [1; 5; 2] float32) (core.mkShapedArray [40] float32)
    (core.mkShapedArray [5] (integer int32)) 3 2 1 0%float false
  = Raise IndexError.
Proof.
  apply (rnn_abstract_eval_low_rank (fun _ _ _ _ _ _ _ => Ok (0, 0))
           (core.mkShapedArray [5] float32)
           (core.mkShapedArray [1; 5; 2] float32)
           (core.mkShapedArray [1; 5; 2] float32)
           (core.mkShapedArray [40] float32)
           (core.mkShapedArray [5] (integer int32)) 3 2 1 0%float false).
  simpl. lia.
Defined.

(** X20. The abstract evaluation of the forward kernel declares the shapes the
    reference produces: on arrays of the shapes the docstring of [lstm]
    lists, described by abstract values of those shapes, [lstm_ref] returns
    and so does [rnn_abstract_eval] when the scratch sizes are available,
    and [y], [h_n] and [c_n] of the reference have the shapes of the
    abstract values declared for them. *)
Theorem abstract_eval_matches_reference {F : Type} `{Scalar F}
  (compute_rnn_workspace_reserve_space_sizes :
     Z -> Z -> Z -> Z -> Z -> float -> bool -> result (Z * Z))
  (B T n_in n_hid L : nat) (x h_0 c_0 : list (list (list F)))
  (W_ih W_hh : gmap Z (list (list F))) (b_ih b_hh : gmap Z (list F))
  (seq_lengths : IntArray) (dropout : float) (bidirectional : bool)
  (x_aval h_0_aval c_0_aval w_aval seq_lengths_aval : core.ShapedArray)
  (workspace_size reserve_space_size : Z) :
  let npl := ((if bidirectional then 2 else 1) * L)%nat in
  PrimFloat.eqb dropout 0%float = true ->
  (0 < B)%nat -> (0 < T)%nat -> (0 < n_in)%nat -> (0 < n_hid)%nat ->
  (0 < L)%nat ->
  is_tensor3 B T n_in x ->
  is_tensor3 npl B n_hid h_0 -> is_tensor3 npl B n_hid c_0 ->
  (forall l, 0 <= l < Z.of_nat npl ->
     weights_shaped W_ih W_hh b_ih b_hh (Z.of_nat n_in) (Z.of_nat n_hid)
       bidirectional l) ->
  core.shape x_aval = [Z.of_nat B; Z.of_nat T; Z.of_nat n_in] ->
  core.shape h_0_aval = [Z.of_nat npl; Z.of_nat B; Z.of_nat n_hid] ->
  core.shape c_0_aval = [Z.of_nat npl; Z.of_nat B; Z.of_nat n_hid] ->
  compute_rnn_workspace_reserve_space_sizes (Z.of_nat n_in) (Z.of_nat n_hid)
    (Z.of_nat L) (Z.of_nat B) (Z.of_nat T) dropout bidirectional
    = Ok (workspace_size, reserve_space_size) ->
  exists y h_n c_n y_aval h_n_aval c_n_aval workspace_aval reserve_space_aval,
    lstm_ref x h_0 c_0 W_ih W_hh b_ih b_hh seq_lengths
      (Z.of_nat n_in) (Z.of_nat n_hid) (Z.of_nat L) dropout bidirectional
      = Ok (y, h_n, c_n) /\
    rnn_abstract_eval compute_rnn_workspace_reserve_space_sizes x_aval
      h_0_aval c_0_aval w_aval seq_lengths_aval
      (Z.of_nat n_in) (Z.of_nat n_hid) (Z.of_nat L) dropout bidirectional
      = Ok (y_aval, h_n_aval, c_n_aval, workspace_aval, reserve_space_aval)
    /\
    tensor_of_shape (core.shape y_aval) y /\
    core.dtype y_aval = core.dtype x_aval /\
    tensor_of_shape (core.shape h_n_aval) h_n /\
    tensor_of_shape (core.shape c_n_aval) c_n.
Proof.
  intros npl Hd HB HT Hin Hhid HL Hx Hh0 Hc0 HW Sx Sh Sc Hsizes.
  unfold rnn_abstract_eval. rewrite Sx.
  change (list_index [Z.of_nat B; Z.of_nat T; Z.of_nat n_in] 0)
    with (Ok (A:=Z) (Z.of_nat B)).
  change (list_index [Z.of_nat B; Z.of_nat T; Z.of_nat n_in] 1)
    with (Ok (A:=Z) (Z.of_nat T)).
  cbn [mbind result_bind]. rewrite Hsizes. cbn [mbind result_bind].
  subst npl. destruct bidirectional.
  - destruct (bidirectional_run B T n_in n_hid L x h_0 c_0 W_ih W_hh b_ih
                b_hh HB HT Hin Hhid Hx Hh0 Hc0 seq_lengths dropout Hd HL HW)
      as (y & h_n & c_n & _ & _ & Hrun & Sy & Shn & Scn & _).
    eexists y, h_n, c_n, _, _, _, _, _.
    split; [exact Hrun|]. split; [reflexivity|].
    rewrite Sh, Sc. cbn [core.shape core.dtype tensor_of_shape].
    rewrite !Nat2Z.id.
    replace (Z.to_nat (2 * Z.of_nat n_hid)) with (2 * n_hid)%nat by lia.
    done.
  - rewrite Nat.mul_1_l in *.
    destruct (unidirectional_run B T n_in n_hid L x h_0 c_0 W_ih W_hh b_ih
                b_hh HB HT Hin Hhid Hx Hh0 Hc0 seq_lengths dropout Hd HL HW)
      as (y & h_n & c_n & _ & Hrun & Sy & Shn & Scn & _).
    eexists y, h_n, c_n, _, _, _, _, _.
    split; [exact Hrun|]. split; [reflexivity|].
    rewrite Sh, Sc. cbn [core.shape core.dtype tensor_of_shape].
    rewrite !Nat2Z.id.
    replace (Z.to_nat (1 * Z.of_nat n_hid)) with n_hid by lia.
    done.
Qed.

Lemma abstract_eval_matches_reference_witness :
  exists y h_n c_n y_aval h_n_aval c_n_aval workspace_aval reserve_space_aval,
    lstm_ref (small_x 0%R 1%R) (small_state 0%R) (small_state 0%R)
      (small_W_ih 0%R 1%R) (small_W_hh 0%R) (small_bias 0%R)
      (small_bias 0%R) small_seq_lengths (Z.of_nat 1) (Z.of_nat 1)
      (Z.of_nat 1) 0%float true = Ok (y, h_n, c_n) /\
    rnn_abstract_eval (fun _ _ _ _ _ _ _ => Ok (64, 128))
      (core.mkShapedArray [1; 2; 1] float32)
      (core.mkShapedArray [2; 1; 1] float32)
      (core.mkShapedArray [2; 1; 1] float32)
      (core.mkShapedArray [32] float32)
      (core.mkShapedArray [1] (integer int32))
      (Z.of_nat 1) (Z.of_nat 1) (Z.of_nat 1) 0%float true
      = Ok (y_aval, h_n_aval, c_n_aval, workspace_aval, reserve_space_aval)
    /\
    tensor_of_shape (core.shape y_aval) y /\
    core.dtype y_aval = core.dtype (core.mkShapedArray [1; 2; 1] float32) /\
    tensor_of_shape (core.shape h_n_aval) h_n /\
    tensor_of_shape (core.shape c_n_aval) c_n.
Proof.
  apply (abstract_eval_matches_reference (fun _ _ _ _ _ _ _ => Ok (64, 128))
           1 2 1 1 1 (small_x 0%R 1%R) (small_state 0%R) (small_state 0%R)
           (small_W_ih 0%R 1%R) (small_W_hh 0%R) (small_bias 0%R)
           (small_bias 0%R) small_seq_lengths 0%float true
           (core.mkShapedArray [1; 2; 1] float32)
           (core.mkShapedArray [2; 1; 1] float32)
           (core.mkShapedArray [2; 1; 1] float32)
           (core.mkShapedArray [32] float32)
           (core.mkShapedArray [1] (integer int32)) 64 128);
    try lia; try reflexivity;
    try (split; try reflexivity; repeat constructor).
  intros l Hl. apply small_weights_shaped. simpl in Hl. lia.
Defined.

(** ** From the packed buffer to the reference LSTM *)

Section Built.
Context {E : Type}.
Variable weights : list E.
Variable flat_shapes : list Shape.
Variable sh : Z * weight_kind -> Shape.

Local Abbreviation len := (Z.of_nat (length weights)).
Local Abbreviation run tasks :=
  (for_each tasks (fun t => unpack_assign weights flat_shapes (fst t) (snd t))).
Local Abbreviation sizes tasks := (map (fun t => prod (sh t)) tasks).

(** One assignment stores [weights[lo:hi].reshape(shape)]. *)
Lemma unpack_assign_built (l : Z) (k : weight_kind) (s : unpack_state E) :
  shapes_ahead flat_shapes sh s [(l, k)] ->
  Forall (fun d => 0 <= d) (sh (l, k)) ->
  0 <= w_offsets s ->
  w_offsets s + prod (sh (l, k)) <= len ->
  exists s',
    unpack_assign weights flat_shapes l k s = Ok s' /\
    dict_of k s' =
      <[l := mkArray (sh (l, k))
               (build (map Z.to_nat (sh (l, k)))
                  (slice weights (w_offsets s)
                     (w_offsets s + prod (sh (l, k)))))]> (dict_of k s) /\
    Z.of_nat (length (slice weights (w_offsets s)
                        (w_offsets s + prod (sh (l, k)))))
      = prod (sh (l, k)).
Proof.
  intros [Hoff Hsh] Hnn Ho Hfit.
  pose proof (prod_nonneg _ Hnn) as Hp.
  specialize (Hsh 0%nat (l, k) eq_refl). rewrite Nat.add_0_r in Hsh.
  apply list_index_lookup in Hsh; [|exact Hoff].
  pose proof (slice_length weights (w_offsets s) (prod (sh (l, k)))
                ltac:(lia) Hp) as Hsl.
  unfold unpack_assign. rewrite Hsh. cbn [mbind result_bind w_offsets].
  rewrite reshape_nonneg by exact Hnn.
  destruct (Z.eqb_spec (prod (sh (l, k)))
              (Z.of_nat (length (slice weights (w_offsets s)
                                   (w_offsets s + prod (sh (l, k)))))))
    as [Hlen|Hlen]; [|lia].
  cbn [mbind result_bind].
  eexists. split; [reflexivity|]. split; [by destruct k|lia].
Qed.

Lemma walk_built (tasks : list (Z * weight_kind)) (s : unpack_state E) :
  shapes_ahead flat_shapes sh s tasks ->
  Forall (fun t => Forall (fun d => 0 <= d) (sh t)) tasks ->
  0 <= w_offsets s ->
  w_offsets s + sum (sizes tasks) <= len ->
  NoDup tasks ->
  exists s',
    run tasks s = Ok s' /\
    forall t, t ∈ tasks ->
      exists data,
        dict_of (snd t) s' !! fst t =
          Some (mkArray (sh t) (build (map Z.to_nat (sh t)) data)) /\
        Z.of_nat (length data) = prod (sh t).
Proof.
  revert s. induction tasks as [|[l k] tasks IH];
    intros s Hsh Hnn Ho Hfit Hnd.
  - exists s. split; [reflexivity|]. intros t Ht. by apply elem_of_nil in Ht.
  - apply Forall_cons in Hnn as [Hnn1 Hnn].
    apply NoDup_cons in Hnd as [Hnot Hnd].
    cbn [map] in Hfit. rewrite sum_cons in Hfit.
    pose proof (prod_nonneg _ Hnn1) as Hp.
    assert (Hs : 0 <= sum (sizes tasks)).
    { apply sum_nonneg, Forall_fmap. eapply Forall_impl; [exact Hnn|].
      intros t Ht. apply prod_nonneg, Ht. }
    destruct (unpack_assign_built l k s) as (s1 & Hrun1 & Hk & Hlen);
      [eapply shapes_ahead_head, Hsh | done | done | lia |].
    destruct (unpack_assign_enough weights flat_shapes sh l k s) as
        (s1' & arr & Hrun1' & Hfso & Hwo & _);
      [eapply shapes_ahead_head, Hsh | done | done | lia |].
    rewrite Hrun1 in Hrun1'. injection Hrun1' as <-.
    assert (Hsh1 : shapes_ahead flat_shapes sh s1 tasks)
      by (eapply (shapes_ahead_tail _ _ s); [exact Hsh | exact Hfso]).
    destruct (IH s1 Hsh1 Hnn ltac:(lia) ltac:(lia) Hnd) as (s' & Hrun & Hin).
    destruct (walk_enough weights flat_shapes sh tasks s1 Hsh1 Hnn
                ltac:(lia) ltac:(lia)) as (s'' & Hrun' & _ & _ & _ & Hout & _).
    rewrite Hrun in Hrun'. injection Hrun' as <-.
    exists s'. split; [cbn [for_each fst snd]; rewrite Hrun1; exact Hrun|].
    intros t Ht. apply elem_of_cons in Ht as [->|Ht].
    + eexists. split; [|exact Hlen].
      rewrite (Hout _ Hnot). cbn [fst snd].
      by rewrite Hk, lookup_insert_eq.
    + by apply Hin.
Qed.

End Built.

Section Views.
Context {E : Type}.

Lemma scalars_of_singletons (c : nat) (data : list E) :
  length data = c ->
  mapM scalar_of (map (build []) (chunks c 1 data)) = Some data.
Proof.
  revert data. induction c as [|c IH]; intros data Hlen.
  - by destruct data.
  - destruct data as [|x data]; [discriminate|].
    cbn [chunks take drop map build]. rewrite mapM_Some.
    constructor; [reflexivity|]. apply mapM_Some, IH. simpl in Hlen. lia.
Qed.

Lemma entries_of_build (c : nat) (data : list E) :
  length data = c -> entries_of (build [c] data) = Some data.
Proof. intros Hlen. cbn [build entries_of]. by apply scalars_of_singletons. Qed.

Lemma rows_of_build (r c : nat) (data : list E) :
  length data = (r * c)%nat ->
  rows_of (build [r; c] data) = Some (chunks r c data).
Proof.
  intros Hlen. cbn [build rows_of size_of foldr].
  rewrite Nat.mul_1_r.
  pose proof (chunks_lengths r c data Hlen) as Hall.
  rewrite mapM_Some. apply Forall2_fmap_l, Forall_Forall2_diag.
  eapply Forall_impl; [exact Hall|]. intros chunk Hc.
  by apply (entries_of_build c).
Qed.

Lemma length_chunks (n size : nat) (data : list E) :
  length (chunks n size data) = n.
Proof.
  revert data. induction n as [|n IH]; intros data; [done|].
  cbn [chunks length]. by rewrite IH.
Qed.

(** A stored matrix, read as rows. *)
Lemma as_matrix_built (r c : Z) (data : list E) :
  0 <= r -> 0 <= c -> Z.of_nat (length data) = prod [r; c] ->
  exists m,
    as_matrix (mkArray [r; c] (build (map Z.to_nat [r; c]) data)) = Some m /\
    matrix_of_shape [r; c] m.
Proof.
  intros Hr Hc Hlen. rewrite prod_pair in Hlen.
  assert (Hl : length data = (Z.to_nat r * Z.to_nat c)%nat) by nia.
  exists (chunks (Z.to_nat r) (Z.to_nat c) data). split.
  - unfold as_matrix. cbn [items map]. by apply rows_of_build.
  - cbn [matrix_of_shape]. split; [apply length_chunks|].
    by apply chunks_lengths.
Qed.

(** A stored vector, read as a list. *)
Lemma as_vector_built (n : Z) (data : list E) :
  0 <= n -> Z.of_nat (length data) = prod [n] ->
  exists v,
    as_vector (mkArray [n] (build (map Z.to_nat [n]) data)) = Some v /\
    vector_of_shape [n] v.
Proof.
  intros Hn Hlen. rewrite prod_single in Hlen.
  exists data. split.
  - unfold as_vector. cbn [items map]. apply entries_of_build. lia.
  - cbn [vector_of_shape]. lia.
Qed.

End Views.

Section Unpacked.
Context {E : Type}.
Variables (weights : list E).
Variables (input_size hidden_size num_layers : Z) (bidirectional : bool).
Hypothesis Hvalid : valid_config input_size hidden_size num_layers.
Hypothesis Hlen :
  get_num_params_in_lstm input_size hidden_size num_layers bidirectional
    <= Z.of_nat (length weights).

(** The arrays [unpack_lstm_weights] stores, read as rows, are weights of
    the shapes of the calculator under every pseudo-layer index. *)
Lemma unpacked_shaped :
  exists W_ih W_hh b_ih b_hh,
    unpack_lstm_weights weights input_size hidden_size num_layers
      bidirectional = Ok (W_ih, W_hh, b_ih, b_hh) /\
    forall l, 0 <= l < num_pseudo_layers_of num_layers bidirectional ->
      weights_shaped (omap as_matrix W_ih) (omap as_matrix W_hh)
        (omap as_vector b_ih) (omap as_vector b_hh)
        input_size hidden_size bidirectional l.
Proof.
  destruct Hvalid as (Hi & Hh & Hn).
  pose proof Hlen as Hfit. rewrite num_params_tasks in Hfit.
  pose proof (tasks_nonneg input_size hidden_size num_layers bidirectional
                Hi Hh) as Hnn.
  pose proof (shapes_ahead_start (E:=E) input_size hidden_size num_layers
                bidirectional) as Hsh.
  destruct (walk_built weights _ _ _ _ Hsh Hnn ltac:(simpl; lia)
              ltac:(simpl; lia) (unpack_tasks_NoDup _))
    as (s & Hrun & Hstored).
  exists (W_ih s), (W_hh s), (b_ih s), (b_hh s).
  unfold unpack_lstm_weights. rewrite unpack_walk_tasks, Hrun.
  split; [reflexivity|]. intros l Hl.
  destruct (unpack_tasks_lookup _ l Hl) as (T1 & T2 & T3 & T4).
  apply list_elem_of_lookup_2 in T1, T2, T3, T4.
  destruct (Hstored _ T1) as (d1 & A1 & L1).
  destruct (Hstored _ T2) as (d2 & A2 & L2).
  destruct (Hstored _ T3) as (d3 & A3 & L3).
  destruct (Hstored _ T4) as (d4 & A4 & L4).
  cbn [fst snd dict_of] in A1, A2, A3, A4.
  unfold shape_of in *. cbn [fst snd] in *.
  assert (Hd : 0 <= (if bidirectional then 2 else 1) * hidden_size)
    by (destruct bidirectional; lia).
  assert (M1 : exists m,
             as_matrix
               (mkArray (_W_ih_l l input_size hidden_size bidirectional)
                  (build (map Z.to_nat
                            (_W_ih_l l input_size hidden_size bidirectional))
                     d1)) = Some m /\
             matrix_of_shape
               (_W_ih_l l input_size hidden_size bidirectional) m).
  { unfold _W_ih_l in *.
    destruct ((l =? 0) || ((l =? 1) && bidirectional));
      apply as_matrix_built; try done; lia. }
  destruct M1 as (m1 & V1 & S1).
  destruct (as_matrix_built (4 * hidden_size) hidden_size d2
              ltac:(lia) Hh L2) as (m2 & V2 & S2).
  destruct (as_vector_built (4 * hidden_size) d3 ltac:(lia) L3)
    as (v3 & V3 & S3).
  destruct (as_vector_built (4 * hidden_size) d4 ltac:(lia) L4)
    as (v4 & V4 & S4).
  exists m1, m2, v3, v4. rewrite !lookup_omap, A1, A2, A3, A4.
  cbn [mbind option_bind]. unfold _W_hh_l, _b_ih_l, _b_hh_l in *.
  by rewrite V1, V2, V3, V4.
Qed.

End Unpacked.

(** X15. For a valid configuration and a buffer at least
    [get_num_params_in_lstm] long, the arrays that [unpack_lstm_weights]
    stores are, read as rows, what [lstm_ref] expects: every pseudo-layer
    index has a [W_ih], [W_hh], [b_ih] and [b_hh] of the shapes the four
    shape functions give. *)
Theorem unpacked_weights_shaped {E : Type} (weights : list E)
  (input_size hidden_size num_layers : Z) (bidirectional : bool) :
  valid_config input_size hidden_size num_layers ->
  get_num_params_in_lstm input_size hidden_size num_layers bidirectional
    <= Z.of_nat (length weights) ->
  exists W_ih W_hh b_ih b_hh,
    unpack_lstm_weights weights input_size hidden_size num_layers
      bidirectional = Ok (W_ih, W_hh, b_ih, b_hh) /\
    forall l, 0 <= l < num_pseudo_layers_of num_layers bidirectional ->
      weights_shaped (omap as_matrix W_ih) (omap as_matrix W_hh)
        (omap as_vector b_ih) (omap as_vector b_hh)
        input_size hidden_size bidirectional l.
Proof. intros Hv Hl. by apply unpacked_shaped. Qed.

Lemma unpacked_weights_shaped_witness :
  exists W_ih W_hh b_ih b_hh,
    unpack_lstm_weights
      [3; 1; 4; 1; 5; 9; 2; 6; 5; 3; 5; 8; 9; 7; 9; 3; 2] 1 1 1 false
      = Ok (W_ih, W_hh, b_ih, b_hh) /\
    forall l, 0 <= l < num_pseudo_layers_of 1 false ->
      weights_shaped (omap as_matrix W_ih) (omap as_matrix W_hh)
        (omap as_vector b_ih) (omap as_vector b_hh) 1 1 false l.
Proof.
  apply (unpacked_weights_shaped
           [3; 1; 4; 1; 5; 9; 2; 6; 5; 3; 5; 8; 9; 7; 9; 3; 2] 1 1 1 false).
  - unfold valid_config. lia.
  - discriminate.
Defined.

(** X16. The whole path from the packed buffer to the outputs: with dropout
    0, at least one layer, arrays of the shapes the docstring of [lstm]
    lists and a buffer at least [get_num_params_in_lstm] long,
    [unpack_lstm_weights] returns four dicts on which [lstm_ref] returns
    [y], [h_n] and [c_n] of the documented shapes. *)
Theorem lstm_ref_on_unpacked_weights {F : Type} `{Scalar F}
  (B T n_in n_hid L : nat) (weights : list F)
  (x h_0 c_0 : list (list (list F)))
  (seq_lengths : IntArray) (dropout : float) (bidirectional : bool) :
  let d := (if bidirectional then 2 else 1)%nat in
  PrimFloat.eqb dropout 0%float = true ->
  (0 < B)%nat -> (0 < T)%nat -> (0 < n_in)%nat -> (0 < n_hid)%nat ->
  (0 < L)%nat ->
  is_tensor3 B T n_in x ->
  is_tensor3 (d * L) B n_hid h_0 -> is_tensor3 (d * L) B n_hid c_0 ->
  get_num_params_in_lstm (Z.of_nat n_in) (Z.of_nat n_hid) (Z.of_nat L)
    bidirectional <= Z.of_nat (length weights) ->
  exists W_ih W_hh b_ih b_hh y h_n c_n,
    unpack_lstm_weights weights (Z.of_nat n_in) (Z.of_nat n_hid)
      (Z.of_nat L) bidirectional = Ok (W_ih, W_hh, b_ih, b_hh) /\
    lstm_ref x h_0 c_0 (omap as_matrix W_ih) (omap as_matrix W_hh)
      (omap as_vector b_ih) (omap as_vector b_hh) seq_lengths
      (Z.of_nat n_in) (Z.of_nat n_hid) (Z.of_nat L) dropout bidirectional
      = Ok (y, h_n, c_n) /\
    is_tensor3 B T (d * n_hid) y /\
    is_tensor3 (d * L) B n_hid h_n /\ is_tensor3 (d * L) B n_hid c_n.
Proof.
  intros d Hd HB HT Hin Hhid HL Hx Hh0 Hc0 Hlen. subst d.
  destruct (unpacked_shaped weights (Z.of_nat n_in) (Z.of_nat n_hid)
              (Z.of_nat L) bidirectional) as
      (W_ih & W_hh & b_ih & b_hh & Hunpack & HW);
    [unfold valid_config; lia | exact Hlen |].
  exists W_ih, W_hh, b_ih, b_hh. unfold num_pseudo_layers_of in HW.
  destruct bidirectional.
  - destruct (bidirectional_run B T n_in n_hid L x h_0 c_0
                (omap as_matrix W_ih) (omap as_matrix W_hh)
                (omap as_vector b_ih) (omap as_vector b_hh)
                HB HT Hin Hhid Hx Hh0 Hc0 seq_lengths dropout Hd HL)
      as (y & h_n & c_n & _ & _ & Hrun & Sy & Shn & Scn & _).
    { intros l Hl. apply HW. lia. }
    by exists y, h_n, c_n.
  - rewrite !Nat.mul_1_l in *.
    destruct (unidirectional_run B T n_in n_hid L x h_0 c_0
                (omap as_matrix W_ih) (omap as_matrix W_hh)
                (omap as_vector b_ih) (omap as_vector b_hh)
                HB HT Hin Hhid Hx Hh0 Hc0 seq_lengths dropout Hd HL)
      as (y & h_n & c_n & _ & Hrun & Sy & Shn & Scn & _).
    { intros l Hl. apply HW. lia. }
    by exists y, h_n, c_n.
Qed.

Lemma lstm_ref_on_unpacked_weights_witness :
  exists W_ih W_hh b_ih b_hh y h_n c_n,
    unpack_lstm_weights
      [0; 0; 1; 0; 0; 0; 0; 0; 0; 0; 0; 0; 0; 0; 0; 0]%R
      (Z.of_nat 1) (Z.of_nat 1) (Z.of_nat 1) false
      = Ok (W_ih, W_hh, b_ih, b_hh) /\
    lstm_ref (small_x 0%R 1%R) [[[0%R]]] [[[0%R]]]
      (omap as_matrix W_ih) (omap as_matrix W_hh)
      (omap as_vector b_ih) (omap as_vector b_hh) small_seq_lengths
      (Z.of_nat 1) (Z.of_nat 1) (Z.of_nat 1) 0%float false
      = Ok (y, h_n, c_n) /\
    is_tensor3 1 2 (1 * 1) y /\
    is_tensor3 (1 * 1) 1 1 h_n /\ is_tensor3 (1 * 1) 1 1 c_n.
Proof.
  apply (lstm_ref_on_unpacked_weights 1 2 1 1 1
           [0; 0; 1; 0; 0; 0; 0; 0; 0; 0; 0; 0; 0; 0; 0; 0]%R
           (small_x 0%R 1%R) [[[0%R]]] [[[0%R]]] small_seq_lengths
           0%float false);
    try lia; try reflexivity;
    try (split; try reflexivity; repeat constructor).
Defined.

(** ** Round trip on a longer buffer *)

(** X5. For a valid configuration and a buffer at least
    [get_num_params_in_lstm] long, flattening the arrays that
    [unpack_lstm_weights] returns and concatenating them in the unpack order
    gives the first [get_num_params_in_lstm] elements of the buffer: what
    lies beyond them is dropped. *)
Theorem unpack_pack_prefix {E : Type} (weights : list E)
  (input_size hidden_size num_layers : Z) (bidirectional : bool) :
  valid_config input_size hidden_size num_layers ->
  get_num_params_in_lstm input_size hidden_size num_layers bidirectional
    <= Z.of_nat (length weights) ->
  exists maps,
    unpack_lstm_weights weights input_size hidden_size num_layers
      bidirectional = Ok maps /\
    pack (num_pseudo_layers_of num_layers bidirectional) maps =
      Some (take (Z.to_nat (get_num_params_in_lstm input_size hidden_size
                              num_layers bidirectional)) weights).
Proof.
  intros (Hi & Hh & Hn) Hlen.
  rewrite num_params_tasks in *.
  unfold unpack_lstm_weights. rewrite unpack_walk_tasks.
  destruct (walk_enough weights _ _ _ _
              (shapes_ahead_start input_size hidden_size num_layers
                 bidirectional)
              (tasks_nonneg input_size hidden_size num_layers bidirectional
                 Hi Hh))
    as (s & -> & _ & _ & _ & _ & Hpieces); [simpl; lia | simpl; lia |].
  eexists. split; [reflexivity|].
  destruct (Hpieces (unpack_tasks_NoDup _)) as (pieces & Hm & Hcat).
  simpl in Hcat. rewrite drop_0 in Hcat.
  apply mapM_app_Some in Hm as (p1 & p2 & Hm1 & Hm2 & ->).
  apply mapM_pack_pair in Hm1 as (j1 & Hj1 & Hc1).
  apply mapM_pack_pair in Hm2 as (j2 & Hj2 & Hc2).
  unfold pack. simpl in Hj1, Hj2. rewrite Hj1. simpl. rewrite Hj2. simpl.
  by rewrite Hc1, Hc2, <- concat_app, Hcat.
Qed.

Lemma unpack_pack_prefix_witness :
  exists maps,
    unpack_lstm_weights
      [3; 1; 4; 1; 5; 9; 2; 6; 5; 3; 5; 8; 9; 7; 9; 3; 2; 3] 1 1 1 false
      = Ok maps /\
    pack (num_pseudo_layers_of 1 false) maps =
      Some (take (Z.to_nat (get_num_params_in_lstm 1 1 1 false))
              [3; 1; 4; 1; 5; 9; 2; 6; 5; 3; 5; 8; 9; 7; 9; 3; 2; 3]).
Proof.
  apply (unpack_pack_prefix
           [3; 1; 4; 1; 5; 9; 2; 6; 5; 3; 5; 8; 9; 7; 9; 3; 2; 3]
           1 1 1 false).
  - unfold valid_config. lia.
  - discriminate.
Defined.

(** ** Any number of layers, one direction *)

Section Stacked.
Context {F : Type} `{Scalar F}.
Variables (h_0 c_0 : list (list (list F))).
Variables (W_ih W_hh : gmap Z (list (list F))) (b_ih b_hh : gmap Z (list F)).

(** The loop over the layers [k, k + 1, ...] is the stack of those
    layers. *)
Lemma stacked_loop (layers : list (layer_params F)) (k : nat)
  (s : ref_state F) :
  (forall l p, layers !! l = Some p ->
     layer_at h_0 c_0 W_ih W_hh b_ih b_hh (k + l) p) ->
  for_each (map Z.of_nat (seq k (length layers)))
    (ref_layer h_0 c_0 W_ih W_hh b_ih b_hh) s =
  let '(ys, (h_ns, c_ns)) := stacked_recurrence layers (seq_first_y s) in
  Ok (mkRef ys (seq_first_y_fwd s) (final_h s ++ h_ns) (final_c s ++ c_ns)).
Proof.
  revert k s. induction layers as [|p layers IH]; intros k s Hat.
  - cbn [length seq map for_each stacked_recurrence].
    rewrite !app_nil_r. by destruct s.
  - destruct (Hat 0%nat p eq_refl) as (H1 & H2 & H3 & H4 & H5 & H6).
    rewrite Nat.add_0_r in *.
    cbn [length seq map for_each stacked_recurrence].
    rewrite (ref_layer_present h_0 c_0 W_ih W_hh b_ih b_hh (Z.of_nat k)
               (layer_W_ih p) (layer_W_hh p) (layer_b_ih p) (layer_b_hh p)
               (layer_h_0 p) (layer_c_0 p))
      by (try done; by rewrite Nat2Z.id).
    cbv zeta. cbn [mbind result_bind].
    destruct (layer_recurrence _ _ _ _ _ _ (seq_first_y s))
      as [hs [h_n c_n]].
    rewrite IH.
    + cbn [seq_first_y seq_first_y_fwd final_h final_c fst snd].
      destruct (stacked_recurrence layers hs) as [ys [h_ns c_ns]].
      by rewrite <- !app_assoc.
    + intros l q Hq. specialize (Hat (S l) q Hq).
      by replace (S k + l)%nat with (k + S l)%nat by lia.
Qed.

End Stacked.

(** X8. With one direction, dropout 0 and any number [L >= 1] of layers, on
    arrays of the shapes the docstring of [lstm] lists and weights of the
    shapes the calculator gives, [lstm_ref] is the stack of the layers:
    layer 0 runs the recurrence over [x], every other layer over the hidden
    sequence of the layer below; [y] is the hidden sequence of the top
    layer, and [h_n], [c_n] list the final states in layer order. *)
Theorem stacked_layers {F : Type} `{Scalar F} (B T n_in n_hid : nat)
  (x h_0 c_0 : list (list (list F)))
  (W_ih W_hh : gmap Z (list (list F))) (b_ih b_hh : gmap Z (list F))
  (seq_lengths : IntArray) (dropout : float)
  (layers : list (layer_params F)) :
  PrimFloat.eqb dropout 0%float = true ->
  (0 < B)%nat -> (0 < T)%nat -> (0 < n_in)%nat -> (0 < n_hid)%nat ->
  layers ≠ [] ->
  is_tensor3 B T n_in x ->
  is_tensor3 (length layers) B n_hid h_0 ->
  is_tensor3 (length layers) B n_hid c_0 ->
  (forall l, 0 <= l < Z.of_nat (length layers) ->
     weights_shaped W_ih W_hh b_ih b_hh (Z.of_nat n_in) (Z.of_nat n_hid)
       false l) ->
  (forall l p, layers !! l = Some p ->
     layer_at h_0 c_0 W_ih W_hh b_ih b_hh l p) ->
  lstm_ref x h_0 c_0 W_ih W_hh b_ih b_hh seq_lengths
    (Z.of_nat n_in) (Z.of_nat n_hid) (Z.of_nat (length layers)) dropout false
  =
  let '(ys, (h_n, c_n)) := stacked_recurrence layers (transpose x) in
  Ok (transpose ys, h_n, c_n).
Proof.
  intros Hd _ _ _ _ Hne _ _ _ _ Hat. unfold lstm_ref. rewrite Hd. cbn [negb].
  unfold range. rewrite Nat2Z.id.
  rewrite (stacked_loop h_0 c_0 W_ih W_hh b_ih b_hh layers 0) by exact Hat.
  cbn [seq_first_y seq_first_y_fwd final_h final_c app].
  destruct layers as [|p layers]; [done|].
  cbn [stacked_recurrence].
  destruct (layer_recurrence _ _ _ _ _ _ (transpose x)) as [hs [h_n c_n]].
  by destruct (stacked_recurrence layers hs) as [ys [h_ns c_ns]].
Qed.

Lemma stacked_layers_witness :
  lstm_ref (small_x 0%R 1%R) (small_state 0%R) (small_state 0%R)
    (small_W_ih 0%R 1%R) (small_W_hh 0%R) (small_bias 0%R) (small_bias 0%R)
    small_seq_lengths (Z.of_nat 1) (Z.of_nat 1)
    (Z.of_nat
       (length
          [mkLayer (small_wih 0%R 1%R) (small_whh 0%R) (small_b 0%R)
             (small_b 0%R) [[0%R]] [[0%R]];
           mkLayer (small_wih 0%R 1%R) (small_whh 0%R) (small_b 0%R)
             (small_b 0%R) [[0%R]] [[0%R]]]))
    0%float false =
  let '(ys, (h_n, c_n)) :=
    stacked_recurrence
      [mkLayer (small_wih 0%R 1%R) (small_whh 0%R) (small_b 0%R)
         (small_b 0%R) [[0%R]] [[0%R]];
       mkLayer (small_wih 0%R 1%R) (small_whh 0%R) (small_b 0%R)
         (small_b 0%R) [[0%R]] [[0%R]]]
      (transpose (small_x 0%R 1%R)) in
  Ok (transpose ys, h_n, c_n).
Proof.
  apply (stacked_layers 1 2 1 1 (small_x 0%R 1%R) (small_state 0%R)
           (small_state 0%R) (small_W_ih 0%R 1%R) (small_W_hh 0%R)
           (small_bias 0%R) (small_bias 0%R) small_seq_lengths 0%float
           [mkLayer (small_wih 0%R 1%R) (small_whh 0%R) (small_b 0%R)
              (small_b 0%R) [[0%R]] [[0%R]];
            mkLayer (small_wih 0%R 1%R) (small_whh 0%R) (small_b 0%R)
              (small_b 0%R) [[0%R]] [[0%R]]]).
  - reflexivity.
  - lia.
  - lia.
  - lia.
  - lia.
  - discriminate.
  - split; [reflexivity|]. repeat constructor.
  - split; [reflexivity|]. repeat constructor.
  - split; [reflexivity|]. repeat constructor.
  - intros l Hl. apply small_weights_shaped. simpl in Hl. lia.
  - intros [|[|l]] p Hp; [| |discriminate];
      injection Hp as <-; repeat split; reflexivity.
Defined.

(** ** Batch elements do not interact *)

Lemma transpose_entry {A : Type} (c j : nat) (m : list (list A)) :
  m ≠ [] -> Forall (fun r => length r = c) m -> (j < c)%nat ->
  exists col,
    transpose m !! j = Some col /\
    forall i, col !! i = m !! i ≫= (fun r => r !! j).
Proof.
  intros Hm Hall Hj.
  destruct (transpose_lookup c j m Hm Hall Hj) as (col & Hcol & Hrel).
  exists col. split; [exact Hcol|]. intros i.
  destruct (m !! i) as [r|] eqn:Hr; cbn [mbind option_bind].
  - destruct (Forall2_lookup_l _ _ _ _ _ Hrel Hr) as (a & Ha & Hra).
    by rewrite Ha, Hra.
  - apply lookup_ge_None. apply lookup_ge_None in Hr.
    apply Forall2_length in Hrel. lia.
Qed.

(** Row [b] of the transposed array is determined by the rows [b] of the
    entries. *)
Lemma transpose_same_row {A : Type} (R C : nat) (b : nat)
  (t t' : list (list (list A))) :
  (0 < R)%nat ->
  length t = R -> length t' = R ->
  Forall (fun m => length m = C) t -> Forall (fun m => length m = C) t' ->
  same_row b t t' ->
  transpose t !! b = transpose t' !! b.
Proof.
  intros HR Ht Ht' Hall Hall' Hsame.
  assert (Hne : t ≠ []) by (intros ->; simpl in Ht; lia).
  assert (Hne' : t' ≠ []) by (intros ->; simpl in Ht'; lia).
  destruct (decide (b < C)%nat) as [Hb|Hb].
  - destruct (transpose_entry C b t Hne Hall Hb) as (col & -> & Hcol).
    destruct (transpose_entry C b t' Hne' Hall' Hb) as (col' & -> & Hcol').
    f_equal. apply list_eq. intros i. rewrite Hcol, Hcol'.
    unfold same_row in Hsame. rewrite Forall2_lookup in Hsame.
    specialize (Hsame i).
    destruct Hsame as [m m' Hmm|]; cbn [mbind option_bind]; done.
  - rewrite !(proj2 (lookup_ge_None _ _));
      [done | rewrite (length_transpose C) by done; lia
      | rewrite (length_transpose C) by done; lia].
Qed.

(** Row [b] of every time step of the time-major input is determined by
    batch element [b] of the batch-major input. *)
Lemma same_row_transpose {A : Type} (B T n : nat) (b : nat)
  (x x' : list (list (list A))) :
  (0 < B)%nat -> (0 < T)%nat ->
  is_tensor3 B T n x -> is_tensor3 B T n x' ->
  x !! b = x' !! b ->
  same_row b (transpose x) (transpose x').
Proof.
  intros HB HT [Hl Hx] [Hl' Hx'] Hb.
  assert (Hne : x ≠ []) by (intros ->; simpl in Hl; lia).
  assert (Hne' : x' ≠ []) by (intros ->; simpl in Hl'; lia).
  assert (Hall : Forall (fun m : list (list A) => length m = T) x).
  { eapply Forall_impl; [exact Hx|]. by intros m [Hm _]. }
  assert (Hall' : Forall (fun m : list (list A) => length m = T) x').
  { eapply Forall_impl; [exact Hx'|]. by intros m [Hm _]. }
  apply Forall2_same_length_lookup_2.
  - by rewrite (length_transpose T), (length_transpose T).
  - intros t col col' Hcol Hcol'.
    assert (Ht : (t < T)%nat).
    { apply lookup_lt_Some in Hcol.
      by rewrite (length_transpose T) in Hcol. }
    destruct (transpose_entry T t x Hne Hall Ht) as (c1 & Hc1 & Hcol1).
    destruct (transpose_entry T t x' Hne' Hall' Ht) as (c2 & Hc2 & Hcol2).
    rewrite Hcol in Hc1. injection Hc1 as <-.
    rewrite Hcol' in Hc2. injection Hc2 as <-.
    by rewrite Hcol1, Hcol2, Hb.
Qed.

Lemma scan_rel {C X Y : Type} (f : C -> X -> C * Y)
  (R : C -> C -> Prop) (Rx : X -> X -> Prop) (Ry : Y -> Y -> Prop)
  (xs xs' : list X) (init init' : C) :
  (forall c c' x x', R c c' -> Rx x x' ->
     R (fst (f c x)) (fst (f c' x')) /\ Ry (snd (f c x)) (snd (f c' x'))) ->
  R init init' -> Forall2 Rx xs xs' ->
  R (fst (scan f init xs)) (fst (scan f init' xs')) /\
  Forall2 Ry (snd (scan f init xs)) (snd (scan f init' xs')).
Proof.
  intros Hstep Hinit Hxs. revert init init' Hinit.
  induction Hxs as [|x x' xs xs' Hx Hxs IH]; intros init init' Hinit.
  - by split.
  - rewrite !scan_cons. cbn [fst snd].
    destruct (Hstep _ _ _ _ Hinit Hx) as [Hc Hy].
    destruct (IH _ _ Hc) as [Hc' Hys]. split; [exact Hc'|].
    by constructor.
Qed.

Section Rows.
Context {F : Type} `{Scalar F}.
Variables (b B n_hid : nat).
Hypothesis Hhid : (0 < n_hid)%nat.

Lemma batch_update_row (W_ih W_hh : list (list F)) (b_ih b_hh : list F)
  (h c x h' c' x' : list (list F)) :
  h !! b = h' !! b -> c !! b = c' !! b -> x !! b = x' !! b ->
  batch_update n_hid W_ih W_hh b_ih b_hh h c x !! b =
  batch_update n_hid W_ih W_hh b_ih b_hh h' c' x' !! b.
Proof.
  intros Hh Hc Hx. unfold batch_update.
  rewrite (lookup_zip_with _ (zip h c) x),
    (lookup_zip_with _ (zip h' c') x'),
    (lookup_zip_with pair h c), (lookup_zip_with pair h' c').
  by rewrite Hh, Hc, Hx.
Qed.

(** One step of the cell keeps the rows [b] of two runs equal. *)
Lemma lstm_cell_row (n : nat) (W_ih W_hh : list (list F))
  (b_ih b_hh : list F) (h c x h' c' x' : list (list F)) :
  (0 < n)%nat ->
  is_matrix (4 * n_hid) n W_ih -> is_matrix (4 * n_hid) n_hid W_hh ->
  length b_ih = (4 * n_hid)%nat -> length b_hh = (4 * n_hid)%nat ->
  agree_at b B n_hid h h' -> agree_at b B n_hid c c' ->
  agree_at b B n x x' ->
  let r := lstm_cell W_ih W_hh b_ih b_hh (h, c) x in
  let r' := lstm_cell W_ih W_hh b_ih b_hh (h', c') x' in
  agree_at b B n_hid (fst (fst r)) (fst (fst r')) /\
  agree_at b B n_hid (snd (fst r)) (snd (fst r')) /\
  agree_at b B n_hid (snd r) (snd r').
Proof.
  intros Hn Swih Swhh Sbih Sbhh (Sh & Sh' & Hh) (Sc & Sc' & Hc)
    (Sx & Sx' & Hx) r r'. subst r r'.
  destruct (lstm_cell_shapes n n_hid W_ih W_hh b_ih b_hh Hn Hhid
              Swih Swhh Sbih Sbhh B h c x (proj1 Sx) Sh Sc)
    as (S1 & S2 & S3).
  destruct (lstm_cell_shapes n n_hid W_ih W_hh b_ih b_hh Hn Hhid
              Swih Swhh Sbih Sbhh B h' c' x' (proj1 Sx') Sh' Sc')
    as (S1' & S2' & S3').
  repeat split; try apply S1; try apply S2; try apply S3;
    try apply S1'; try apply S2'; try apply S3'.
  all: rewrite !(lstm_cell_batch n n_hid W_ih W_hh b_ih b_hh Hn Hhid
                   Swih Swhh Sbih Sbhh)
    by (destruct Sh, Sc, Sx, Sh', Sc', Sx'; lia).
  all: cbv zeta; cbn [fst snd]; rewrite !list_lookup_fmap.
  all: by rewrite (batch_update_row W_ih W_hh b_ih b_hh h c x h' c' x').
Qed.

(** A scan of the cell keeps the rows [b] of two runs equal. *)
Lemma scan_cell_rows (n : nat) (W_ih W_hh : list (list F))
  (b_ih b_hh : list F) (h0 c0 h0' c0' : list (list F))
  (xs xs' : list (list (list F))) :
  (0 < n)%nat ->
  is_matrix (4 * n_hid) n W_ih -> is_matrix (4 * n_hid) n_hid W_hh ->
  length b_ih = (4 * n_hid)%nat -> length b_hh = (4 * n_hid)%nat ->
  agree_at b B n_hid h0 h0' -> agree_at b B n_hid c0 c0' ->
  Forall2 (agree_at b B n) xs xs' ->
  let r := scan (lstm_cell W_ih W_hh b_ih b_hh) (h0, c0) xs in
  let r' := scan (lstm_cell W_ih W_hh b_ih b_hh) (h0', c0') xs' in
  agree_at b B n_hid (fst (fst r)) (fst (fst r')) /\
  agree_at b B n_hid (snd (fst r)) (snd (fst r')) /\
  Forall2 (agree_at b B n_hid) (snd r) (snd r').
Proof.
  intros Hn Swih Swhh Sbih Sbhh Hh Hc Hxs r r'. subst r r'.
  destruct (scan_rel (lstm_cell W_ih W_hh b_ih b_hh)
              (fun hc hc' => agree_at b B n_hid (fst hc) (fst hc') /\
                             agree_at b B n_hid (snd hc) (snd hc'))
              (agree_at b B n) (agree_at b B n_hid)
              xs xs' (h0, c0) (h0', c0')) as [[R1 R2] R3]; try done.
  intros [h c] [h' c'] x x' [Rh Rc] Rx. cbn [fst snd] in Rh, Rc.
  destruct (lstm_cell_row n W_ih W_hh b_ih b_hh h c x h' c' x'
              Hn Swih Swhh Sbih Sbhh Rh Rc Rx) as (A1 & A2 & A3).
  done.
Qed.

End Rows.

Lemma agree_at_tensors {A : Type} (b B n T : nat)
  (t t' : list (list (list A))) :
  is_tensor3 T B n t -> is_tensor3 T B n t' -> same_row b t t' ->
  Forall2 (agree_at b B n) t t'.
Proof.
  intros [Hl Ht] [Hl' Ht'] Hsame.
  apply Forall2_same_length_lookup_2; [lia|].
  intros i m m' Hm Hm'. rewrite Forall_lookup in Ht, Ht'.
  split; [by eapply Ht|]. split; [by eapply Ht'|].
  exact (Forall2_lookup_lr _ _ _ _ _ _ Hsame Hm Hm').
Qed.

Lemma agree_at_same_row {A : Type} (b B n : nat)
  (t t' : list (list (list A))) :
  Forall2 (agree_at b B n) t t' ->
  is_tensor3 (length t) B n t /\ is_tensor3 (length t) B n t' /\
  same_row b t t'.
Proof.
  intros Hrel. pose proof (Forall2_length _ _ _ Hrel) as Hlen.
  split; [|split].
  - split; [done|]. eapply Forall2_Forall_l; [exact Hrel|].
    apply Forall_forall. by intros m' _ m (Hm & _).
  - split; [done|]. eapply Forall2_Forall_r; [exact Hrel|].
    apply Forall_forall. by intros m _ m' (_ & Hm & _).
  - eapply Forall2_impl; [exact Hrel|]. by intros m m' (_ & _ & Hmm).
Qed.

Lemma agree_at_snoc {A : Type} (b B n : nat) (t t' : list (list (list A)))
  (m m' : list (list A)) :
  Forall2 (agree_at b B n) t t' -> agree_at b B n m m' ->
  Forall2 (agree_at b B n) (t ++ [m]) (t' ++ [m']).
Proof. intros Ht Hm. apply Forall2_app; [done|]. by constructor. Qed.

Lemma ref_layer_scan {F : Type} `{Scalar F}
  (h_0 c_0 : list (list (list F)))
  (W_ih W_hh : gmap Z (list (list F))) (b_ih b_hh : gmap Z (list F))
  (l : Z) wih whh bih bhh h0 c0 (s : ref_state F) :
  W_ih !! l = Some wih -> W_hh !! l = Some whh ->
  b_ih !! l = Some bih -> b_hh !! l = Some bhh ->
  h_0 !! Z.to_nat l = Some h0 -> c_0 !! Z.to_nat l = Some c0 ->
  ref_layer h_0 c_0 W_ih W_hh b_ih b_hh l s =
  let r := scan (lstm_cell wih whh bih bhh) (h0, c0) (seq_first_y s) in
  Ok (mkRef (snd r) (seq_first_y_fwd s)
        (final_h s ++ [fst (fst r)]) (final_c s ++ [snd (fst r)])).
Proof.
  intros Hwih Hwhh Hbih Hbhh Hh0 Hc0. unfold ref_layer.
  rewrite (cell_of_present W_ih W_hh b_ih b_hh l wih whh bih bhh)
    by done.
  rewrite (jax_index_in_range h_0 l h0), (jax_index_in_range c_0 l c0)
    by done.
  cbn [mbind result_bind].
  by destruct (scan _ _ _) as [[h_t c_t] ys].
Qed.

Lemma same_row_concat {A : Type} (b : nat)
  (f f' r r' : list (list (list A))) :
  same_row b f f' -> same_row b r r' ->
  same_row b (zip_with (zip_with app) f r) (zip_with (zip_with app) f' r').
Proof.
  intros Hf. revert r r'.
  induction Hf as [|m m' f f' Hm Hf IH]; intros r r' Hr; [constructor|].
  destruct Hr as [|k k' r r' Hk Hr]; [constructor|].
  cbn [zip_with]. constructor; [|by apply IH].
  by rewrite (lookup_zip_with app m k), (lookup_zip_with app m' k'), Hm, Hk.
Qed.

Lemma agree_at_concat {A : Type} (b B n T : nat)
  (f f' r r' : list (list (list A))) :
  length f = T -> length r = T ->
  Forall2 (agree_at b B n) f f' -> Forall2 (agree_at b B n) r r' ->
  Forall2 (agree_at b B (n + n))
    (zip_with (zip_with app) f r) (zip_with (zip_with app) f' r').
Proof.
  intros Lf Lr Hf Hr.
  destruct (agree_at_same_row _ _ _ _ _ Hf) as (F1 & F2 & F3).
  destruct (agree_at_same_row _ _ _ _ _ Hr) as (R1 & R2 & R3).
  rewrite Lf in F1, F2. rewrite Lr in R1, R2.
  apply (agree_at_tensors b B (n + n) T).
  - by apply concat_features_tensor3.
  - by apply concat_features_tensor3.
  - by apply same_row_concat.
Qed.

(** A reverse scan of the cell keeps the rows [b] of two runs equal. *)
Lemma scan_reverse_cell_rows {F : Type} `{Scalar F} (b B n_hid n : nat)
  (W_ih W_hh : list (list F)) (b_ih b_hh : list F)
  (h0 c0 h0' c0' : list (list F)) (xs xs' : list (list (list F))) :
  (0 < n_hid)%nat -> (0 < n)%nat ->
  is_matrix (4 * n_hid) n W_ih -> is_matrix (4 * n_hid) n_hid W_hh ->
  length b_ih = (4 * n_hid)%nat -> length b_hh = (4 * n_hid)%nat ->
  agree_at b B n_hid h0 h0' -> agree_at b B n_hid c0 c0' ->
  Forall2 (agree_at b B n) xs xs' ->
  let r := scan_reverse (lstm_cell W_ih W_hh b_ih b_hh) (h0, c0) xs in
  let r' := scan_reverse (lstm_cell W_ih W_hh b_ih b_hh) (h0', c0') xs' in
  agree_at b B n_hid (fst (fst r)) (fst (fst r')) /\
  agree_at b B n_hid (snd (fst r)) (snd (fst r')) /\
  Forall2 (agree_at b B n_hid) (snd r) (snd r') /\
  length (snd r) = length xs.
Proof.
  intros Hhid Hn Swih Swhh Sbih Sbhh Hh Hc Hxs r r'. subst r r'.
  destruct (scan_cell_rows b B n_hid Hhid n W_ih W_hh b_ih b_hh h0 c0 h0' c0'
              (reverse xs) (reverse xs') Hn Swih Swhh Sbih Sbhh Hh Hc
              (Forall2_reverse _ _ _ Hxs)) as (A1 & A2 & A3).
  pose proof (scan_length (lstm_cell W_ih W_hh b_ih b_hh) (reverse xs)
                (h0, c0)) as Hlen.
  unfold scan_reverse.
  destruct (scan _ (h0, c0) (reverse xs)) as [carry ys].
  destruct (scan _ (h0', c0') (reverse xs')) as [carry' ys'].
  cbn [fst snd] in *. repeat (split; [done|]). split.
  - by apply Forall2_reverse.
  - by rewrite length_reverse, Hlen, length_reverse.
Qed.

Section BatchRows.
Context {F : Type} `{Scalar F}.
Variables (B T n_in n_hid L b : nat).
Variables (x x' h_0 h_0' c_0 c_0' : list (list (list F))).
Variables (W_ih W_hh : gmap Z (list (list F))) (b_ih b_hh : gmap Z (list F)).
Hypothesis HB : (0 < B)%nat.
Hypothesis HT : (0 < T)%nat.
Hypothesis Hin : (0 < n_in)%nat.
Hypothesis Hhid : (0 < n_hid)%nat.
Hypothesis Hx : is_tensor3 B T n_in x.
Hypothesis Hx' : is_tensor3 B T n_in x'.
Hypothesis Hxb : x !! b = x' !! b.

(** The start of both layer loops on two inputs with the same batch
    element [b]. *)
Lemma batch_rows_start :
  Forall2 (agree_at b B n_in) (transpose x) (transpose x') /\
  length (transpose x) = T.
Proof.
  pose proof (transpose_tensor3 B T n_in x HB Hx) as S1.
  pose proof (transpose_tensor3 B T n_in x' HB Hx') as S2.
  split; [|apply S1].
  apply (agree_at_tensors b B n_in T); try done.
  by apply (same_row_transpose B T n_in).
Qed.

Lemma initial_rows (n : nat) (t t' : list (list (list F))) (j : nat) :
  is_tensor3 n B n_hid t -> is_tensor3 n B n_hid t' -> same_row b t t' ->
  (j < n)%nat ->
  exists m m', t !! j = Some m /\ t' !! j = Some m' /\
               agree_at b B n_hid m m'.
Proof.
  intros St St' Hsame Hj.
  destruct (tensor3_lookup _ _ _ t j St Hj) as (m & Hm & Sm).
  destruct (tensor3_lookup _ _ _ t' j St' Hj) as (m' & Hm' & Sm').
  exists m, m'. refine (conj Hm (conj Hm' (conj Sm (conj Sm' _)))).
  exact (Forall2_lookup_lr _ _ _ _ _ _ Hsame Hm Hm').
Qed.

Section OneDirection.
Hypothesis Hh0 : is_tensor3 L B n_hid h_0.
Hypothesis Hh0' : is_tensor3 L B n_hid h_0'.
Hypothesis Hc0 : is_tensor3 L B n_hid c_0.
Hypothesis Hc0' : is_tensor3 L B n_hid c_0'.
Hypothesis Hhb : same_row b h_0 h_0'.
Hypothesis Hcb : same_row b c_0 c_0'.
Hypothesis HW : forall l, 0 <= l < Z.of_nat L ->
  weights_shaped W_ih W_hh b_ih b_hh (Z.of_nat n_in) (Z.of_nat n_hid) false l.

Lemma batch_rows_loop (k : nat) :
  (k <= L)%nat ->
  exists s s',
    for_each (range (Z.of_nat k)) (ref_layer h_0 c_0 W_ih W_hh b_ih b_hh)
      (mkRef (transpose x) None [] []) = Ok s /\
    for_each (range (Z.of_nat k)) (ref_layer h_0' c_0' W_ih W_hh b_ih b_hh)
      (mkRef (transpose x') None [] []) = Ok s' /\
    Forall2 (agree_at b B (match k with O => n_in | _ => n_hid end))
      (seq_first_y s) (seq_first_y s') /\
    length (seq_first_y s) = T /\
    Forall2 (agree_at b B n_hid) (final_h s) (final_h s') /\
    length (final_h s) = k /\
    Forall2 (agree_at b B n_hid) (final_c s) (final_c s') /\
    length (final_c s) = k.
Proof.
  intros Hk.
  apply (for_each_range_rel (ref_layer h_0 c_0 W_ih W_hh b_ih b_hh)
           (ref_layer h_0' c_0' W_ih W_hh b_ih b_hh)
           (fun k s s' =>
              Forall2 (agree_at b B (match k with O => n_in | _ => n_hid end))
                (seq_first_y s) (seq_first_y s') /\
              length (seq_first_y s) = T /\
              Forall2 (agree_at b B n_hid) (final_h s) (final_h s') /\
              length (final_h s) = k /\
              Forall2 (agree_at b B n_hid) (final_c s) (final_c s') /\
              length (final_c s) = k)).
  - cbn [seq_first_y final_h final_c length].
    destruct batch_rows_start as [R1 R2].
    refine (conj R1 (conj R2 (conj _ (conj _ (conj _ _)))));
      done || constructor.
  - intros j s s' Hj (Rseq & Lseq & Rh & Lh & Rc & Lc).
    destruct (weights_shaped_sizes W_ih W_hh b_ih b_hh n_in n_hid false
                (Z.of_nat j) (HW (Z.of_nat j) ltac:(lia)))
      as (wih & whh & bih & bhh & H1 & H2 & H3 & H4 & S1 & S2 & S3 & S4).
    rewrite andb_false_r, orb_false_r, Nat.mul_1_l in S1.
    destruct (initial_rows L h_0 h_0' j Hh0 Hh0' Hhb ltac:(lia))
      as (h0 & h0' & Eh & Eh' & Ah).
    destruct (initial_rows L c_0 c_0' j Hc0 Hc0' Hcb ltac:(lia))
      as (c0 & c0' & Ec & Ec' & Ac).
    assert (Hpos : (0 < match j with O => n_in | _ => n_hid end)%nat)
      by (by destruct j).
    assert (S1' : is_matrix (4 * n_hid)
                    (match j with O => n_in | _ => n_hid end) wih)
      by (by destruct j).
    rewrite (ref_layer_scan h_0 c_0 W_ih W_hh b_ih b_hh (Z.of_nat j)
               wih whh bih bhh h0 c0) by (try done; by rewrite Nat2Z.id).
    rewrite (ref_layer_scan h_0' c_0' W_ih W_hh b_ih b_hh (Z.of_nat j)
               wih whh bih bhh h0' c0') by (try done; by rewrite Nat2Z.id).
    cbv zeta.
    destruct (scan_cell_rows b B n_hid Hhid _ wih whh bih bhh h0 c0 h0' c0'
                (seq_first_y s) (seq_first_y s') Hpos S1' S2 S3 S4 Ah Ac Rseq)
      as (A1 & A2 & A3).
    eexists _, _. split; [reflexivity|]. split; [reflexivity|].
    cbn [seq_first_y final_h final_c]. rewrite !length_app. cbn [length].
    refine (conj A3 (conj _ (conj _ (conj _ (conj _ _))))); try lia.
    + by rewrite scan_length.
    + by apply agree_at_snoc.
    + by apply agree_at_snoc.
Qed.

Lemma batch_rows_unidirectional (seq_lengths seq_lengths' : IntArray)
  (dropout : float) :
  PrimFloat.eqb dropout 0%float = true -> (0 < L)%nat ->
  exists y h_n c_n y' h_n' c_n',
    lstm_ref x h_0 c_0 W_ih W_hh b_ih b_hh seq_lengths
      (Z.of_nat n_in) (Z.of_nat n_hid) (Z.of_nat L) dropout false =
      Ok (y, h_n, c_n) /\
    lstm_ref x' h_0' c_0' W_ih W_hh b_ih b_hh seq_lengths'
      (Z.of_nat n_in) (Z.of_nat n_hid) (Z.of_nat L) dropout false =
      Ok (y', h_n', c_n') /\
    y !! b = y' !! b /\ same_row b h_n h_n' /\ same_row b c_n c_n'.
Proof.
  intros Hd HL.
  destruct (batch_rows_loop L ltac:(lia))
    as (s & s' & Hs & Hs' & Rseq & Lseq & Rh & Lh & Rc & Lc).
  unfold lstm_ref. rewrite Hd. cbn [negb]. rewrite Hs, Hs'.
  cbn [mbind result_bind].
  pose proof (Forall2_length _ _ _ Rh) as Lh'.
  pose proof (Forall2_length _ _ _ Rc) as Lc'.
  destruct (agree_at_same_row _ _ _ _ _ Rseq) as ([_ Q1] & [_ Q2] & Q3).
  destruct (agree_at_same_row _ _ _ _ _ Rh) as (_ & _ & Q4).
  destruct (agree_at_same_row _ _ _ _ _ Rc) as (_ & _ & Q5).
  destruct (final_h s) as [|fh fhs]; [simpl in Lh; lia|].
  destruct (final_c s) as [|fc fcs]; [simpl in Lc; lia|].
  destruct (final_h s') as [|fh' fhs']; [simpl in Lh'; lia|].
  destruct (final_c s') as [|fc' fcs']; [simpl in Lc'; lia|].
  cbn [stack mbind result_bind].
  eexists _, _, _, _, _, _. split; [reflexivity|]. split; [reflexivity|].
  split; [|by split].
  apply (transpose_same_row T B); try done.
  - by rewrite <- (Forall2_length _ _ _ Rseq).
  - eapply Forall_impl; [exact Q1|]. by intros m [Hm _].
  - eapply Forall_impl; [exact Q2|]. by intros m [Hm _].
Qed.

End OneDirection.

Section TwoDirections.
Hypothesis Hh0 : is_tensor3 (2 * L) B n_hid h_0.
Hypothesis Hh0' : is_tensor3 (2 * L) B n_hid h_0'.
Hypothesis Hc0 : is_tensor3 (2 * L) B n_hid c_0.
Hypothesis Hc0' : is_tensor3 (2 * L) B n_hid c_0'.
Hypothesis Hhb : same_row b h_0 h_0'.
Hypothesis Hcb : same_row b c_0 c_0'.
Hypothesis HW : forall l, 0 <= l < Z.of_nat (2 * L) ->
  weights_shaped W_ih W_hh b_ih b_hh (Z.of_nat n_in) (Z.of_nat n_hid) true l.

Lemma batch_rows_pseudo_loop (k : nat) :
  (k <= 2 * L)%nat ->
  exists s s',
    for_each (range (Z.of_nat k))
      (ref_pseudo_layer h_0 c_0 W_ih W_hh b_ih b_hh)
      (mkRef (transpose x) None [] []) = Ok s /\
    for_each (range (Z.of_nat k))
      (ref_pseudo_layer h_0' c_0' W_ih W_hh b_ih b_hh)
      (mkRef (transpose x') None [] []) = Ok s' /\
    Forall2 (agree_at b B (if (k <? 2)%nat then n_in else (2 * n_hid)%nat))
      (seq_first_y s) (seq_first_y s') /\
    length (seq_first_y s) = T /\
    Forall2 (agree_at b B n_hid) (final_h s) (final_h s') /\
    length (final_h s) = k /\
    Forall2 (agree_at b B n_hid) (final_c s) (final_c s') /\
    length (final_c s) = k /\
    (Nat.odd k = true ->
     exists fwd fwd',
       seq_first_y_fwd s = Some fwd /\ seq_first_y_fwd s' = Some fwd' /\
       Forall2 (agree_at b B n_hid) fwd fwd' /\ length fwd = T).
Proof.
  intros Hk.
  apply (for_each_range_rel (ref_pseudo_layer h_0 c_0 W_ih W_hh b_ih b_hh)
           (ref_pseudo_layer h_0' c_0' W_ih W_hh b_ih b_hh)
           (fun k s s' =>
              Forall2
                (agree_at b B
                   (if (k <? 2)%nat then n_in else (2 * n_hid)%nat))
                (seq_first_y s) (seq_first_y s') /\
              length (seq_first_y s) = T /\
              Forall2 (agree_at b B n_hid) (final_h s) (final_h s') /\
              length (final_h s) = k /\
              Forall2 (agree_at b B n_hid) (final_c s) (final_c s') /\
              length (final_c s) = k /\
              (Nat.odd k = true ->
               exists fwd fwd',
                 seq_first_y_fwd s = Some fwd /\
                 seq_first_y_fwd s' = Some fwd' /\
                 Forall2 (agree_at b B n_hid) fwd fwd' /\
                 length fwd = T))).
  - cbn [seq_first_y final_h final_c length].
    destruct batch_rows_start as [R1 R2].
    refine (conj R1 (conj R2 (conj _ (conj _ (conj _ (conj _ _))))));
      done || constructor.
  - intros j s s' Hj (Rseq & Lseq & Rh & Lh & Rc & Lc & Hodd).
    destruct (weights_shaped_sizes W_ih W_hh b_ih b_hh n_in n_hid true
                (Z.of_nat j) (HW (Z.of_nat j) ltac:(lia)))
      as (wih & whh & bih & bhh & H1 & H2 & H3 & H4 & S1 & S2 & S3 & S4).
    rewrite andb_true_r in S1.
    assert (Hw : (if (Z.of_nat j =? 0) || (Z.of_nat j =? 1) then n_in
                  else (2 * n_hid)%nat)
                 = (if (j <? 2)%nat then n_in else (2 * n_hid)%nat)).
    { destruct (Z.eqb_spec (Z.of_nat j) 0), (Z.eqb_spec (Z.of_nat j) 1),
        (Nat.ltb_spec j 2); cbn [orb]; try reflexivity; lia. }
    rewrite Hw in S1.
    assert (Hpos : (0 < (if (j <? 2)%nat then n_in else (2 * n_hid)%nat))%nat)
      by (destruct (j <? 2)%nat; lia).
    assert (Hw' : (if (S j <? 2)%nat then n_in else (2 * n_hid)%nat)
                  = (if Nat.even j
                     then if (j <? 2)%nat then n_in else (2 * n_hid)%nat
                     else (2 * n_hid)%nat)).
    { destruct j as [|[|j]]; try reflexivity.
      cbn [Nat.ltb Nat.leb]. by destruct (Nat.even (S (S j))). }
    destruct (initial_rows (2 * L) h_0 h_0' j Hh0 Hh0' Hhb ltac:(lia))
      as (h0 & h0' & Eh & Eh' & Ah).
    destruct (initial_rows (2 * L) c_0 c_0' j Hc0 Hc0' Hcb ltac:(lia))
      as (c0 & c0' & Ec & Ec' & Ac).
    destruct (Nat.even j) eqn:Ej.
    + assert (Hmod : Z.of_nat j mod 2 = 0).
      { apply Nat.even_spec in Ej as [m ->].
        rewrite Nat2Z.inj_mul, Z.mul_comm. apply Z_mod_mult. }
      rewrite (ref_pseudo_layer_forward h_0 c_0 W_ih W_hh b_ih b_hh
                 (Z.of_nat j) wih whh bih bhh h0 c0) by
          (try done; by rewrite Nat2Z.id).
      rewrite (ref_pseudo_layer_forward h_0' c_0' W_ih W_hh b_ih b_hh
                 (Z.of_nat j) wih whh bih bhh h0' c0') by
          (try done; by rewrite Nat2Z.id).
      cbv zeta.
      destruct (scan_cell_rows b B n_hid Hhid _ wih whh bih bhh h0 c0 h0' c0'
                  (seq_first_y s) (seq_first_y s') Hpos S1 S2 S3 S4 Ah Ac
                  Rseq) as (A1 & A2 & A3).
      eexists _, _. split; [reflexivity|]. split; [reflexivity|].
      cbn [seq_first_y seq_first_y_fwd final_h final_c].
      rewrite !length_app. cbn [length]. rewrite Hw'.
      refine (conj Rseq (conj Lseq (conj _ (conj _ (conj _ (conj _ _))))));
        try lia.
      * by apply agree_at_snoc.
      * by apply agree_at_snoc.
      * intros _. eexists _, _. split; [reflexivity|].
        split; [reflexivity|]. split; [exact A3|].
        by rewrite scan_length.
    + assert (Eo : Nat.odd j = true) by (by rewrite <- Nat.negb_even, Ej).
      destruct (Hodd Eo) as (fwd & fwd' & Efwd & Efwd' & Rfwd & Lfwd).
      assert (Hmod : Z.of_nat j mod 2 = 1).
      { apply Nat.odd_spec in Eo as [m ->].
        rewrite Nat2Z.inj_add, Nat2Z.inj_mul, Z.add_comm, Z.mul_comm.
        by rewrite Z_mod_plus_full. }
      rewrite (ref_pseudo_layer_reverse h_0 c_0 W_ih W_hh b_ih b_hh
                 (Z.of_nat j) wih whh bih bhh h0 c0 H1 H2 H3 H4
                 ltac:(by rewrite Nat2Z.id) ltac:(by rewrite Nat2Z.id)
                 s fwd Hmod Efwd).
      rewrite (ref_pseudo_layer_reverse h_0' c_0' W_ih W_hh b_ih b_hh
                 (Z.of_nat j) wih whh bih bhh h0' c0' H1 H2 H3 H4
                 ltac:(by rewrite Nat2Z.id) ltac:(by rewrite Nat2Z.id)
                 s' fwd' Hmod Efwd').
      cbv zeta.
      destruct (scan_reverse_cell_rows b B n_hid _ wih whh bih bhh h0 c0
                  h0' c0' (seq_first_y s) (seq_first_y s') Hhid Hpos
                  S1 S2 S3 S4 Ah Ac Rseq) as (A1 & A2 & A3 & A4).
      eexists _, _. split; [reflexivity|]. split; [reflexivity|].
      cbn [seq_first_y seq_first_y_fwd final_h final_c].
      rewrite !length_app. cbn [length]. rewrite Hw'.
      refine (conj _ (conj _ (conj _ (conj _ (conj _ (conj _ _))))));
        try lia.
      * replace (2 * n_hid)%nat with (n_hid + n_hid)%nat by lia.
        apply (agree_at_concat b B n_hid T); try done. lia.
      * rewrite length_zip_with. lia.
      * by apply agree_at_snoc.
      * by apply agree_at_snoc.
      * rewrite Nat.odd_succ, Ej. discriminate.
Qed.

Lemma batch_rows_bidirectional (seq_lengths seq_lengths' : IntArray)
  (dropout : float) :
  PrimFloat.eqb dropout 0%float = true -> (0 < L)%nat ->
  exists y h_n c_n y' h_n' c_n',
    lstm_ref x h_0 c_0 W_ih W_hh b_ih b_hh seq_lengths
      (Z.of_nat n_in) (Z.of_nat n_hid) (Z.of_nat L) dropout true =
      Ok (y, h_n, c_n) /\
    lstm_ref x' h_0' c_0' W_ih W_hh b_ih b_hh seq_lengths'
      (Z.of_nat n_in) (Z.of_nat n_hid) (Z.of_nat L) dropout true =
      Ok (y', h_n', c_n') /\
    y !! b = y' !! b /\ same_row b h_n h_n' /\ same_row b c_n c_n'.
Proof.
  intros Hd HL.
  destruct (batch_rows_pseudo_loop (2 * L) ltac:(lia))
    as (s & s' & Hs & Hs' & Rseq & Lseq & Rh & Lh & Rc & Lc & _).
  unfold lstm_ref. rewrite Hd. cbn [negb].
  replace (Z.of_nat L * 2) with (Z.of_nat (2 * L)) by lia.
  rewrite Hs, Hs'. cbn [mbind result_bind].
  pose proof (Forall2_length _ _ _ Rh) as Lh'.
  pose proof (Forall2_length _ _ _ Rc) as Lc'.
  destruct (agree_at_same_row _ _ _ _ _ Rseq) as ([_ Q1] & [_ Q2] & Q3).
  destruct (agree_at_same_row _ _ _ _ _ Rh) as (_ & _ & Q4).
  destruct (agree_at_same_row _ _ _ _ _ Rc) as (_ & _ & Q5).
  destruct (final_h s) as [|fh fhs]; [simpl in Lh; lia|].
  destruct (final_c s) as [|fc fcs]; [simpl in Lc; lia|].
  destruct (final_h s') as [|fh' fhs']; [simpl in Lh'; lia|].
  destruct (final_c s') as [|fc' fcs']; [simpl in Lc'; lia|].
  cbn [stack mbind result_bind].
  eexists _, _, _, _, _, _. split; [reflexivity|]. split; [reflexivity|].
  split; [|by split].
  apply (transpose_same_row T B); try done.
  - by rewrite <- (Forall2_length _ _ _ Rseq).
  - eapply Forall_impl; [exact Q1|]. by intros m [Hm _].
  - eapply Forall_impl; [exact Q2|]. by intros m [Hm _].
Qed.

End TwoDirections.

End BatchRows.

(** X10. Batch elements do not interact: on two calls with the same weights
    whose inputs [x], [h_0] and [c_0] hold the same data for batch element
    [b], [lstm_ref] returns the same [y], [h_n] and [c_n] for batch element
    [b], whatever the other batch elements hold, in one direction or two. *)
Theorem lstm_ref_batch_independent {F : Type} `{Scalar F}
  (B T n_in n_hid L b : nat)
  (x x' h_0 h_0' c_0 c_0' : list (list (list F)))
  (W_ih W_hh : gmap Z (list (list F))) (b_ih b_hh : gmap Z (list F))
  (seq_lengths seq_lengths' : IntArray) (dropout : float)
  (bidirectional : bool) :
  let npl := ((if bidirectional then 2 else 1) * L)%nat in
  PrimFloat.eqb dropout 0%float = true ->
  (0 < B)%nat -> (0 < T)%nat -> (0 < n_in)%nat -> (0 < n_hid)%nat ->
  (0 < L)%nat ->
  is_tensor3 B T n_in x -> is_tensor3 B T n_in x' ->
  is_tensor3 npl B n_hid h_0 -> is_tensor3 npl B n_hid h_0' ->
  is_tensor3 npl B n_hid c_0 -> is_tensor3 npl B n_hid c_0' ->
  (forall l, 0 <= l < Z.of_nat npl ->
     weights_shaped W_ih W_hh b_ih b_hh (Z.of_nat n_in) (Z.of_nat n_hid)
       bidirectional l) ->
  x !! b = x' !! b -> same_row b h_0 h_0' -> same_row b c_0 c_0' ->
  exists y h_n c_n y' h_n' c_n',
    lstm_ref x h_0 c_0 W_ih W_hh b_ih b_hh seq_lengths
      (Z.of_nat n_in) (Z.of_nat n_hid) (Z.of_nat L) dropout bidirectional =
      Ok (y, h_n, c_n) /\
    lstm_ref x' h_0' c_0' W_ih W_hh b_ih b_hh seq_lengths'
      (Z.of_nat n_in) (Z.of_nat n_hid) (Z.of_nat L) dropout bidirectional =
      Ok (y', h_n', c_n') /\
    y !! b = y' !! b /\ same_row b h_n h_n' /\ same_row b c_n c_n'.
Proof.
  intros npl Hd HB HT Hin Hhid HL Hx Hx' Hh0 Hh0' Hc0 Hc0' HW Hxb Hhb Hcb.
  subst npl. destruct bidirectional.
  - by apply (batch_rows_bidirectional B T n_in n_hid L b x x' h_0 h_0'
                c_0 c_0' W_ih W_hh b_ih b_hh HB HT Hin Hhid Hx Hx' Hxb
                Hh0 Hh0' Hc0 Hc0' Hhb Hcb HW).
  - rewrite Nat.mul_1_l in *.
    by apply (batch_rows_unidirectional B T n_in n_hid L b x x' h_0 h_0'
                c_0 c_0' W_ih W_hh b_ih b_hh HB HT Hin Hhid Hx Hx' Hxb
                Hh0 Hh0' Hc0 Hc0' Hhb Hcb HW).
Qed.

Lemma lstm_ref_batch_independent_witness :
  exists y h_n c_n y' h_n' c_n',
    lstm_ref [[[1%R]; [0%R]]; [[0%R]; [0%R]]]
      [[[0%R]; [0%R]]; [[0%R]; [0%R]]] [[[0%R]; [0%R]]; [[0%R]; [0%R]]]
      (small_W_ih 0%R 1%R) (small_W_hh 0%R) (small_bias 0%R)
      (small_bias 0%R) (mkIntArray int32 [2] [2; 2]) (Z.of_nat 1) (Z.of_nat 1)
      (Z.of_nat 1) 0%float true = Ok (y, h_n, c_n) /\
    lstm_ref [[[1%R]; [0%R]]; [[1%R]; [1%R]]]
      [[[0%R]; [1%R]]; [[0%R]; [1%R]]] [[[0%R]; [1%R]]; [[0%R]; [0%R]]]
      (small_W_ih 0%R 1%R) (small_W_hh 0%R) (small_bias 0%R)
      (small_bias 0%R) (mkIntArray int32 [2] [2; 2]) (Z.of_nat 1) (Z.of_nat 1)
      (Z.of_nat 1) 0%float true = Ok (y', h_n', c_n') /\
    y !! 0%nat = y' !! 0%nat /\
    same_row 0 h_n h_n' /\ same_row 0 c_n c_n'.
Proof.
  apply (lstm_ref_batch_independent 2 2 1 1 1 0
           [[[1%R]; [0%R]]; [[0%R]; [0%R]]] [[[1%R]; [0%R]]; [[1%R]; [1%R]]]
           [[[0%R]; [0%R]]; [[0%R]; [0%R]]] [[[0%R]; [1%R]]; [[0%R]; [1%R]]]
           [[[0%R]; [0%R]]; [[0%R]; [0%R]]] [[[0%R]; [1%R]]; [[0%R]; [0%R]]]
           (small_W_ih 0%R 1%R) (small_W_hh 0%R) (small_bias 0%R)
           (small_bias 0%R) (mkIntArray int32 [2] [2; 2])
           (mkIntArray int32 [2] [2; 2]) 0%float true);
    try lia; try reflexivity;
    try (split; try reflexivity; repeat constructor).
  - intros l Hl. apply small_weights_shaped. simpl in Hl. lia.
  - repeat constructor.
  - repeat constructor.
Defined.

(** ** The forward direction of a bidirectional layer *)

Lemma zip_cons_fmap {A B : Type} (g : A -> B) (r : list A)
  (M : list (list A)) :
  zip_with cons (map g r) (map (map g) M) = map (map g) (zip_with cons r M).
Proof.
  revert M. induction r as [|a r IH]; intros [|c M]; try reflexivity.
  cbn [map zip_with]. by rewrite IH.
Qed.

Lemma transpose_fmap {A B : Type} (g : A -> B) (m : list (list A)) :
  transpose (map (map g) m) = map (map g) (transpose m).
Proof.
  induction m as [|r m IH]; [reflexivity|].
  destruct m as [|r' m].
  - cbn [map transpose]. by rewrite !map_map.
  - rewrite transpose_cons by done.
    change (map (map g) (r :: r' :: m))
      with (map g r :: map (map g) (r' :: m)).
    rewrite transpose_cons by done.
    by rewrite IH, zip_cons_fmap.
Qed.

Lemma take_features_row {A : Type} (n : nat) (m k : list (list A)) :
  Forall (fun u => length u = n) m -> (length m <= length k)%nat ->
  map (take n) (zip_with app m k) = m.
Proof.
  intros Hm. revert k. induction Hm as [|u m Hu Hm IH]; intros [|w k] Hlen;
    try reflexivity; simpl in Hlen; [lia|].
  cbn [zip_with map]. rewrite IH by lia. by rewrite take_app_length'.
Qed.

(** The first [n] features of the joined outputs are the forward
    outputs. *)
Lemma take_features {A : Type} (B T n : nat)
  (fwd bwd : list (list (list A))) :
  is_tensor3 T B n fwd -> is_tensor3 T B n bwd ->
  map (map (take n)) (zip_with (zip_with app) fwd bwd) = fwd.
Proof.
  intros [Lf Hf] [Lr Hr]. revert bwd T Lf Lr Hr.
  induction Hf as [|m f Hm Hf IH]; intros [|k r] T Lf Lr Hr;
    try reflexivity; simpl in Lf, Lr; [lia|].
  apply Forall_cons in Hr as [Hk Hr].
  cbn [zip_with map]. rewrite (IH r (length f)) by (done || lia).
  rewrite take_features_row; [done|apply Hm|].
  destruct Hm as [-> _], Hk as [-> _]. lia.
Qed.

(** X21. With one layer, the forward direction of the bidirectional reference
    LSTM is the unidirectional LSTM of pseudo-layer 0: on well-shaped
    operands, the call with [bidirectional] false on the first entries of
    [h_0] and [c_0] returns the first [hidden_size] features of the
    bidirectional [y] and the first entries of the bidirectional [h_n] and
    [c_n]. The reverse direction leaves them untouched. *)
Theorem forward_direction_alone {F : Type} `{Scalar F}
  (B T n_in n_hid : nat) (x h_0 c_0 : list (list (list F)))
  (W_ih W_hh : gmap Z (list (list F))) (b_ih b_hh : gmap Z (list F))
  (seq_lengths : IntArray) (dropout : float) :
  PrimFloat.eqb dropout 0%float = true ->
  (0 < B)%nat -> (0 < T)%nat -> (0 < n_in)%nat -> (0 < n_hid)%nat ->
  is_tensor3 B T n_in x ->
  is_tensor3 2 B n_hid h_0 -> is_tensor3 2 B n_hid c_0 ->
  (forall l, 0 <= l < 2 ->
     weights_shaped W_ih W_hh b_ih b_hh (Z.of_nat n_in) (Z.of_nat n_hid)
       true l) ->
  exists y h_n c_n,
    lstm_ref x h_0 c_0 W_ih W_hh b_ih b_hh seq_lengths
      (Z.of_nat n_in) (Z.of_nat n_hid) 1 dropout true = Ok (y, h_n, c_n) /\
    lstm_ref x (take 1 h_0) (take 1 c_0) W_ih W_hh b_ih b_hh seq_lengths
      (Z.of_nat n_in) (Z.of_nat n_hid) 1 dropout false =
      Ok (map (map (take n_hid)) y, take 1 h_n, take 1 c_n).
Proof.
  intros Hd HB HT Hin Hhid Hx Hh0 Hc0 HW.
  pose proof (transpose_tensor3 B T n_in x HB Hx) as Hxs.
  destruct (weights_shaped_sizes W_ih W_hh b_ih b_hh n_in n_hid true 0
              (HW 0 ltac:(lia)))
    as (wih0 & whh0 & bih0 & bhh0 & E1 & E2 & E3 & E4 & S1 & S2 & S3 & S4).
  destruct (weights_shaped_sizes W_ih W_hh b_ih b_hh n_in n_hid true 1
              (HW 1 ltac:(lia)))
    as (wih1 & whh1 & bih1 & bhh1 & G1 & G2 & G3 & G4 & R1 & R2 & R3 & R4).
  cbn [Z.eqb Pos.eqb orb andb] in S1, R1.
  destruct h_0 as [|h00 [|h01 [|? ?]]];
    try (destruct Hh0 as [Hl _]; simpl in Hl; lia).
  destruct c_0 as [|c00 [|c01 [|? ?]]];
    try (destruct Hc0 as [Hl _]; simpl in Hl; lia).
  destruct Hh0 as [_ Hh0], Hc0 as [_ Hc0].
  apply Forall_cons in Hh0 as [Sh00 Hh0], Hc0 as [Sc00 Hc0].
  apply Forall_cons in Hh0 as [Sh01 _], Hc0 as [Sc01 _].
  destruct (scan_cell_forward B T n_in n_hid wih0 whh0 bih0 bhh0
              Hin Hhid HT S1 S2 S3 S4 h00 c00 (transpose x) Sh00 Sc00 Hxs)
    as [Sfwd _].
  destruct (scan_cell_reverse B T n_in n_hid wih1 whh1 bih1 bhh1
              h01 c01 (transpose x) Hin Hhid HT R1 R2 R3 R4 Sh01 Sc01 Hxs)
    as [Sbwd _].
  unfold lstm_ref. rewrite Hd. cbn [negb].
  change (range (1 * 2)) with [0; 1]. change (range 1) with [0].
  cbn [for_each].
  rewrite (ref_pseudo_layer_forward [h00; h01] [c00; c01] W_ih W_hh b_ih b_hh
             0 wih0 whh0 bih0 bhh0 h00 c00) by done.
  rewrite (ref_layer_scan (take 1 [h00; h01]) (take 1 [c00; c01])
             W_ih W_hh b_ih b_hh 0 wih0 whh0 bih0 bhh0 h00 c00) by done.
  cbn [mbind result_bind seq_first_y seq_first_y_fwd final_h final_c].
  rewrite (ref_pseudo_layer_reverse [h00; h01] [c00; c01] W_ih W_hh b_ih b_hh
             1 wih1 whh1 bih1 bhh1 h01 c01 G1 G2 G3 G4 eq_refl eq_refl _
             (snd (scan (lstm_cell wih0 whh0 bih0 bhh0) (h00, c00)
                     (transpose x)))) by done.
  cbn [mbind result_bind seq_first_y seq_first_y_fwd final_h final_c app
       stack].
  eexists _, _, _. split; [reflexivity|].
  rewrite <- transpose_fmap, (take_features B T n_hid) by done.
  reflexivity.
Qed.

Lemma forward_direction_alone_witness :
  exists y h_n c_n,
    lstm_ref (small_x 0%R 1%R) (small_state 0%R) (small_state 0%R)
      (small_W_ih 0%R 1%R) (small_W_hh 0%R) (small_bias 0%R)
      (small_bias 0%R) small_seq_lengths (Z.of_nat 1) (Z.of_nat 1) 1
      0%float true = Ok (y, h_n, c_n) /\
    lstm_ref (small_x 0%R 1%R) (take 1 (small_state 0%R))
      (take 1 (small_state 0%R)) (small_W_ih 0%R 1%R) (small_W_hh 0%R)
      (small_bias 0%R) (small_bias 0%R) small_seq_lengths (Z.of_nat 1)
      (Z.of_nat 1) 1 0%float false =
      Ok (map (map (take 1)) y, take 1 h_n, take 1 c_n).
Proof.
  apply (forward_direction_alone 1 2 1 1 (small_x 0%R 1%R)
           (small_state 0%R) (small_state 0%R) (small_W_ih 0%R 1%R)
           (small_W_hh 0%R) (small_bias 0%R) (small_bias 0%R)
           small_seq_lengths 0%float);
    try lia; try reflexivity;
    try (split; try reflexivity; repeat constructor).
  intros l Hl. by apply small_weights_shaped.
Defined.

(** ** The reverse direction of a bidirectional layer *)

Lemma transpose_reverse {A : Type} (c : nat) (m : list (list A)) :
  m ≠ [] -> Forall (fun r => length r = c) m ->
  transpose (reverse m) = map reverse (transpose m).
Proof.
  intros Hm Hall.
  assert (Hm' : reverse m ≠ []).
  { intros E. apply (f_equal length) in E.
    rewrite length_reverse in E. by destruct m. }
  assert (Hall' : Forall (fun r => length r = c) (reverse m))
    by (by apply Forall_reverse).
  pose proof (transpose_row_lengths c m Hm Hall) as Hcols.
  apply list_eq. intros j. rewrite list_lookup_fmap.
  destruct (decide (j < c)%nat) as [Hj|Hj].
  - destruct (transpose_entry c j (reverse m) Hm' Hall' Hj)
      as (col1 & -> & Hcol1).
    destruct (transpose_entry c j m Hm Hall Hj) as (col2 & E2 & Hcol2).
    rewrite E2. cbn [fmap option_fmap option_map]. f_equal.
    assert (Hlen2 : length col2 = length m).
    { rewrite Forall_lookup in Hcols. by eapply Hcols. }
    apply list_eq. intros i. rewrite Hcol1.
    destruct (decide (i < length m)%nat) as [Hi|Hi].
    + rewrite !reverse_lookup by lia. by rewrite Hcol2, Hlen2.
    + rewrite !(proj2 (lookup_ge_None _ _));
        [done | rewrite length_reverse; lia | rewrite length_reverse; lia].
  - rewrite !(proj2 (lookup_ge_None _ _));
      [done | rewrite (length_transpose c) by done; lia
      | rewrite (length_transpose c) by done; lia].
Qed.

(** Reversing every sequence of a batch-major array reverses the time-major
    array. *)
Lemma transpose_fmap_reverse {A : Type} (c : nat) (m : list (list A)) :
  (0 < c)%nat -> m ≠ [] -> Forall (fun r => length r = c) m ->
  transpose (map reverse m) = reverse (transpose m).
Proof.
  intros Hc Hm Hall.
  pose proof (transpose_row_lengths c m Hm Hall) as Hcols.
  assert (Hlen : (0 < length m)%nat) by (destruct m; [done | simpl; lia]).
  assert (HM : transpose m ≠ []).
  { intros E. apply (f_equal length) in E.
    rewrite (length_transpose c) in E by done. simpl in E. lia. }
  rewrite <- (transpose_involutive c m Hc Hall) at 1.
  rewrite <- (transpose_reverse (length m)) by done.
  apply (transpose_involutive (length m)); [lia|].
  by apply Forall_reverse.
Qed.

Lemma drop_features_row {A : Type} (n : nat) (m k : list (list A)) :
  Forall (fun u => length u = n) m -> (length k <= length m)%nat ->
  map (drop n) (zip_with app m k) = k.
Proof.
  intros Hm. revert k. induction Hm as [|u m Hu Hm IH]; intros [|w k] Hlen;
    try reflexivity; simpl in Hlen; [lia|].
  cbn [zip_with map]. rewrite IH by lia. by rewrite drop_app_length'.
Qed.

(** The last [n] features of the joined outputs are the reverse outputs. *)
Lemma drop_features {A : Type} (B T n : nat)
  (fwd bwd : list (list (list A))) :
  is_tensor3 T B n fwd -> is_tensor3 T B n bwd ->
  map (map (drop n)) (zip_with (zip_with app) fwd bwd) = bwd.
Proof.
  intros [Lf Hf] [Lr Hr]. revert bwd T Lf Lr Hr.
  induction Hf as [|m f Hm Hf IH]; intros [|k r] T Lf Lr Hr;
    try reflexivity; simpl in Lf, Lr; [lia|].
  apply Forall_cons in Hr as [Hk Hr].
  cbn [zip_with map]. rewrite (IH r (length f)) by (done || lia).
  rewrite drop_features_row; [done|apply Hm|].
  destruct Hm as [-> _], Hk as [-> _]. lia.
Qed.

(** X22. With one layer, the reverse direction of the bidirectional reference
    LSTM is the unidirectional LSTM run on the time-reversed input: with
    the weights of pseudo-layer 1 under key 0 and the second entries of
    [h_0] and [c_0], the call with [bidirectional] false on [x] reversed in
    time returns, reversed in time, the last [hidden_size] features of the
    bidirectional [y], and the second entries of the bidirectional [h_n]
    and [c_n]. *)
Theorem reverse_direction_alone {F : Type} `{Scalar F}
  (B T n_in n_hid : nat) (x h_0 c_0 : list (list (list F)))
  (W_ih W_hh W_ih' W_hh' : gmap Z (list (list F)))
  (b_ih b_hh b_ih' b_hh' : gmap Z (list F))
  (seq_lengths : IntArray) (dropout : float) :
  PrimFloat.eqb dropout 0%float = true ->
  (0 < B)%nat -> (0 < T)%nat -> (0 < n_in)%nat -> (0 < n_hid)%nat ->
  is_tensor3 B T n_in x ->
  is_tensor3 2 B n_hid h_0 -> is_tensor3 2 B n_hid c_0 ->
  (forall l, 0 <= l < 2 ->
     weights_shaped W_ih W_hh b_ih b_hh (Z.of_nat n_in) (Z.of_nat n_hid)
       true l) ->
  W_ih' !! 0 = W_ih !! 1 -> W_hh' !! 0 = W_hh !! 1 ->
  b_ih' !! 0 = b_ih !! 1 -> b_hh' !! 0 = b_hh !! 1 ->
  exists y h_n c_n,
    lstm_ref x h_0 c_0 W_ih W_hh b_ih b_hh seq_lengths
      (Z.of_nat n_in) (Z.of_nat n_hid) 1 dropout true = Ok (y, h_n, c_n) /\
    lstm_ref (map reverse x) (drop 1 h_0) (drop 1 c_0) W_ih' W_hh' b_ih'
      b_hh' seq_lengths (Z.of_nat n_in) (Z.of_nat n_hid) 1 dropout false =
      Ok (map reverse (map (map (drop n_hid)) y), drop 1 h_n, drop 1 c_n).
Proof.
  intros Hd HB HT Hin Hhid Hx Hh0 Hc0 HW K1 K2 K3 K4.
  pose proof (transpose_tensor3 B T n_in x HB Hx) as Hxs.
  destruct (weights_shaped_sizes W_ih W_hh b_ih b_hh n_in n_hid true 0
              (HW 0 ltac:(lia)))
    as (wih0 & whh0 & bih0 & bhh0 & E1 & E2 & E3 & E4 & S1 & S2 & S3 & S4).
  destruct (weights_shaped_sizes W_ih W_hh b_ih b_hh n_in n_hid true 1
              (HW 1 ltac:(lia)))
    as (wih1 & whh1 & bih1 & bhh1 & G1 & G2 & G3 & G4 & R1 & R2 & R3 & R4).
  cbn [Z.eqb Pos.eqb orb andb] in S1, R1.
  rewrite G1 in K1. rewrite G2 in K2. rewrite G3 in K3. rewrite G4 in K4.
  destruct h_0 as [|h00 [|h01 [|? ?]]];
    try (destruct Hh0 as [Hl _]; simpl in Hl; lia).
  destruct c_0 as [|c00 [|c01 [|? ?]]];
    try (destruct Hc0 as [Hl _]; simpl in Hl; lia).
  destruct Hh0 as [_ Hh0], Hc0 as [_ Hc0].
  apply Forall_cons in Hh0 as [Sh00 Hh0], Hc0 as [Sc00 Hc0].
  apply Forall_cons in Hh0 as [Sh01 _], Hc0 as [Sc01 _].
  destruct (scan_cell_forward B T n_in n_hid wih0 whh0 bih0 bhh0
              Hin Hhid HT S1 S2 S3 S4 h00 c00 (transpose x) Sh00 Sc00 Hxs)
    as [Sfwd _].
  destruct (scan_cell_reverse B T n_in n_hid wih1 whh1 bih1 bhh1
              h01 c01 (transpose x) Hin Hhid HT R1 R2 R3 R4 Sh01 Sc01 Hxs)
    as [Sbwd _].
  assert (Sys : is_tensor3 T B n_hid
                  (snd (scan (lstm_cell wih1 whh1 bih1 bhh1) (h01, c01)
                          (reverse (transpose x))))).
  { apply (scan_cell_forward B T n_in n_hid wih1 whh1 bih1 bhh1
             Hin Hhid HT R1 R2 R3 R4 h01 c01 _ Sh01 Sc01).
    destruct Hxs as [Hl Hall]. split; [by rewrite length_reverse|].
    by apply Forall_reverse. }
  assert (Hxrev : transpose (map reverse x) = reverse (transpose x)).
  { destruct Hx as [Hl Hall].
    apply (transpose_fmap_reverse T); [done| |].
    - intros ->. simpl in Hl. lia.
    - eapply Forall_impl; [exact Hall|]. by intros m [Hm _]. }
  unfold lstm_ref. rewrite Hd. cbn [negb].
  change (range (1 * 2)) with [0; 1]. change (range 1) with [0].
  cbn [for_each].
  rewrite (ref_pseudo_layer_forward [h00; h01] [c00; c01] W_ih W_hh b_ih b_hh
             0 wih0 whh0 bih0 bhh0 h00 c00) by done.
  rewrite (ref_layer_scan (drop 1 [h00; h01]) (drop 1 [c00; c01])
             W_ih' W_hh' b_ih' b_hh' 0 wih1 whh1 bih1 bhh1 h01 c01) by done.
  cbn [mbind result_bind seq_first_y seq_first_y_fwd final_h final_c].
  rewrite (ref_pseudo_layer_reverse [h00; h01] [c00; c01] W_ih W_hh b_ih b_hh
             1 wih1 whh1 bih1 bhh1 h01 c01 G1 G2 G3 G4 eq_refl eq_refl _
             (snd (scan (lstm_cell wih0 whh0 bih0 bhh0) (h00, c00)
                     (transpose x)))) by done.
  cbn [mbind result_bind seq_first_y seq_first_y_fwd final_h final_c app
       stack].
  eexists _, _, _. split; [reflexivity|].
  rewrite <- transpose_fmap, (drop_features B T n_hid) by done.
  rewrite Hxrev. unfold scan_reverse.
  destruct (scan (lstm_cell wih1 whh1 bih1 bhh1) (h01, c01)
              (reverse (transpose x))) as [[h_t c_t] ys].
  cbn [fst snd drop] in *.
  destruct Sys as [Lys Hys].
  rewrite (transpose_reverse B).
  - rewrite map_map.
    rewrite (map_ext (fun r => reverse (reverse r)) (fun r => r))
      by (intros r; apply reverse_involutive).
    by rewrite map_id.
  - intros ->. simpl in Lys. lia.
  - eapply Forall_impl; [exact Hys|]. by intros m [Hm _].
Qed.

Lemma reverse_direction_alone_witness :
  exists y h_n c_n,
    lstm_ref (small_x 0%R 1%R) (small_state 0%R) (small_state 0%R)
      (small_W_ih 0%R 1%R) (small_W_hh 0%R) (small_bias 0%R)
      (small_bias 0%R) small_seq_lengths (Z.of_nat 1) (Z.of_nat 1) 1
      0%float true = Ok (y, h_n, c_n) /\
    lstm_ref (map reverse (small_x 0%R 1%R)) (drop 1 (small_state 0%R))
      (drop 1 (small_state 0%R)) (small_W_ih 0%R 1%R) (small_W_hh 0%R)
      (small_bias 0%R) (small_bias 0%R) small_seq_lengths (Z.of_nat 1)
      (Z.of_nat 1) 1 0%float false =
      Ok (map reverse (map (map (drop 1)) y), drop 1 h_n, drop 1 c_n).
Proof.
  apply (reverse_direction_alone 1 2 1 1 (small_x 0%R 1%R)
           (small_state 0%R) (small_state 0%R) (small_W_ih 0%R 1%R)
           (small_W_hh 0%R) (small_W_ih 0%R 1%R) (small_W_hh 0%R)
           (small_bias 0%R) (small_bias 0%R) (small_bias 0%R)
           (small_bias 0%R) small_seq_lengths 0%float);
    try lia; try reflexivity;
    try (split; try reflexivity; repeat constructor).
  intros l Hl. by apply small_weights_shaped.
Defined.
